(** * DatePicker: the date-input state machine of fluent-controls

    A shallow embedding of
    [packages/fluent-controls/src/components/DateTime/DatePicker.tsx]:
    the segment formatter ([handleMonth], [handleDay], [handleTyping]),
    the end-deletion rule ([handleDeletion]), the full-string parser
    ([parse]), the edit classifier ([onInput]), the calendar selection
    ([onSelect]), the initial-state resolver ([getInitialState]) and the
    change emitter ([componentDidUpdate]).

    JavaScript strings are [string]s (code units restricted to one byte),
    JavaScript numbers that occur here are integers or NaN and are
    modelled by [option Z] with [None] for NaN. *)

From Stdlib Require Import ZArith Lia Bool List Ascii String DecimalString.
Import ListNotations.

Local Open Scope string_scope.
Local Open Scope Z_scope.

(** ** JavaScript strings *)

Module JsString.

(** [s.length] *)
Definition len (s : string) : Z := Z.of_nat (String.length s).

(** [s[i]]; [None] is [undefined]. *)
Definition charAt (s : string) (i : Z) : option ascii :=
  if i <? 0 then None else String.get (Z.to_nat i) s.

(** [s.substr(start, length)] *)
Definition substr (s : string) (start length : Z) : string :=
  let from := if start <? 0 then Z.max (len s + start) 0 else start in
  String.substring (Z.to_nat from) (Z.to_nat length) s.

(** [s.substr(start)] *)
Definition substr_from (s : string) (start : Z) : string :=
  substr s start (len s).

(** [s.slice(0, stop)] for a non-negative [stop]. *)
Definition slice0 (s : string) (stop : Z) : string :=
  String.substring 0 (Z.to_nat stop) s.

(** ToString applied to the result of an index expression:
    [undefined] prints as the word. *)
Definition ofIndexed (c : option ascii) : string :=
  match c with
  | Some a => String a EmptyString
  | None => "undefined"
  end.

(** [x === '/'] for an indexed character [x]. *)
Definition isSlash (c : option ascii) : bool :=
  match c with
  | Some a => Ascii.eqb a "/"%char
  | None => false
  end.

(** [x !== y] between two indexed characters. *)
Definition differs (c d : option ascii) : bool :=
  match c, d with
  | Some a, Some b => negb (Ascii.eqb a b)
  | None, None => false
  | _, _ => true
  end.

(** [s.split('/')]: the pieces between separators; never empty. *)
Fixpoint splitAcc (cur : string) (s : string) : list string :=
  match s with
  | EmptyString => [cur]
  | String c rest =>
      if Ascii.eqb c "/"%char
      then cur :: splitAcc EmptyString rest
      else splitAcc (cur ++ String c EmptyString) rest
  end.

Definition split (s : string) : list string := splitAcc EmptyString s.

(** [arr[i]] on an array of strings that is known to be long enough
    at every use; the default is never reached there. *)
Definition nth (i : nat) (l : list string) : string := List.nth i l "undefined".

End JsString.

(** ** JavaScript numbers: integers and NaN *)

Module JsNum.

Definition num := option Z.

Definition isNaN (x : num) : bool :=
  match x with None => true | Some _ => false end.

(** [x < k], [x > k]: every comparison with NaN is false. *)
Definition lt (x : num) (k : Z) : bool :=
  match x with Some v => v <? k | None => false end.

Definition gt (x : num) (k : Z) : bool :=
  match x with Some v => v >? k | None => false end.

(** [x !== y] on numbers: NaN differs from everything. *)
Definition neq (x y : num) : bool :=
  match x, y with
  | Some a, Some b => negb (a =? b)
  | _, _ => true
  end.

Definition add (x : num) (k : Z) : num := option_map (fun v => v + k) x.

(** [n.toString()] *)
Definition toString (x : num) : string :=
  match x with
  | Some v => NilZero.string_of_int (Z.to_int v)
  | None => "NaN"
  end.

Definition isWhite (c : ascii) : bool :=
  let n := nat_of_ascii c in
  (Nat.eqb n 9 || Nat.eqb n 10 || Nat.eqb n 11 || Nat.eqb n 12
   || Nat.eqb n 13 || Nat.eqb n 32 || Nat.eqb n 160)%bool.

Fixpoint trimLeft (s : string) : string :=
  match s with
  | String c rest => if isWhite c then trimLeft rest else s
  | EmptyString => s
  end.

(** Value of a character as a digit, for radix up to 16. *)
Definition digitValue (c : ascii) : option Z :=
  let n := Z.of_nat (nat_of_ascii c) in
  if (48 <=? n) && (n <=? 57) then Some (n - 48)
  else if (97 <=? n) && (n <=? 102) then Some (n - 87)
  else if (65 <=? n) && (n <=? 70) then Some (n - 55)
  else None.

(** Longest prefix of digits of the radix, folded into a number;
    [seen] records whether any digit was consumed. *)
Fixpoint digits (radix : Z) (acc : Z) (seen : bool) (s : string) : num :=
  match s with
  | EmptyString => if seen then Some acc else None
  | String c rest =>
      match digitValue c with
      | Some d =>
          if d <? radix then digits radix (acc * radix + d) true rest
          else if seen then Some acc else None
      | None => if seen then Some acc else None
      end
  end.

Definition unsignedInt (s : string) : num :=
  match s with
  | String "0" (String "x" rest) => digits 16 0 false rest
  | String "0" (String "X" rest) => digits 16 0 false rest
  | _ => digits 10 0 false s
  end.

(** [parseInt(s)] with no radix argument. *)
Definition parseInt (s : string) : num :=
  match trimLeft s with
  | String "-" rest => option_map Z.opp (unsignedInt rest)
  | String "+" rest => unsignedInt rest
  | t => unsignedInt t
  end.

End JsNum.

(** ** The platform's Date object

    Time values are milliseconds since 1970-01-01T00:00:00Z; [None] is the
    time value NaN of an Invalid Date.  The calendar is the proleptic
    Gregorian one of ECMAScript, computed by days-from-civil and
    civil-from-days over floor division. *)

Module JsDate.

Definition Date := option Z.

Definition msPerSecond : Z := 1000.
Definition msPerMinute : Z := 60000.
Definition msPerHour : Z := 3600000.
Definition msPerDay : Z := 86400000.
Definition maxTime : Z := 8640000000000000.

(** Day number of the civil date [y]-[m]-[d], [m] counted from 1. *)
Definition daysFromCivil (y m d : Z) : Z :=
  let y' := if m <=? 2 then y - 1 else y in
  let era := y' / 400 in
  let yoe := y' - era * 400 in
  let doy := (153 * (if m >? 2 then m - 3 else m + 9) + 2) / 5 + d - 1 in
  let doe := yoe * 365 + yoe / 4 - yoe / 100 + doy in
  era * 146097 + doe - 719468.

(** Civil date (year, month counted from 1, day of month) of a day number. *)
Definition civilFromDays (z : Z) : Z * Z * Z :=
  let z' := z + 719468 in
  let era := z' / 146097 in
  let doe := z' - era * 146097 in
  let yoe := (doe - doe / 1460 + doe / 36524 - doe / 146096) / 365 in
  let doy := doe - (365 * yoe + yoe / 4 - yoe / 100) in
  let mp := (5 * doy + 2) / 153 in
  let d := doy - (153 * mp + 2) / 5 + 1 in
  let m := if mp <? 10 then mp + 3 else mp - 9 in
  ((if m <=? 2 then yoe + era * 400 + 1 else yoe + era * 400), m, d).

Definition Day (t : Z) : Z := t / msPerDay.
Definition TimeWithinDay (t : Z) : Z := t mod msPerDay.

Definition YearFromTime (t : Z) : Z := fst (fst (civilFromDays (Day t))).
(** Month counted from 0, as [getMonth] reports it. *)
Definition MonthFromTime (t : Z) : Z := snd (fst (civilFromDays (Day t))) - 1.
Definition DateFromTime (t : Z) : Z := snd (civilFromDays (Day t)).
Definition HourFromTime (t : Z) : Z := (t / msPerHour) mod 24.
Definition MinFromTime (t : Z) : Z := (t / msPerMinute) mod 60.
Definition SecFromTime (t : Z) : Z := (t / msPerSecond) mod 60.
Definition WeekDay (t : Z) : Z := (Day t + 4) mod 7.

Definition MakeTime (h m s : Z) : Z :=
  h * msPerHour + m * msPerMinute + s * msPerSecond.

(** [month] counted from 0 and allowed to leave 0..11. *)
Definition MakeDay (year month date : Z) : Z :=
  daysFromCivil (year + month / 12) (month mod 12 + 1) 1 + date - 1.

Definition MakeDate (day time : Z) : Z := day * msPerDay + time.

Definition TimeClip (t : Z) : Date :=
  if Z.abs t <=? maxTime then Some t else None.

(** The constructors read a year in 0..99 as 1900 + year. *)
Definition fullYear (y : Z) : Z :=
  if (0 <=? y) && (y <=? 99) then 1900 + y else y.

(** The time value, on a clock [offset] milliseconds ahead of UTC, of
    [new Date(y, m, d, h, mi, s)]; [offset = 0] is [Date.UTC]. *)
Definition newDate (offset : Z) (y m d h mi s : option Z) : Date :=
  match y, m, d, h, mi, s with
  | Some y, Some m, Some d, Some h, Some mi, Some s =>
      TimeClip (MakeDate (MakeDay (fullYear y) m d) (MakeTime h mi s) - offset)
  | _, _, _, _, _, _ => None
  end.

(** [setFullYear(y, m, d)] on that clock; [setUTCFullYear] at offset 0.
    An invalid date is first taken to time value +0. *)
Definition setFullYear (offset : Z) (t : Date) (y m d : option Z) : Date :=
  match y, m, d with
  | Some y, Some m, Some d =>
      let local := match t with Some v => v + offset | None => 0 end in
      TimeClip (MakeDate (MakeDay y m d) (TimeWithinDay local) - offset)
  | _, _, _ => None
  end.

Definition pad2 (n : Z) : string :=
  let s := NilZero.string_of_int (Z.to_int n) in
  if n <? 10 then "0" ++ s else s.

Definition pad4 (n : Z) : string :=
  let s := NilZero.string_of_int (Z.to_int n) in
  if n <? 10 then "000" ++ s
  else if n <? 100 then "00" ++ s
  else if n <? 1000 then "0" ++ s
  else s.

Definition dayName (w : Z) : string :=
  match w with
  | 0 => "Sun" | 1 => "Mon" | 2 => "Tue" | 3 => "Wed"
  | 4 => "Thu" | 5 => "Fri" | _ => "Sat"
  end.

Definition monthName (m : Z) : string :=
  match m with
  | 0 => "Jan" | 1 => "Feb" | 2 => "Mar" | 3 => "Apr" | 4 => "May"
  | 5 => "Jun" | 6 => "Jul" | 7 => "Aug" | 8 => "Sep" | 9 => "Oct"
  | 10 => "Nov" | _ => "Dec"
  end.

(** [d.toUTCString()] *)
Definition toUTCString (d : Date) : string :=
  match d with
  | None => "Invalid Date"
  | Some t =>
      let y := YearFromTime t in
      dayName (WeekDay t) ++ ", " ++ pad2 (DateFromTime t) ++ " "
      ++ monthName (MonthFromTime t) ++ " "
      ++ (if y <? 0 then "-" ++ pad4 (- y) else pad4 y) ++ " "
      ++ pad2 (HourFromTime t) ++ ":" ++ pad2 (MinFromTime t) ++ ":"
      ++ pad2 (SecFromTime t) ++ " GMT"
  end.

End JsDate.

(** ** Common and helpers

    [Common] and [helpers] are imported by DatePicker.tsx but are not among
    the sources; what the component needs from them is declared here. *)

Inductive DateFormat := MMDDYYYY | DDMMYYYY | YYYYMMDD.

Definition DateFormat_eqb (a b : DateFormat) : bool :=
  match a, b with
  | MMDDYYYY, MMDDYYYY | DDMMYYYY, DDMMYYYY | YYYYMMDD, YYYYMMDD => true
  | _, _ => false
  end.

(** Modelled from the spec: Common.MethodDate is missing from the sources.
    It pairs a Date ([dateObject]) with the timezone mode it is read and
    written in. *)
Record MethodDate := mkMethodDate {
  localTimezone : bool;
  dateObject : JsDate.Date
}.

(** What the component takes from its surroundings: the offset of the
    local zone (taken constant), the clock, and the three missing
    functions of Common and helpers that no claim looks inside. *)
Class Host := {
  (** local time minus UTC, in milliseconds *)
  tzOffset : Z;
  (** the time value of [new Date()] *)
  now : Z;
  (** [MethodDate.fromString(local, text)]: free-form parse, [None] for null *)
  fromString : bool -> string -> option MethodDate;
  (** [formatDate(date, format, local)] *)
  formatDate : JsDate.Date -> DateFormat -> bool -> string;
  (** [dateIsValid(date, local)] *)
  dateIsValid : JsDate.Date -> bool -> bool
}.

Module MD.
Section WithHost.
Context {H : Host}.

Definition offsetOf (local : bool) : Z := if local then tzOffset else 0.

(** Modelled from the spec: [new MethodDate(local, y, m, d, h, mi, s)]
    builds the date from its fields in the given mode. *)
Definition make (local : bool) (y m d h mi s : option Z) : MethodDate :=
  mkMethodDate local (JsDate.newDate (offsetOf local) y m d h mi s).

(** [new MethodDate(local)]: the current time. *)
Definition today (local : bool) : MethodDate := mkMethodDate local (Some now).

(** [MethodDate.fromDate(local, date)] *)
Definition fromDate (local : bool) (d : JsDate.Date) : MethodDate :=
  mkMethodDate local d.

(** [date.copy()] *)
Definition copy (d : MethodDate) : MethodDate :=
  mkMethodDate (localTimezone d) (dateObject d).

(** The time value on the clock of the date's mode. *)
Definition wall (d : MethodDate) : option Z :=
  option_map (fun t => t + offsetOf (localTimezone d)) (dateObject d).

Definition year (d : MethodDate) : option Z := option_map JsDate.YearFromTime (wall d).
Definition month (d : MethodDate) : option Z := option_map JsDate.MonthFromTime (wall d).
Definition date (d : MethodDate) : option Z := option_map JsDate.DateFromTime (wall d).
Definition hours (d : MethodDate) : option Z := option_map JsDate.HourFromTime (wall d).
Definition minutes (d : MethodDate) : option Z := option_map JsDate.MinFromTime (wall d).
Definition seconds (d : MethodDate) : option Z := option_map JsDate.SecFromTime (wall d).

(** [d.dateObject.setFullYear(y, m, dd)] when [local], else
    [d.dateObject.setUTCFullYear(y, m, dd)]. *)
Definition setFullYear (local : bool) (d : MethodDate) (y m dd : option Z) : MethodDate :=
  mkMethodDate (localTimezone d)
    (JsDate.setFullYear (offsetOf local) (dateObject d) y m dd).

End WithHost.
End MD.

(** Modelled from the spec: helpers.replaceAt is missing from the sources.
    Its two callers use it to "prepend zero" to the digit just typed
    ("2 => 02"), so the text is put in at the index and nothing is lost. *)
Definition replaceAt (value : string) (index : Z) (newValue : string) : string :=
  JsString.substr value 0 index ++ newValue ++ JsString.substr_from value index.

(** ** Props, state and instance fields of the component *)

(** [props.initialValue?: Date | string] *)
Inductive Seed :=
| NoSeed
| SeedString (text : string)
| SeedDate (d : JsDate.Date).

Record Props := mkProps {
  props_initialValue : Seed;
  props_localTimezone : bool;
  props_format : DateFormat;
  (** whether the optional [onPaste] callback was supplied *)
  props_onPaste : bool
}.

Record State := mkState {
  value : string;
  dateValue : option MethodDate;
  initialValue : option MethodDate;
  visible : bool;
  invalid : bool;
  error : bool
}.

(** [this.paste: boolean | string], which the code also sets to [null]. *)
Inductive Paste :=
| PasteBool (b : bool)
| PasteNull
| PasteString (utc : string).

Definition truthy (p : Paste) : bool :=
  match p with
  | PasteBool b => b
  | PasteNull => false
  | PasteString s => negb (String.eqb s "")
  end.

Definition isString (p : Paste) : bool :=
  match p with PasteString _ => true | _ => false end.

Record Component := mkComponent {
  state : State;
  paste : Paste
}.

(** Calls made on the host's callbacks. *)
Inductive Notification :=
| OnChange (newValue : string)
| OnPaste (newValue : string).

(** The result of [parse]. *)
Record Parsed := mkParsed {
  year : JsNum.num;
  month : JsNum.num;
  date : JsNum.num;
  valid : bool
}.

(** The four fields [getInitialState] returns. *)
Record InitialState := mkInitialState {
  init_value : string;
  init_invalid : bool;
  init_initialValue : option MethodDate;
  init_dateValue : option MethodDate
}.

(** The local variables of [onInput] after its first conditional. *)
Record Edit := mkEdit {
  edit_newValue : string;
  edit_invalid : bool;
  edit_initialValue : option MethodDate;
  edit_dateValue : option MethodDate;
  edit_paste : Paste
}.

(** What [componentDidUpdate] did. *)
Record Settled := mkSettled {
  after : Component;
  emitted : list Notification;
  stoppedAccessibility : bool
}.

Section DatePicker.
Context {H : Host}.
Variable props : Props.

Import JsString.

Definition seedTruthy (s : Seed) : bool :=
  match s with
  | NoSeed => false
  | SeedString t => negb (String.eqb t "")
  | SeedDate _ => true
  end.

Definition getInitialState (p : Props) : InitialState :=
  let local := props_localTimezone p in
  let none := mkInitialState "" false None None in
  let resolved :=
    if seedTruthy (props_initialValue p) then
      match props_initialValue p with
      | SeedString text =>
          match fromString local text with
          | Some d =>
              if dateIsValid (dateObject d) local
              then mkInitialState (formatDate (dateObject d) (props_format p) local)
                                  false (Some d) (Some d)
              else mkInitialState text true None None
          | None => mkInitialState text true None None
          end
      | SeedDate d =>
          (* a Date object is truthy, so the inner else is never taken *)
          let text := formatDate d (props_format p) local in
          if negb (dateIsValid d local)
          then mkInitialState text true None None
          else mkInitialState text false (Some (MD.fromDate local d))
                              (Some (MD.fromDate local d))
      | NoSeed => none
      end
    else none in
  let unusable :=
    match init_initialValue resolved with
    | None => true
    | Some iv => String.eqb (JsDate.toUTCString (dateObject iv)) "Invalid Date"
    end in
  if unusable
  then mkInitialState (init_value resolved) (init_invalid resolved)
                      (Some (MD.today local)) None
  else resolved.

(** The constructor: [getInitialState], the dropdown hidden, no paste. *)
Definition construct (p : Props) : Component :=
  let s := getInitialState p in
  mkComponent
    (mkState (init_value s) (init_dateValue s) (init_initialValue s)
             false (init_invalid s) (init_invalid s))
    (PasteBool false).

Definition componentDidUpdate (oldState : State) (c : Component) : Settled :=
  let st := state c in
  let stopped := negb (Bool.eqb (visible st) (visible oldState)) && negb (visible st) in
  if negb (String.eqb (value oldState) (value st)) || truthy (paste c) then
    match dateValue st with
    | Some dv =>
        let calls :=
          match paste c with
          | PasteString utc =>
              if props_onPaste props then [OnPaste utc]
              else [OnChange (JsDate.toUTCString (dateObject dv))]
          | _ => [OnChange (JsDate.toUTCString (dateObject dv))]
          end in
        mkSettled (mkComponent st (PasteBool false)) calls stopped
    | None => mkSettled c [OnChange "invalid"] stopped
    end
  else mkSettled c [] stopped.

Definition handleMonth (st : State) (newValue : string) (position : Z) : string :=
  let lastNum := JsNum.parseInt (ofIndexed (charAt newValue (len newValue - 1))) in
  let suffix := if position <? 3 then "/" else "" in
  if (len newValue =? 1) || isSlash (charAt newValue (len newValue - 2)) then
    if JsNum.gt lastNum 1 then
      (if position >? 1
       then replaceAt newValue (len newValue - 1) "0"
       else "0" ++ JsNum.toString lastNum) ++ suffix
    else newValue
  else
    let otherLastNum := JsNum.parseInt (ofIndexed (charAt newValue (len newValue - 2))) in
    if JsNum.lt otherLastNum 1 then newValue ++ suffix
    else if JsNum.lt lastNum 3 then newValue ++ suffix
    else value st.

Definition handleDay (st : State) (newValue : string) (position : Z) : string :=
  let lastNum := JsNum.parseInt (ofIndexed (charAt newValue (len newValue - 1))) in
  let suffix := if position <? 3 then "/" else "" in
  if (len newValue =? 1) || isSlash (charAt newValue (len newValue - 2)) then
    if JsNum.gt lastNum 3 then
      (if position >? 1
       then replaceAt newValue (len newValue - 1) "0"
       else "0" ++ JsNum.toString lastNum) ++ suffix
    else newValue
  else
    let otherLastNum := JsNum.parseInt (ofIndexed (charAt newValue (len newValue - 2))) in
    if JsNum.lt otherLastNum 3 then newValue ++ suffix
    else if JsNum.lt lastNum 2 then newValue ++ suffix
    else value st.

Definition handleTyping (st : State) (newValue : string) : string :=
  let n := len newValue in
  match props_format props with
  | YYYYMMDD =>
      if n =? 4 then newValue ++ "/"
      else if n =? 6 then handleMonth st newValue 2
      else if n =? 7 then handleMonth st newValue 2
      else if n =? 9 then handleDay st newValue 3
      else if n >? 10 then slice0 newValue 10
      else newValue
  | MMDDYYYY =>
      if n =? 1 then handleMonth st newValue 1
      else if n =? 2 then handleMonth st newValue 1
      else if n =? 4 then handleDay st newValue 2
      else if n =? 5 then handleDay st newValue 2
      else if n >? 10 then slice0 newValue 10
      else newValue
  | DDMMYYYY =>
      if n =? 1 then handleDay st newValue 1
      else if n =? 2 then handleDay st newValue 1
      else if n =? 4 then handleMonth st newValue 2
      else if n =? 5 then handleMonth st newValue 2
      else if n >? 10 then slice0 newValue 10
      else newValue
  end.

Definition handleDeletion (st : State) (newValue : string) : string :=
  if isSlash (charAt (value st) (len (value st) - 1))
  then substr newValue 0 (len newValue - 1)
  else newValue.

(** [hasVal ? this.state.initialValue.hours : 0], and likewise for the
    minutes and the seconds. *)
Definition carried (st : State) (field : MethodDate -> option Z) : option Z :=
  match initialValue st with
  | Some iv => field iv
  | None => Some 0
  end.

(** [while (split.length < 3) split.push('-1')] *)
Definition padSplit (l : list string) : list string :=
  l ++ List.repeat "-1" (3 - List.length l)%nat.

Definition parse (st : State) (newValue : string) : Parsed :=
  let split0 := split newValue in
  let three := Nat.eqb (List.length split0) 3 in
  let split := if three then split0 else padSplit split0 in
  let '(y, m, d) :=
    match props_format props with
    | DDMMYYYY => (JsNum.parseInt (nth 2 split), JsNum.parseInt (nth 1 split),
                   JsNum.parseInt (nth 0 split))
    | MMDDYYYY => (JsNum.parseInt (nth 2 split), JsNum.parseInt (nth 0 split),
                   JsNum.parseInt (nth 1 split))
    | YYYYMMDD => (JsNum.parseInt (nth 0 split), JsNum.parseInt (nth 1 split),
                   JsNum.parseInt (nth 2 split))
    end in
  let inBounds :=
    three
    && negb (JsNum.isNaN y || JsNum.lt y 1)
    && negb (JsNum.isNaN m || JsNum.lt m 1 || JsNum.gt m 12)
    && negb (JsNum.isNaN d || JsNum.lt d 1 || JsNum.gt d 31) in
  let roundTrips :=
    let parsed := MD.make (props_localTimezone props) y (JsNum.add m (-1)) d
                          (carried st MD.hours) (carried st MD.minutes)
                          (carried st MD.seconds) in
    negb (JsNum.neq m (JsNum.add (MD.month parsed) 1)
          || JsNum.neq d (MD.date parsed)) in
  mkParsed y m d (if inBounds then roundTrips else false).

Definition onInput_edit (c : Component) (newValue : string) : Edit :=
  let st := state c in
  let local := props_localTimezone props in
  let keep (v : string) (inv : bool) :=
    mkEdit v inv (initialValue st) (dateValue st) (paste c) in
  if truthy (paste c) then
    match fromString local newValue with
    | Some d =>
        mkEdit (formatDate (dateObject d) (props_format props) local) false
               (Some d) (Some (MD.copy d))
               (PasteString (JsDate.toUTCString (dateObject d)))
    | None => mkEdit newValue true (initialValue st) None PasteNull
    end
  else if len (value st) >=? len newValue then
    (* If the user starts deleting, stop smart input handling *)
    if len (value st) - len newValue =? 1 then
      let oldValue := charAt (value st) (len (value st) - 1) in
      if len (value st) >? 0 then
        if differs (charAt newValue (len newValue - 1)) oldValue then
          let shortened := handleDeletion st newValue in
          if len shortened <=? 10
          then keep shortened (if valid (parse st shortened) then false else true)
          else keep shortened true
        else keep newValue true
      else keep newValue (invalid st)
    else
      if len newValue =? 0 then keep newValue true
      else keep newValue (invalid st)
  else
    (* If the user is adding to newValue *)
    if len newValue <=? 10 then
      let oldSlice := substr (value st) 0 (len (value st) - 1) in
      let newSlice := substr newValue 0 (len newValue - 2) in
      if (len newValue >? 1) && negb (String.eqb newSlice oldSlice)
      then keep newValue true
      else if negb (invalid st) then keep (handleTyping st newValue) (invalid st)
      else keep newValue (invalid st)
    else
      if negb (invalid st) then keep (value st) (invalid st)
      else keep newValue (invalid st).

(** [onInput(event)] with [event.target.value = raw]; [None] is the
    TypeError of reading [initialValue.hours] on a null reference date.
    [setState] merges, so [visible] is carried over. *)
Definition onInput (c : Component) (raw : string) : option Component :=
  let st := state c in
  let local := props_localTimezone props in
  let e := onInput_edit c raw in
  let newValue := edit_newValue e in
  let invalid' := if len newValue =? 0 then false else edit_invalid e in
  let set (v : string) (inv : bool) (dv iv : option MethodDate) :=
    Some (mkComponent (mkState v dv iv (visible st) inv inv) (edit_paste e)) in
  if len newValue >? 11 then
    match fromString local newValue with
    | Some d =>
        set (formatDate (dateObject d) (props_format props) local) false
            (Some d) (Some d)
    | None => set newValue true None (edit_initialValue e)
    end
  else
    let result := parse st newValue in
    if valid result then
      match edit_initialValue e with
      | None => None
      | Some iv =>
          let m0 := JsNum.add (month result) (-1) in
          let built := MD.make local (year result) m0 (date result)
                               (MD.hours iv) (MD.minutes iv) (MD.seconds iv) in
          (* the constructor forces years to be at least 100 *)
          let dv := if JsNum.lt (year result) 100
                    then MD.setFullYear local built (year result) m0 (date result)
                    else built in
          set newValue false (Some dv) (edit_initialValue e)
      end
    else set newValue invalid' None (edit_initialValue e).

Definition onSelect (c : Component) (newValue : JsDate.Date) : Component :=
  let st := state c in
  let local := props_localTimezone props in
  mkComponent
    (mkState (formatDate newValue (props_format props) local)
             (Some (MD.fromDate local newValue))
             (initialValue st) false (invalid st) false)
    (paste c).

Definition onPaste (c : Component) : Component :=
  mkComponent (state c) (PasteBool true).

Definition onFocus (c : Component) : Component :=
  let st := state c in
  mkComponent
    (mkState (value st) (dateValue st) (initialValue st) true (invalid st) (error st))
    (paste c).

(** An input event followed by the update hook it triggers. *)
Definition inputEvent (c : Component) (raw : string) : option Settled :=
  option_map (componentDidUpdate (state c)) (onInput c raw).

(** Raw input values fed one after the other, the update hook run after
    each, and the calls made on the host collected in order. *)
Fixpoint run (c : Component) (raws : list string)
  : option (Component * list Notification) :=
  match raws with
  | [] => Some (c, [])
  | raw :: rest =>
      match inputEvent c raw with
      | None => None
      | Some s =>
          match run (after s) rest with
          | None => None
          | Some (c', calls) => Some (c', (emitted s ++ calls)%list)
          end
      end
  end.

(** A calendar selection followed by the update hook. *)
Definition selectEvent (c : Component) (d : JsDate.Date) : Settled :=
  componentDidUpdate (state c) (onSelect c d).

End DatePicker.

(** ** Vocabulary of the claims *)

(** The three fields of a date text. *)
Inductive Segment := Month | Day | Year.

(** The segment in which the [n]-th character of a full-width text lies
    ([n] counted from 1), by the field order of the format; separators lie
    in none. *)
Definition landing (f : DateFormat) (n : Z) : option Segment :=
  match f with
  | MMDDYYYY =>
      if (1 <=? n) && (n <=? 2) then Some Month
      else if (4 <=? n) && (n <=? 5) then Some Day
      else if (7 <=? n) && (n <=? 10) then Some Year
      else None
  | DDMMYYYY =>
      if (1 <=? n) && (n <=? 2) then Some Day
      else if (4 <=? n) && (n <=? 5) then Some Month
      else if (7 <=? n) && (n <=? 10) then Some Year
      else None
  | YYYYMMDD =>
      if (1 <=? n) && (n <=? 4) then Some Year
      else if (6 <=? n) && (n <=? 7) then Some Month
      else if (9 <=? n) && (n <=? 10) then Some Day
      else None
  end.

(** The character of the decimal digit [k]. *)
Definition digitChar (k : Z) : ascii := ascii_of_nat (Z.to_nat (48 + k)).

(** Whether [s] ends with [suffix]. *)
Definition endsWith (s suffix : string) : bool :=
  let n := JsString.len s - JsString.len suffix in
  (0 <=? n) && String.eqb (JsString.substr_from s n) suffix.

(** The field values of a buffer's text and of a parsed date. *)
Definition text (c : Component) : string := value (state c).

(** The text shown at the end of a run of input events. *)
Definition shown (r : option (Component * list Notification)) : option string :=
  option_map (fun x => text (fst x)) r.

(** What an end deletion leaves of the raw text [raw] when the character
    it removed was [removed]: the adjoining character goes too when a
    separator was removed from behind a non-separator. *)
Definition afterDeletion (raw : string) (removed : ascii) : string :=
  if Ascii.eqb removed "/"%char
     && negb (JsString.isSlash (JsString.charAt raw (JsString.len raw - 1)))
  then JsString.substr raw 0 (JsString.len raw - 1)
  else raw.

(** The reference date is absent or a valid date. *)
Definition usable (iv : option MethodDate) : Prop :=
  match iv with
  | Some d => dateObject d <> None
  | None => True
  end.

(** A clock field: NaN or within its bound. *)
Definition clockField (bound : Z) (x : option Z) : Prop :=
  match x with Some v => 0 <= v < bound | None => True end.

(** The civil fields of a day number, the month counted from 0. *)
Definition yearOfDay (D : Z) : Z := fst (fst (JsDate.civilFromDays D)).
Definition monthOfDay (D : Z) : Z := snd (fst (JsDate.civilFromDays D)) - 1.
Definition dateOfDay (D : Z) : Z := snd (JsDate.civilFromDays D).

(** Integers [lo], [lo+1], ..., [lo+n-1]. *)
Definition zrange (lo : Z) (n : nat) : list Z :=
  List.map (fun i => lo + Z.of_nat i) (List.seq 0 n).

(** For a year of one or two digits: if day [d] of month [m] exists in
    year 1900 + y, it exists in year y, and both days lie far inside the
    range of time values. *)
Definition centuryCheck (y m d : Z) : bool :=
  let D19 := JsDate.MakeDay (1900 + y) (m - 1) d in
  let D := JsDate.MakeDay y (m - 1) d in
  (Z.abs D19 <=? 99999998) && (Z.abs D <=? 99999998) &&
  (negb ((monthOfDay D19 =? m - 1) && (dateOfDay D19 =? d))
   || ((yearOfDay D =? y) && (monthOfDay D =? m - 1) && (dateOfDay D =? d))).

(** ** A concrete host

    One host on which the component can be run: a zone one hour ahead of
    UTC, and the plainest functions that fit the descriptions of the
    missing ones. *)

Module Demo.

Definition zone : Z := 3600000.

(** Modelled from the spec: helpers.formatDate is missing from the
    sources.  "Formatted per DateFormat": two-digit month and day and a
    four-digit year, in the order of the format, separated by "/". *)
Definition formatDate (d : JsDate.Date) (f : DateFormat) (local : bool) : string :=
  match d with
  | None => "NaN/NaN/NaN"
  | Some t =>
      let w := t + (if local then zone else 0) in
      let mm := JsDate.pad2 (JsDate.MonthFromTime w + 1) in
      let dd := JsDate.pad2 (JsDate.DateFromTime w) in
      let yyyy := JsDate.pad4 (JsDate.YearFromTime w) in
      match f with
      | MMDDYYYY => mm ++ "/" ++ dd ++ "/" ++ yyyy
      | DDMMYYYY => dd ++ "/" ++ mm ++ "/" ++ yyyy
      | YYYYMMDD => yyyy ++ "/" ++ mm ++ "/" ++ dd
      end
  end.

(** Modelled from the spec: MethodDate.fromString is missing from the
    sources and rests on the platform's free-form date parsing; this one
    reads the single text the spec names and nothing else. *)
Definition fromString (local : bool) (text : string) : option MethodDate :=
  if String.eqb text "March 3, 2024"
  then Some (mkMethodDate local
               (JsDate.newDate (if local then zone else 0)
                  (Some 2024) (Some 2) (Some 3) (Some 0) (Some 0) (Some 0)))
  else None.

(** Modelled from the spec: Common.dateIsValid is missing from the
    sources; a date is valid when it is not an Invalid Date. *)
Definition dateIsValid (d : JsDate.Date) (local : bool) : bool :=
  match d with Some _ => true | None => false end.

Definition host : Host :=
  Build_Host zone 1700000000000 fromString formatDate dateIsValid.

Definition mdy (onPaste : bool) : Props := mkProps NoSeed true MMDDYYYY onPaste.
Definition ymd : Props := mkProps NoSeed true YYYYMMDD true.
Definition dmy : Props := mkProps NoSeed false DDMMYYYY true.

(** The component as constructed with no seed. *)
Definition fresh (p : Props) : Component := @construct host p.

(** A component showing [text], nothing parsed, not flagged. *)
Definition showing (text : string) : Component :=
  mkComponent
    (mkState text None (Some (@MD.today host true)) false false false)
    (PasteBool false).

End Demo.

(** ** The dropdown, the key filter and the calendar hints *)

(** DOM elements are told apart by identity. *)
Definition Element := nat.

(** The part of the document the component looks at: each element's
    [parentElement], and the two elements its refs hold. *)
Record Dom := mkDom {
  parentElement : Element -> option Element;
  inputElement : Element;
  containerElement : Element
}.

(** The key codes of Common.keyCode that [onKeyPress] reads. *)
Record KeyCodes := mkKeyCodes {
  key_0 : Z;
  key_9 : Z;
  key_slash : Z
}.

(** What the user and the host can do to a mounted component. *)
Inductive Event :=
| Input (raw : string)
| PasteKey
| Select (d : JsDate.Date)
| Focus
| Pointer (target : Element).

Section Dropdown.
Context {H : Host}.
Variable props : Props.
Variable dom : Dom.

(** The loop of [handleDropdown] from round [i] on, [rounds] rounds being
    left; [None] is the [null] the loop leaves in [target]. *)
Fixpoint climb (rounds : nat) (i : Z) (target : Element) : option Element :=
  match rounds with
  | O => Some target
  | S rest =>
      if Nat.eqb target (containerElement dom) then Some target
      else
        match parentElement dom target with
        | Some parent => if i <? 5 then climb rest (i + 1) parent else None
        | None => None
        end
  end.

(** [handleDropdown(event)] with [event.target = target]; [None] when it
    returns without calling [setState]. *)
Definition handleDropdown (c : Component) (target : Element) : option Component :=
  let st := state c in
  if Nat.eqb target (inputElement dom) then None
  else if negb (visible st) then None
  else
    match climb 6 0 target with
    | Some _ => None
    | None =>
        Some (mkComponent
                (mkState (value st) (dateValue st) (initialValue st) false
                         (invalid st) (error st))
                (paste c))
    end.

(** [onKeyPress(event)]: whether [event.preventDefault()] is called. *)
Definition onKeyPress (keys : KeyCodes) (c : Component) (charCode : Z) : bool :=
  let st := state c in
  if JsString.len (value st) <? 10 then
    if (charCode >=? key_0 keys) && (charCode <=? key_9 keys) then false
    else if (charCode =? key_slash keys)
            && Nat.ltb (List.length (JsString.split (value st))) 3 then false
    else true
  else false.

(** [x || null] on a number: zero and NaN give null. *)
Definition orNull (x : JsNum.num) : option Z :=
  match x with
  | Some v => if v =? 0 then None else Some v
  | None => None
  end.

(** The [year] and [month] props [render] hands to the Calendar:
    [parsed.year || null] and [parsed.month - 1 || null]. *)
Definition calendarYear (st : State) : option Z :=
  orNull (year (parse props st (value st))).

Definition calendarMonth (st : State) : option Z :=
  orNull (JsNum.add (month (parse props st (value st))) (-1)).

(** One event and the update hook that follows a [setState]; [onPaste]
    sets no state, so no hook runs after it.  [None] is a TypeError. *)
Definition step (c : Component) (e : Event) : option (Component * list Notification) :=
  let settled (s : Settled) := Some (after s, emitted s) in
  match e with
  | Input raw =>
      match inputEvent props c raw with
      | Some s => settled s
      | None => None
      end
  | PasteKey => Some (onPaste c, [])
  | Select d => settled (selectEvent props c d)
  | Focus => settled (componentDidUpdate props (state c) (onFocus c))
  | Pointer target =>
      match handleDropdown c target with
      | Some c' => settled (componentDidUpdate props (state c) c')
      | None => Some (c, [])
      end
  end.

Fixpoint runEvents (c : Component) (events : list Event)
  : option (Component * list Notification) :=
  match events with
  | [] => Some (c, [])
  | e :: rest =>
      match step c e with
      | None => None
      | Some (c', calls) =>
          match runEvents c' rest with
          | None => None
          | Some (c'', more) => Some (c'', (calls ++ more)%list)
          end
      end
  end.

(** Keys typed one after the other at the end of the text: each input
    event carries the text shown with the key's character appended. *)
Fixpoint typeKeys (c : Component) (keys : list ascii)
  : option (Component * list Notification) :=
  match keys with
  | [] => Some (c, [])
  | key :: rest =>
      match inputEvent props c (value (state c) ++ String key "") with
      | None => None
      | Some s =>
          match typeKeys (after s) rest with
          | None => None
          | Some (c', calls) => Some (c', (emitted s ++ calls)%list)
          end
      end
  end.

End Dropdown.

(** The [k]-th ancestor of an element, the element itself for [k = 0]. *)
Fixpoint ancestor (dom : Dom) (k : nat) (e : Element) : option Element :=
  match k with
  | O => Some e
  | S k' =>
      match parentElement dom e with
      | Some p => ancestor dom k' p
      | None => None
      end
  end.

(** The number of separators in a text. *)
Fixpoint countSlashes (s : string) : nat :=
  match s with
  | EmptyString => O
  | String c rest =>
      if Ascii.eqb c "/"%char then S (countSlashes rest) else countSlashes rest
  end.

(** Leap years and month lengths of the proleptic Gregorian calendar. *)
Definition isLeap (y : Z) : bool :=
  (y mod 4 =? 0) && (negb (y mod 100 =? 0) || (y mod 400 =? 0)).

Definition daysInMonth (y m : Z) : Z :=
  if m =? 2 then (if isLeap y then 29 else 28)
  else if (m =? 4) || (m =? 6) || (m =? 9) || (m =? 11) then 30
  else 31.

(** The calendar functions agree with the month lengths on one date. *)
Definition civilCheck (y m d : Z) : bool :=
  let '(y', m', d') := JsDate.civilFromDays (JsDate.daysFromCivil y m d) in
  if d <=? daysInMonth y m
  then (y' =? y) && (m' =? m) && (d' =? d)
  else negb ((m' =? m) && (d' =? d)).

(** The two digits of a month or day number, as keys. *)
Definition twoDigits (n : Z) : list ascii := [digitChar (n / 10); digitChar (n mod 10)].

(** Typing month and day [a], [b] on a new component leaves it showing
    [expected], unflagged, with no paste pending and its reference date. *)
Definition typedPrefixCheck {H : Host} (p : Props) (a b : Z) (expected : string) : bool :=
  match typeKeys p (construct p) (twoDigits a ++ twoDigits b) with
  | Some (c, _) =>
      String.eqb (value (state c)) expected
      && negb (invalid (state c)) && negb (truthy (paste c))
      && match initialValue (state c) with Some _ => true | None => false end
  | None => false
  end.

(** The text and value checks used to type a date's digits. *)
Definition twoDigitCheck (n : Z) : bool :=
  match JsNum.parseInt (JsDate.pad2 n) with
  | Some v => (v =? n) && Nat.eqb (countSlashes (JsDate.pad2 n)) 0
  | None => false
  end.

(** The four digits of a year, as text. *)
Definition yearText (y1 y2 y3 y4 : Z) : string :=
  String (digitChar y1) (String (digitChar y2) (String (digitChar y3)
    (String (digitChar y4) ""))).

Definition yearCheck (y1 y2 y3 y4 : Z) : bool :=
  match JsNum.parseInt (yearText y1 y2 y3 y4) with
  | Some v => (v =? 1000 * y1 + 100 * y2 + 10 * y3 + y4)
              && Nat.eqb (countSlashes (yearText y1 y2 y3 y4)) 0
  | None => false
  end.

(** ** GenericManagementList *)

(** The select-all state computed in [render]:
    [selected = rows.map(isSelected)] and
    [selected.filter(row => row).length === selected.length], the
    selection read as a truth value. *)
Definition allSelected {T : Type} (isSelected : T -> bool) (rows : list T) : bool :=
  let selected := List.map isSelected rows in
  Nat.eqb (List.length (List.filter (fun row => row) selected)) (List.length selected).

(** A document in which element [n + 1] is the child of element [n] and
    element 0 is the root; the input is 1 and the container 2. *)
Definition demoDom : Dom :=
  mkDom (fun e => match e with O => None | S parent => Some parent end) 1%nat 2%nat.

(** The character codes of "0", "9" and "/". *)
Definition demoKeys : KeyCodes := mkKeyCodes 48 57 47.

(** * Properties *)

(** ** Texts *)

Module StrFacts.
Import JsString.

Lemma length_append (a b : string) :
  String.length (a ++ b) = (String.length a + String.length b)%nat.
Proof. induction a as [|x a IH]; simpl; [reflexivity | now rewrite IH]. Qed.

Lemma len_app (a b : string) : len (a ++ b) = len a + len b.
Proof. unfold len. rewrite length_append. lia. Qed.

Lemma len_nonneg (s : string) : 0 <= len s.
Proof. unfold len. lia. Qed.

Lemma len_snoc (s : string) (c : ascii) : len (s ++ String c "") = len s + 1.
Proof. rewrite len_app. reflexivity. Qed.

Lemma len_zero (s : string) : len s = 0 -> s = "".
Proof. destruct s; [reflexivity | unfold len; simpl; lia]. Qed.

Lemma get_app_right (a b : string) (n : nat) :
  String.get (String.length a + n) (a ++ b) = String.get n b.
Proof. induction a as [|x a IH]; simpl; [reflexivity | exact IH]. Qed.

Lemma get_app_left (a b : string) (n : nat) :
  (n < String.length a)%nat -> String.get n (a ++ b) = String.get n a.
Proof.
  revert n. induction a as [|x a IH]; simpl; intros n Hn; [lia|].
  destruct n as [|n]; [reflexivity | apply IH; lia].
Qed.

Lemma charAt_last (s : string) (c : ascii) :
  charAt (s ++ String c "") (len s + 1 - 1) = Some c.
Proof.
  unfold charAt. pose proof (len_nonneg s) as Hs.
  destruct (Z.ltb_spec (len s + 1 - 1) 0) as [Hlt|_]; [lia|].
  replace (Z.to_nat (len s + 1 - 1)) with (String.length s + 0)%nat
    by (unfold len; lia).
  rewrite get_app_right. reflexivity.
Qed.

Lemma charAt_before_last (s : string) (c : ascii) :
  charAt (s ++ String c "") (len s + 1 - 2) = charAt s (len s - 1).
Proof.
  replace (len s + 1 - 2) with (len s - 1) by lia.
  unfold charAt. destruct (Z.ltb_spec (len s - 1) 0) as [Hlt|Hge]; [reflexivity|].
  apply get_app_left. unfold len in *. lia.
Qed.

Lemma substring_prefix (a b : string) :
  String.substring 0 (String.length a) (a ++ b) = a.
Proof. induction a as [|x a IH]; simpl; [now destruct b | now rewrite IH]. Qed.

Lemma substring_all (a : string) (n : nat) :
  (String.length a <= n)%nat -> String.substring 0 n a = a.
Proof.
  revert n. induction a as [|x a IH]; simpl; intros n Hn.
  - now destruct n.
  - destruct n as [|n]; [lia|]. rewrite IH by lia. reflexivity.
Qed.

Lemma substring_skip (a b : string) (n : nat) :
  String.substring (String.length a) n (a ++ b) = String.substring 0 n b.
Proof. induction a as [|x a IH]; simpl; [reflexivity | exact IH]. Qed.

Lemma substr_prefix (a b : string) : substr (a ++ b) 0 (len a) = a.
Proof.
  unfold substr. simpl. unfold len. rewrite Nat2Z.id. apply substring_prefix.
Qed.

Lemma substr_from_suffix (a b : string) : substr_from (a ++ b) (len a) = b.
Proof.
  unfold substr_from, substr. pose proof (len_nonneg a) as Ha.
  destruct (Z.ltb_spec (len a) 0) as [Hlt|_]; [lia|].
  unfold len at 1. rewrite Nat2Z.id, substring_skip.
  apply substring_all. rewrite len_app. unfold len. lia.
Qed.

Lemma substr_drop_last (s : string) (c : ascii) :
  substr (s ++ String c "") 0 (len s + 1 - 1) = s.
Proof. replace (len s + 1 - 1) with (len s) by lia. apply substr_prefix. Qed.

Lemma replaceAt_last (s : string) (c : ascii) (t : string) :
  replaceAt (s ++ String c "") (len s + 1 - 1) t = s ++ t ++ String c "".
Proof.
  unfold replaceAt. replace (len s + 1 - 1) with (len s) by lia.
  rewrite substr_prefix, substr_from_suffix. reflexivity.
Qed.

Lemma append_assoc (a b c : string) : (a ++ b) ++ c = a ++ b ++ c.
Proof. induction a as [|x a IH]; simpl; [reflexivity | now rewrite IH]. Qed.

Lemma append_empty_r (a : string) : a ++ "" = a.
Proof. induction a as [|x a IH]; simpl; [reflexivity | now rewrite IH]. Qed.

(** Every text is empty or ends in some character. *)
Lemma snoc_cases (s : string) : s = "" \/ exists r c, s = r ++ String c "".
Proof.
  induction s as [|x s IH]; [now left | right].
  destruct IH as [-> | (r & c & ->)].
  - exists "", x. reflexivity.
  - exists (String x r), c. reflexivity.
Qed.

Lemma substr_shorter (s : string) (n : Z) : len (substr s 0 n) <= len s.
Proof.
  unfold substr. simpl. generalize (Z.to_nat n) as k. unfold len.
  induction s as [|x s IH]; intros k; destruct k; simpl; try lia.
  specialize (IH k). lia.
Qed.

End StrFacts.

Import JsString StrFacts.

Ltac decide_tests :=
  repeat match goal with
    | |- context [Z.eqb ?a ?b] => destruct (Z.eqb_spec a b)
    | |- context [Z.leb ?a ?b] => destruct (Z.leb_spec a b)
    | |- context [Z.ltb ?a ?b] => destruct (Z.ltb_spec a b)
    | |- context [Z.gtb ?a ?b] => rewrite (Z.gtb_ltb a b)
    | H : context [Z.eqb ?a ?b] |- _ => destruct (Z.eqb_spec a b)
    | H : context [Z.leb ?a ?b] |- _ => destruct (Z.leb_spec a b)
    | H : context [Z.ltb ?a ?b] |- _ => destruct (Z.ltb_spec a b)
    end; simpl in *.

Lemma slice0_short (s : string) (n : Z) : len s <= n -> slice0 s n = s.
Proof. intros Hn. unfold slice0. apply substring_all. unfold len in Hn. lia. Qed.

Lemma digit_cases (k : Z) :
  0 <= k <= 9 ->
  k = 0 \/ k = 1 \/ k = 2 \/ k = 3 \/ k = 4 \/ k = 5 \/ k = 6 \/ k = 7 \/ k = 8 \/ k = 9.
Proof. lia. Qed.

Lemma parseInt_digit (k : Z) :
  0 <= k <= 9 -> JsNum.parseInt (ofIndexed (Some (digitChar k))) = Some k.
Proof.
  intros Hk. destruct (digit_cases k Hk) as [-> | [-> | [-> | [-> | [-> | [-> | [-> | [-> | [-> | ->]]]]]]]]];
    reflexivity.
Qed.

Lemma toString_digit (k : Z) :
  0 <= k <= 9 -> JsNum.toString (Some k) = String (digitChar k) "".
Proof.
  intros Hk. destruct (digit_cases k Hk) as [-> | [-> | [-> | [-> | [-> | [-> | [-> | [-> | [-> | ->]]]]]]]]];
    reflexivity.
Qed.

(** The test "this is the first number of a two-digit field" on a text
    that ends in the character just typed. *)
Lemma first_of_field (pre : string) (c : ascii) :
  pre = "" \/ isSlash (charAt pre (len pre - 1)) = true ->
  (len pre + 1 =? 1) || isSlash (charAt (pre ++ String c "") (len pre + 1 - 2)) = true.
Proof.
  intros [-> | Hs]; [reflexivity|].
  rewrite charAt_before_last, Hs. apply orb_true_r.
Qed.

Lemma append_cons_nonempty (a : string) (c : ascii) (r : string) :
  a ++ String c r <> "".
Proof. destruct a; discriminate. Qed.

Lemma demo_formatDate_nonempty (d : JsDate.Date) (f : DateFormat) (l : bool) :
  Demo.formatDate d f l <> "".
Proof.
  destruct d as [t|]; [|discriminate]. unfold Demo.formatDate.
  destruct f; apply append_cons_nonempty.
Qed.

Example parseInt_examples :
  JsNum.parseInt "02" = Some 2 /\ JsNum.parseInt "2024" = Some 2024 /\
  JsNum.parseInt "" = None /\ JsNum.parseInt "-1" = Some (-1) /\
  JsNum.parseInt "undefined" = None /\ JsNum.parseInt "0x1f" = Some 31 /\
  JsNum.parseInt " 7a" = Some 7.
Proof. repeat split; reflexivity. Qed.

Example split_examples :
  split "" = [""] /\ split "02/" = ["02"; ""] /\
  split "04/30/2024" = ["04"; "30"; "2024"] /\ split "1//" = ["1"; ""; ""].
Proof. repeat split; reflexivity. Qed.

Example replaceAt_example : replaceAt "12/4" 3 "0" = "12/04".
Proof. reflexivity. Qed.

(** ** The calendar *)

Example calendar_examples :
  JsDate.daysFromCivil 1970 1 1 = 0 /\
  JsDate.civilFromDays (-1) = (1969, 12, 31) /\
  JsDate.civilFromDays (JsDate.MakeDay 2024 1 30) = (2024, 3, 1) /\
  JsDate.toUTCString (JsDate.newDate 0 (Some 2024) (Some 2) (Some 3)
                        (Some 0) (Some 0) (Some 0))
  = "Sun, 03 Mar 2024 00:00:00 GMT" /\
  JsDate.toUTCString (JsDate.newDate 0 (Some 45) (Some 2) (Some 3)
                        (Some 10) (Some 5) (Some 59))
  = "Sat, 03 Mar 1945 10:05:59 GMT".
Proof. repeat split; reflexivity. Qed.

Module CalendarFacts.
Import JsDate.

Lemma day_of_MakeDate (D r : Z) :
  0 <= r < msPerDay -> Day (MakeDate D r) = D /\ TimeWithinDay (MakeDate D r) = r.
Proof.
  unfold Day, TimeWithinDay, MakeDate, msPerDay. intros Hr.
  split; Z.div_mod_to_equations; lia.
Qed.

Lemma MakeTime_range (h mi s : Z) :
  0 <= h < 24 -> 0 <= mi < 60 -> 0 <= s < 60 -> 0 <= MakeTime h mi s < msPerDay.
Proof. unfold MakeTime, msPerDay, msPerHour, msPerMinute, msPerSecond. lia. Qed.

Lemma TimeWithinDay_range (t : Z) : 0 <= TimeWithinDay t < msPerDay.
Proof. apply Z.mod_pos_bound. reflexivity. Qed.

Lemma TimeClip_in (t : Z) : Z.abs t <= maxTime -> TimeClip t = Some t.
Proof. intros Ht. unfold TimeClip. destruct (Z.leb_spec (Z.abs t) maxTime); [reflexivity | lia]. Qed.

Lemma TimeClip_cases (t : Z) : TimeClip t = None \/ TimeClip t = Some t.
Proof. unfold TimeClip. destruct (Z.abs t <=? maxTime); [right | left]; reflexivity. Qed.

(** Days that stay inside the range of time values whatever the time of
    day and the zone. *)
Lemma clip_margin (D tod off : Z) :
  Z.abs D <= 99999998 -> 0 <= tod < msPerDay -> Z.abs off < msPerDay ->
  Z.abs (MakeDate D tod - off) <= maxTime.
Proof. unfold MakeDate, msPerDay, maxTime. lia. Qed.

Lemma fields_of_MakeDate (D r : Z) :
  0 <= r < msPerDay ->
  YearFromTime (MakeDate D r) = yearOfDay D /\
  MonthFromTime (MakeDate D r) = monthOfDay D /\
  DateFromTime (MakeDate D r) = dateOfDay D.
Proof.
  intros Hr. unfold YearFromTime, MonthFromTime, DateFromTime.
  destruct (day_of_MakeDate D r Hr) as [-> _]. repeat split.
Qed.

Lemma MakeDay_plain (y m d : Z) :
  0 <= m <= 11 -> MakeDay y m d = daysFromCivil y (m + 1) 1 + d - 1.
Proof.
  intros Hm. unfold MakeDay.
  rewrite (Z.div_small m 12), (Z.mod_small m 12) by lia.
  rewrite Z.add_0_r. reflexivity.
Qed.

Lemma in_zrange (lo : Z) (n : nat) (x : Z) :
  lo <= x < lo + Z.of_nat n -> In x (zrange lo n).
Proof.
  intros Hx. unfold zrange. apply in_map_iff.
  exists (Z.to_nat (x - lo)). split; [lia|]. apply in_seq. lia.
Qed.

Lemma centuryCheck_all :
  forallb (fun y => forallb (fun m => forallb (centuryCheck y m) (zrange 1 31))
                            (zrange 1 12)) (zrange 1 99) = true.
Proof. vm_compute. reflexivity. Qed.

Lemma centuryCheck_holds (y m d : Z) :
  1 <= y <= 99 -> 1 <= m <= 12 -> 1 <= d <= 31 -> centuryCheck y m d = true.
Proof.
  intros Hy Hm Hd. pose proof centuryCheck_all as Hall.
  rewrite forallb_forall in Hall.
  specialize (Hall y (in_zrange 1 99 y ltac:(lia))).
  rewrite forallb_forall in Hall.
  specialize (Hall m (in_zrange 1 12 m ltac:(lia))).
  rewrite forallb_forall in Hall.
  exact (Hall d (in_zrange 1 31 d ltac:(lia))).
Qed.

End CalendarFacts.

Section MethodDateFacts.
Context {H : Host}.
Import JsDate CalendarFacts.

Lemma hours_range (d : MethodDate) : clockField 24 (MD.hours d).
Proof.
  unfold MD.hours. destruct (MD.wall d); simpl; [|exact I].
  apply Z.mod_pos_bound. reflexivity.
Qed.

Lemma minutes_range (d : MethodDate) : clockField 60 (MD.minutes d).
Proof.
  unfold MD.minutes. destruct (MD.wall d); simpl; [|exact I].
  apply Z.mod_pos_bound. reflexivity.
Qed.

Lemma seconds_range (d : MethodDate) : clockField 60 (MD.seconds d).
Proof.
  unfold MD.seconds. destruct (MD.wall d); simpl; [|exact I].
  apply Z.mod_pos_bound. reflexivity.
Qed.

(** A date read on the clock it was written on. *)
Lemma wall_of_clipped (local : bool) (w : Z) :
  let d := mkMethodDate local (TimeClip (w - MD.offsetOf local)) in
  dateObject d = None \/ MD.wall d = Some w.
Proof.
  cbv zeta. unfold MD.wall. simpl.
  destruct (TimeClip_cases (w - MD.offsetOf local)) as [-> | ->]; [left; reflexivity|].
  right. simpl. f_equal. lia.
Qed.

Lemma fields_of_wall (d : MethodDate) (D tod : Z) :
  0 <= tod < msPerDay ->
  MD.wall d = Some (MakeDate D tod) ->
  MD.year d = Some (yearOfDay D) /\ MD.month d = Some (monthOfDay D)
  /\ MD.date d = Some (dateOfDay D).
Proof.
  intros Htod Hw. unfold MD.year, MD.month, MD.date. rewrite Hw. simpl.
  destruct (fields_of_MakeDate D tod Htod) as (-> & -> & ->). repeat split.
Qed.

Lemma fields_of_invalid (d : MethodDate) :
  dateObject d = None -> MD.month d = None /\ MD.date d = None.
Proof. intros Hd. unfold MD.month, MD.date, MD.wall. rewrite Hd. split; reflexivity. Qed.

(** What [new MethodDate(local, y, m, d, h, mi, s)] reads back: nothing
    when a clock field is NaN or the time leaves the range, else the
    civil fields of the day it was made of. *)
Lemma make_reads (local : bool) (y m d : Z) (h mi s : option Z) :
  clockField 24 h -> clockField 60 mi -> clockField 60 s ->
  let md := MD.make local (Some y) (Some m) (Some d) h mi s in
  let D := MakeDay (fullYear y) m d in
  dateObject md = None \/
  (MD.year md = Some (yearOfDay D) /\ MD.month md = Some (monthOfDay D)
   /\ MD.date md = Some (dateOfDay D)).
Proof.
  intros Hh Hmi Hs. cbv zeta. unfold MD.make, newDate.
  destruct h as [h|]; [|left; reflexivity].
  destruct mi as [mi|]; [|left; reflexivity].
  destruct s as [s|]; [|left; reflexivity].
  simpl in Hh, Hmi, Hs.
  destruct (wall_of_clipped local
              (MakeDate (MakeDay (fullYear y) m d) (MakeTime h mi s))) as [Hn|Hw];
    [left; exact Hn | right].
  exact (fields_of_wall _ _ _ (MakeTime_range h mi s Hh Hmi Hs) Hw).
Qed.

Lemma offsetOf_small (local : bool) :
  Z.abs tzOffset < msPerDay -> Z.abs (MD.offsetOf local) < msPerDay.
Proof. intros Hz. destruct local; simpl; [exact Hz | reflexivity]. Qed.

(** Inside the margin, with every clock field a number, the date is
    read back. *)
Lemma make_reads_day (local : bool) (y m d h mi s : Z) :
  Z.abs tzOffset < msPerDay ->
  0 <= h < 24 -> 0 <= mi < 60 -> 0 <= s < 60 ->
  let md := MD.make local (Some y) (Some m) (Some d) (Some h) (Some mi) (Some s) in
  let D := MakeDay (fullYear y) m d in
  Z.abs D <= 99999998 ->
  MD.year md = Some (yearOfDay D) /\ MD.month md = Some (monthOfDay D)
  /\ MD.date md = Some (dateOfDay D).
Proof.
  intros Hz Hh Hmi Hs md D HD.
  pose proof (MakeTime_range h mi s Hh Hmi Hs) as Htod.
  apply (fields_of_wall md D (MakeTime h mi s) Htod).
  unfold md, MD.make, newDate, MD.wall. simpl. fold D.
  rewrite TimeClip_in by (apply clip_margin; auto using offsetOf_small).
  simpl. f_equal. lia.
Qed.

(** [setFullYear] on any date, valid or not, inside the margin. *)
Lemma setFullYear_reads (local : bool) (t : Date) (y m d : Z) :
  Z.abs tzOffset < msPerDay ->
  let md := MD.setFullYear local (mkMethodDate local t) (Some y) (Some m) (Some d) in
  let D := MakeDay y m d in
  Z.abs D <= 99999998 ->
  MD.year md = Some (yearOfDay D) /\ MD.month md = Some (monthOfDay D)
  /\ MD.date md = Some (dateOfDay D).
Proof.
  intros Hz md D HD.
  set (tod := TimeWithinDay (match t with Some v => v + MD.offsetOf local | None => 0 end)).
  pose proof (TimeWithinDay_range
                (match t with Some v => v + MD.offsetOf local | None => 0 end)) as Htod.
  fold tod in Htod.
  apply (fields_of_wall md D tod Htod).
  unfold md, MD.setFullYear, setFullYear, MD.wall. simpl. fold tod. fold D.
  rewrite TimeClip_in by (apply clip_margin; auto using offsetOf_small).
  simpl. f_equal. lia.
Qed.

End MethodDateFacts.

Lemma dayName_nonempty (w : Z) : exists a r, JsDate.dayName w = String a r.
Proof.
  unfold JsDate.dayName.
  destruct w as [|p|p]; try (do 2 eexists; reflexivity);
    repeat (destruct p as [p|p|]; try (do 2 eexists; reflexivity)).
Qed.

Lemma toUTCString_nonempty (d : JsDate.Date) : String.eqb (JsDate.toUTCString d) "" = false.
Proof.
  destruct d as [t|]; [|reflexivity]. unfold JsDate.toUTCString.
  destruct (dayName_nonempty (JsDate.WeekDay t)) as (a & r & ->). reflexivity.
Qed.

(** ** The parser and the edit classifier *)

Section ParseFacts.
Context {H : Host}.
Variable props : Props.
Import JsDate CalendarFacts.

Lemma carried_range (st : State) :
  clockField 24 (carried st MD.hours) /\ clockField 60 (carried st MD.minutes)
  /\ clockField 60 (carried st MD.seconds).
Proof.
  unfold carried. destruct (initialValue st) as [iv|].
  - auto using hours_range, minutes_range, seconds_range.
  - simpl. lia.
Qed.

Lemma carried_numbers (st : State) :
  usable (initialValue st) ->
  exists h mi s,
    carried st MD.hours = Some h /\ carried st MD.minutes = Some mi
    /\ carried st MD.seconds = Some s
    /\ 0 <= h < 24 /\ 0 <= mi < 60 /\ 0 <= s < 60.
Proof.
  intros Hu. destruct (carried_range st) as (Hh & Hmi & Hs). revert Hh Hmi Hs.
  unfold carried, MD.hours, MD.minutes, MD.seconds, MD.wall.
  destruct (initialValue st) as [iv|]; simpl in *.
  - destruct (dateObject iv) as [t|]; [|congruence]. simpl. intros.
    do 3 eexists. repeat split; try reflexivity; lia.
  - intros. exists 0, 0, 0. repeat split; lia.
Qed.

(** [parse] seen from its result: a valid result has three numbers in
    their bounds that the rebuilt date gives back. *)
Lemma parse_valid_inv (st : State) (buffer : string) :
  valid (parse props st buffer) = true ->
  exists y m d,
    year (parse props st buffer) = Some y /\
    month (parse props st buffer) = Some m /\
    date (parse props st buffer) = Some d /\
    1 <= y /\ 1 <= m <= 12 /\ 1 <= d <= 31 /\
    let rebuilt := MD.make (props_localTimezone props) (Some y) (Some (m - 1)) (Some d)
                     (carried st MD.hours) (carried st MD.minutes)
                     (carried st MD.seconds) in
    MD.month rebuilt = Some (m - 1) /\ MD.date rebuilt = Some d.
Proof.
  unfold parse.
  match goal with
  | |- context [let '(_, _) := ?X in _] => destruct X as [[y m] d]
  end.
  cbn [valid year month date].
  destruct (Nat.eqb _ 3); destruct y as [y|], m as [m|], d as [d|];
    cbn [JsNum.isNaN JsNum.lt JsNum.gt JsNum.add option_map orb negb andb];
    rewrite ?andb_false_r; try (intro; discriminate).
  rewrite !Z.gtb_ltb.
  destruct (Z.ltb_spec y 1); [discriminate|].
  destruct (Z.ltb_spec m 1); [discriminate|].
  destruct (Z.ltb_spec 12 m); [discriminate|].
  destruct (Z.ltb_spec d 1); [discriminate|].
  destruct (Z.ltb_spec 31 d); [discriminate|].
  cbn [orb negb andb]. intros Hrt.
  exists y, m, d. repeat split; try lia.
  - replace (m - 1) with (m + -1) by lia.
    destruct (MD.month _) as [m'|]; [|discriminate]. simpl in Hrt.
    destruct (Z.eqb_spec m (m' + 1)); [f_equal; lia | discriminate].
  - replace (m - 1) with (m + -1) by lia.
    destruct (MD.date _) as [d'|]; [|rewrite orb_true_r in Hrt; discriminate].
    simpl in Hrt. destruct (Z.eqb_spec d d'); [congruence|].
    rewrite orb_true_r in Hrt. discriminate.
Qed.

Lemma parse_mdy_text (st : State) (buffer a b c : string) (y m d : Z) :
  props_format props = MMDDYYYY ->
  split buffer = [a; b; c] ->
  JsNum.parseInt a = Some m -> JsNum.parseInt b = Some d -> JsNum.parseInt c = Some y ->
  1 <= y -> 1 <= m <= 12 -> 1 <= d <= 31 ->
  let rebuilt := MD.make (props_localTimezone props) (Some y) (Some (m - 1)) (Some d)
                   (carried st MD.hours) (carried st MD.minutes)
                   (carried st MD.seconds) in
  valid (parse props st buffer) =
    negb (JsNum.neq (Some m) (JsNum.add (MD.month rebuilt) 1)
          || JsNum.neq (Some d) (MD.date rebuilt)).
Proof.
  intros Hf Hsplit Ha Hb Hc Hy Hm Hd. cbv zeta. unfold parse.
  rewrite Hf, Hsplit. cbn [List.length Nat.eqb nth List.nth].
  rewrite Ha, Hb, Hc.
  cbn [valid JsNum.isNaN JsNum.lt JsNum.gt JsNum.add option_map orb].
  rewrite !Z.gtb_ltb.
  destruct (Z.ltb_spec y 1); [lia|]. destruct (Z.ltb_spec m 1); [lia|].
  destruct (Z.ltb_spec 12 m); [lia|]. destruct (Z.ltb_spec d 1); [lia|].
  destruct (Z.ltb_spec 31 d); [lia|]. cbn [orb negb andb].
  replace (m + -1) with (m - 1) by lia. reflexivity.
Qed.

End ParseFacts.

Section OnInputFacts.
Context {H : Host}.
Variable props : Props.

Lemma parse_empty (st : State) : valid (parse props st "") = false.
Proof. unfold parse. destruct (props_format props); reflexivity. Qed.

Lemma edit_keeps_reference (c : Component) (raw : string) :
  initialValue (state c) <> None ->
  edit_initialValue (onInput_edit props c raw) <> None.
Proof.
  intros Hiv. unfold onInput_edit.
  repeat match goal with
    | |- context [if ?b then _ else _] => destruct b
    | |- context [match fromString ?l ?t with _ => _ end] => destruct (fromString l t)
    end; simpl; try exact Hiv; discriminate.
Qed.

Lemma onInput_total (c : Component) (raw : string) :
  initialValue (state c) <> None -> exists c', onInput props c raw = Some c'.
Proof.
  intros Hiv. pose proof (edit_keeps_reference c raw Hiv) as He.
  unfold onInput.
  destruct (len (edit_newValue (onInput_edit props c raw)) >? 11).
  - destruct (fromString _ _); eexists; reflexivity.
  - destruct (valid _); [|eexists; reflexivity].
    destruct (edit_initialValue (onInput_edit props c raw)); [|congruence].
    eexists; reflexivity.
Qed.

(** Clearing the input: whatever was shown, an empty raw value with no
    paste pending leaves the edit with the empty text. *)
Lemma edit_cleared (c : Component) :
  truthy (paste c) = false -> edit_newValue (onInput_edit props c "") = "".
Proof.
  intros Hp. unfold onInput_edit. rewrite Hp.
  pose proof (len_nonneg (value (state c))) as Hn.
  change (len "") with 0.
  destruct (Z.geb_spec (len (value (state c))) 0) as [_|Hlt]; [|lia].
  unfold handleDeletion. change (substr "" 0 (0 - 1)) with "".
  repeat match goal with
    | |- context [if ?b then _ else _] => destruct b
    end; reflexivity.
Qed.

Lemma edit_deletion (c : Component) (raw : string) (removed : ascii) :
  truthy (paste c) = false ->
  value (state c) = raw ++ String removed "" ->
  edit_newValue (onInput_edit props c raw) = afterDeletion raw removed /\
  edit_initialValue (onInput_edit props c raw) = initialValue (state c).
Proof.
  intros Hp Hv. unfold onInput_edit, handleDeletion, afterDeletion.
  rewrite Hp, Hv, len_snoc, charAt_last.
  pose proof (len_nonneg raw) as Hn.
  destruct (Z.geb_spec (len raw + 1) (len raw)) as [_|Hlt]; [|lia].
  replace (len raw + 1 - len raw) with 1 by lia. change (1 =? 1) with true. cbv iota.
  destruct (Z.gtb_spec (len raw + 1) 0) as [_|Hle]; [|lia].
  unfold isSlash at 1, differs.
  destruct (charAt raw (len raw - 1)) as [a|]; simpl;
    destruct (Ascii.eqb_spec removed "/"%char) as [->|Hne]; simpl.
  - destruct (Ascii.eqb a "/"%char); simpl;
      repeat match goal with |- context [if ?b then _ else _] => destruct b end;
      split; reflexivity.
  - destruct (Ascii.eqb a removed); simpl;
      repeat match goal with |- context [if ?b then _ else _] => destruct b end;
      split; reflexivity.
  - repeat match goal with |- context [if ?b then _ else _] => destruct b end;
      split; reflexivity.
  - repeat match goal with |- context [if ?b then _ else _] => destruct b end;
      split; reflexivity.
Qed.

Lemma afterDeletion_shorter (raw : string) (removed : ascii) :
  len (afterDeletion raw removed) <= len raw.
Proof.
  unfold afterDeletion. destruct (_ && _); [apply substr_shorter | lia].
Qed.

End OnInputFacts.

(** * The claims *)

(** ** C1: the parser's calendar round trip *)

Section ParseClaim.
Context {H : Host}.
Variable props : Props.
Import JsDate CalendarFacts.

(** C1.  Whenever [parse] answers valid, its three fields are numbers
    inside the independent bounds (year at least 1, month 1..12, day
    1..31) and the date rebuilt from (year, month - 1, day) with the
    carried time of day reads back that month and that day.  Under
    MM/DD/YYYY, "02/30/2024" is never valid, and "04/30/2024" is valid
    whenever the reference date is absent or a valid date (the local zone
    being less than a day away from UTC). *)
Theorem parse_round_trip :
  (forall st buffer,
     valid (parse props st buffer) = true ->
     exists y m d,
       year (parse props st buffer) = Some y /\
       month (parse props st buffer) = Some m /\
       date (parse props st buffer) = Some d /\
       1 <= y /\ 1 <= m <= 12 /\ 1 <= d <= 31 /\
       let rebuilt :=
         MD.make (props_localTimezone props) (Some y) (Some (m - 1)) (Some d)
                 (carried st MD.hours) (carried st MD.minutes)
                 (carried st MD.seconds) in
       MD.month rebuilt = Some (m - 1) /\ MD.date rebuilt = Some d) /\
  (forall st,
     props_format props = MMDDYYYY ->
     valid (parse props st "02/30/2024") = false) /\
  (forall st,
     props_format props = MMDDYYYY ->
     Z.abs tzOffset < msPerDay -> usable (initialValue st) ->
     valid (parse props st "04/30/2024") = true).
Proof.
  split; [exact (parse_valid_inv props) | split].
  - intros st Hf.
    rewrite (parse_mdy_text props st _ "02" "30" "2024" 2024 2 30 Hf)
      by (reflexivity || lia).
    destruct (carried_range st) as (Hh & Hmi & Hs).
    destruct (make_reads (props_localTimezone props) 2024 (2 - 1) 30 _ _ _ Hh Hmi Hs)
      as [Hnone | (_ & Hm & _)].
    + destruct (fields_of_invalid _ Hnone) as [-> _]. reflexivity.
    + rewrite Hm. reflexivity.
  - intros st Hf Hz Hu.
    rewrite (parse_mdy_text props st _ "04" "30" "2024" 2024 4 30 Hf)
      by (reflexivity || lia).
    destruct (carried_numbers st Hu) as (h & mi & s & -> & -> & -> & Hh & Hmi & Hs).
    destruct (make_reads_day (props_localTimezone props) 2024 (4 - 1) 30 h mi s
                Hz Hh Hmi Hs ltac:(vm_compute; discriminate)) as (_ & -> & ->).
    reflexivity.
Qed.

End ParseClaim.

Lemma parse_round_trip_witness :
  let st := state (Demo.fresh (Demo.mdy true)) in
  valid (@parse Demo.host (Demo.mdy true) st "04/30/2024") = true /\
  valid (@parse Demo.host (Demo.mdy true) st "02/30/2024") = false /\
  @MD.month Demo.host
    (@MD.make Demo.host true (Some 2024) (Some (4 - 1)) (Some 30)
       (@carried st (@MD.hours Demo.host)) (@carried st (@MD.minutes Demo.host))
       (@carried st (@MD.seconds Demo.host))) = Some (4 - 1).
Proof.
  intros st.
  destruct (@parse_round_trip Demo.host (Demo.mdy true)) as (Hgen & Hfeb & Hapr).
  assert (Hv : valid (@parse Demo.host (Demo.mdy true) st "04/30/2024") = true).
  { apply Hapr; [reflexivity | vm_compute; reflexivity | simpl; discriminate]. }
  split; [exact Hv|]. split; [apply Hfeb; reflexivity|].
  destruct (Hgen st "04/30/2024" Hv) as (y & m & d & Hy & Hm & Hd & _ & _ & _ & Hmonth & _).
  vm_compute in Hy, Hm, Hd.
  assert (y = 2024) by congruence. assert (m = 4) by congruence.
  assert (d = 30) by congruence. subst y m d. exact Hmonth.
Defined.

(** ** C2: what the update hook emits *)

Section ChangeClaim.
Context {H : Host}.
Variable props : Props.


End ChangeClaim.



(** ** C3: the year segment under the typing assist *)

(** C3 (amended).  A character landing in the year segment is left as
    typed, with one exception: under YYYY/MM/DD the fourth character of
    the leading year gets the separator appended.  More widely, outside
    the month and day segments the assist does nothing but that and the
    cap at ten characters. *)
Theorem year_segment_assist (props : Props) (st : State) (newValue : string) :
  let f := props_format props in
  let n := len newValue in
  let fourthOfLeadingYear := DateFormat_eqb f YYYYMMDD && (n =? 4) in
  (landing f n = Some Year ->
   handleTyping props st newValue =
     if fourthOfLeadingYear then newValue ++ "/" else newValue) /\
  (landing f n <> Some Month -> landing f n <> Some Day ->
   handleTyping props st newValue =
     if fourthOfLeadingYear then newValue ++ "/" else slice0 newValue 10).
Proof.
  cbv zeta. unfold handleTyping, landing.
  split; [intros HY | intros HM HD];
    destruct (props_format props); simpl in *; decide_tests;
    try reflexivity; try discriminate; try lia; try congruence;
    try (symmetry; apply slice0_short; lia).
Qed.

(** C3 as stated fails: the fourth character of a leading year is followed
    by an inserted separator. *)
Lemma year_segment_counterexample :
  landing YYYYMMDD (len "2024") = Some Year /\
  handleTyping Demo.ymd (state (Demo.showing "202")) "2024" = "2024/" /\
  handleTyping Demo.ymd (state (Demo.showing "202")) "2024" <> slice0 "2024" 10.
Proof. repeat split. vm_compute. discriminate. Qed.

Lemma year_segment_assist_witness :
  handleTyping (Demo.mdy true) (state (Demo.showing "04/30/2")) "04/30/20" = "04/30/20" /\
  handleTyping Demo.ymd (state (Demo.showing "202")) "2024" = "2024/" /\
  handleTyping Demo.dmy (state (Demo.showing "30/04/2024")) "30/04/20245" = "30/04/2024".
Proof.
  split; [|split].
  - apply (proj1 (year_segment_assist (Demo.mdy true) (state (Demo.showing "04/30/2")) "04/30/20")).
    reflexivity.
  - apply (proj1 (year_segment_assist Demo.ymd (state (Demo.showing "202")) "2024")).
    reflexivity.
  - apply (proj2 (year_segment_assist Demo.dmy (state (Demo.showing "30/04/2024")) "30/04/20245"));
      vm_compute; discriminate.
Defined.

(** ** C4: typing a month under MM/DD/YYYY *)

(** C4 (amended).  On a component built with no seed under MM/DD/YYYY,
    typing "2" shows "02/"; typing "1" shows "1"; typing "3" after it is
    rejected and "1" stays; typing "0", "1" or "2" after it completes the
    month and appends the separator. *)
Theorem month_typing_mdy {H : Host} (local onPaste : bool) :
  let p := mkProps NoSeed local MMDDYYYY onPaste in
  let c0 := construct p in
  shown (run p c0 ["2"]) = Some "02/" /\
  shown (run p c0 ["1"]) = Some "1" /\
  shown (run p c0 ["1"; "13"]) = Some "1" /\
  shown (run p c0 ["1"; "10"]) = Some "10/" /\
  shown (run p c0 ["1"; "11"]) = Some "11/" /\
  shown (run p c0 ["1"; "12"]) = Some "12/".
Proof. cbv zeta. repeat split; vm_compute; reflexivity. Qed.

(** C4 as stated fails: after a first "1" the text is "1", not "01". *)
Lemma month_typing_counterexample :
  shown (@run Demo.host (Demo.mdy true) (Demo.fresh (Demo.mdy true)) ["1"]) = Some "1" /\
  shown (@run Demo.host (Demo.mdy true) (Demo.fresh (Demo.mdy true)) ["1"]) <> Some "01".
Proof. split; vm_compute; [reflexivity | discriminate]. Qed.

(** ** C5: a first digit too large for its field *)

(** C5 (amended).  When the character typed is the first of its field
    (the text before it is empty or ends in a separator) and is a digit
    above 1 for a month or above 3 for a day, the digit is kept behind an
    inserted "0"; the separator follows it at positions 1 and 2, and
    nothing follows it at position 3.  At position 1 the result is the
    padded field alone. *)
Theorem first_digit_promoted (st : State) (pre : string) (k position : Z) :
  pre = "" \/ isSlash (charAt pre (len pre - 1)) = true ->
  0 <= k <= 9 ->
  let typed := pre ++ String (digitChar k) "" in
  let kept := if position >? 1 then pre else "" in
  let separator := if position <? 3 then "/" else "" in
  (1 < k -> handleMonth st typed position = kept ++ "0" ++ String (digitChar k) separator) /\
  (3 < k -> handleDay st typed position = kept ++ "0" ++ String (digitChar k) separator).
Proof.
  intros Hpre Hk typed kept separator.
  assert (Hgt : forall b, b < k -> JsNum.gt (Some k) b = true).
  { intros b Hb. simpl. rewrite Z.gtb_ltb. apply Z.ltb_lt. exact Hb. }
  split; intros Hbig.
  - unfold handleMonth, typed. rewrite len_snoc, charAt_last, parseInt_digit by exact Hk.
    rewrite (first_of_field pre _ Hpre), (Hgt 1 Hbig).
    rewrite replaceAt_last, toString_digit by exact Hk.
    unfold kept. destruct (position >? 1); simpl; [rewrite append_assoc|]; reflexivity.
  - unfold handleDay, typed. rewrite len_snoc, charAt_last, parseInt_digit by exact Hk.
    rewrite (first_of_field pre _ Hpre), (Hgt 3 Hbig).
    rewrite replaceAt_last, toString_digit by exact Hk.
    unfold kept. destruct (position >? 1); simpl; [rewrite append_assoc|]; reflexivity.
Qed.

(** C5 as stated fails at the third position: the day of YYYY/MM/DD is
    padded and no separator follows. *)
Lemma first_digit_counterexample :
  handleDay (state (Demo.showing "2024/01/")) "2024/01/4" 3 = "2024/01/04" /\
  endsWith (handleDay (state (Demo.showing "2024/01/")) "2024/01/4" 3) "04/" = false /\
  handleTyping Demo.ymd (state (Demo.showing "2024/01/")) "2024/01/4" = "2024/01/04".
Proof. repeat split. Qed.

Lemma first_digit_promoted_witness :
  handleMonth (state (Demo.showing "")) "2" 1 = "02/" /\
  handleDay (state (Demo.showing "12/")) "12/4" 2 = "12/04/" /\
  handleDay (state (Demo.showing "2024/01/")) "2024/01/4" 3 = "2024/01/04".
Proof.
  split; [|split].
  - apply (proj1 (first_digit_promoted (state (Demo.showing "")) "" 2 1
                    (or_introl eq_refl) ltac:(lia))). lia.
  - apply (proj2 (first_digit_promoted (state (Demo.showing "12/")) "12/" 4 2
                    (or_intror eq_refl) ltac:(lia))). lia.
  - apply (proj2 (first_digit_promoted (state (Demo.showing "2024/01/")) "2024/01/" 4 3
                    (or_intror eq_refl) ltac:(lia))). lia.
Defined.

(** ** C6: a pasted date *)

Section PasteClaim.
Context {H : Host}.
Variable props : Props.

(** C6 (amended).  When a paste is pending, the raw text free-form parses
    to a date, and the reformatted text is at most 11 characters and
    passes [parse], the input event completes with the reformatted text
    shown and a parsed date held, exactly one call is emitted and the
    paste marker is cleared.  The call is [onPaste] with the UTC text of
    the pasted date when the host gave [onPaste]; without that callback it
    is [onChange] with the UTC text of the parsed date. *)
Theorem paste_notification (c : Component) (raw : string) (d : MethodDate) :
  let local := props_localTimezone props in
  let formatted := formatDate (dateObject d) (props_format props) local in
  truthy (paste c) = true ->
  fromString local raw = Some d ->
  len formatted <= 11 ->
  valid (parse props (state c) formatted) = true ->
  exists s dv,
    inputEvent props c raw = Some s /\
    text (after s) = formatted /\
    dateValue (state (after s)) = Some dv /\
    emitted s =
      [if props_onPaste props
       then OnPaste (JsDate.toUTCString (dateObject d))
       else OnChange (JsDate.toUTCString (dateObject dv))] /\
    paste (after s) = PasteBool false.
Proof.
  intros local formatted Hp Hd Hfit Hvalid.
  unfold inputEvent, onInput, onInput_edit. fold local. rewrite Hp, Hd. simpl.
  fold formatted.
  destruct (Z.gtb_spec (len formatted) 11) as [Hlong|_]; [lia|].
  rewrite Hvalid. simpl.
  unfold componentDidUpdate. simpl. rewrite toUTCString_nonempty. simpl.
  rewrite orb_true_r.
  eexists. eexists. split; [reflexivity|]. simpl.
  destruct (props_onPaste props); repeat split; reflexivity.
Qed.

End PasteClaim.

(** C6 as stated fails when the host gave no [onPaste]: the date goes out
    on [onChange]. *)
Lemma paste_notification_counterexample :
  exists s,
    @inputEvent Demo.host (Demo.mdy false)
      (onPaste (Demo.fresh (Demo.mdy false))) "March 3, 2024" = Some s /\
    text (after s) = "03/03/2024" /\
    emitted s = [OnChange "Sat, 02 Mar 2024 23:00:00 GMT"].
Proof. eexists. vm_compute. repeat split. Qed.

Lemma paste_notification_witness :
  exists s,
    @inputEvent Demo.host (Demo.mdy true)
      (onPaste (Demo.fresh (Demo.mdy true))) "March 3, 2024" = Some s /\
    text (after s) = "03/03/2024" /\
    emitted s = [OnPaste "Sat, 02 Mar 2024 23:00:00 GMT"] /\
    paste (after s) = PasteBool false.
Proof.
  destruct (@paste_notification Demo.host (Demo.mdy true)
              (onPaste (Demo.fresh (Demo.mdy true))) "March 3, 2024"
              (mkMethodDate true (Some 1709420400000)))
    as (s & dv & Hevent & Htext & _ & Hcalls & Hpaste).
  - reflexivity.
  - vm_compute. reflexivity.
  - vm_compute. discriminate.
  - vm_compute. reflexivity.
  - exists s. split; [exact Hevent|]. split; [exact Htext|].
    split; [exact Hcalls | exact Hpaste].
Defined.

(** ** C7: years of one or two digits *)

Section CenturyClaim.
Context {H : Host}.
Variable props : Props.
Import JsDate CalendarFacts.

Lemma fullYear_two_digits (y : Z) : 1 <= y <= 99 -> fullYear y = 1900 + y.
Proof.
  intros Hy. unfold fullYear.
  destruct (Z.leb_spec 0 y); [|lia]. destruct (Z.leb_spec y 99); [reflexivity | lia].
Qed.

(** C7.  When the edited text is at most 11 characters and [parse] finds
    it valid with a year below 100, the input event completes and the
    parsed date it stores reads back exactly that year, and the month and
    day of the text, in the configured timezone mode. *)
Theorem two_digit_year_kept (c : Component) (raw : string) (y : Z) :
  let e := onInput_edit props c raw in
  let r := parse props (state c) (edit_newValue e) in
  Z.abs tzOffset < msPerDay ->
  initialValue (state c) <> None ->
  len (edit_newValue e) <= 11 ->
  valid r = true -> year r = Some y -> y < 100 ->
  exists c' dv,
    onInput props c raw = Some c' /\
    text c' = edit_newValue e /\
    dateValue (state c') = Some dv /\
    MD.year dv = Some y /\
    MD.month dv = JsNum.add (month r) (-1) /\
    MD.date dv = date r.
Proof.
  intros e r Hz Hiv Hfit Hvalid Hyear Hsmall.
  destruct (parse_valid_inv props (state c) (edit_newValue e) Hvalid)
    as (y' & m & d & Hy & Hm & Hd & Hyr & Hmr & Hdr & Hmonth & Hdate).
  fold r in Hy, Hm, Hd. assert (y' = y) by congruence. subst y'.
  (* what the validity check saw, in year 1900 + y *)
  destruct (carried_range (state c)) as (Hh & Hmi & Hs).
  destruct (make_reads (props_localTimezone props) y (m - 1) d _ _ _ Hh Hmi Hs)
    as [Hnone | (_ & Hm19 & Hd19)].
  { destruct (fields_of_invalid _ Hnone) as [Hbad _]. congruence. }
  rewrite fullYear_two_digits in Hm19, Hd19 by lia.
  assert (HM : monthOfDay (MakeDay (1900 + y) (m - 1) d) = m - 1) by congruence.
  assert (HD : dateOfDay (MakeDay (1900 + y) (m - 1) d) = d) by congruence.
  (* the same day exists in year y *)
  pose proof (centuryCheck_holds y m d ltac:(lia) Hmr Hdr) as Hcheck.
  unfold centuryCheck in Hcheck. rewrite HM, HD, !Z.eqb_refl in Hcheck.
  cbn [andb negb orb] in Hcheck.
  apply andb_prop in Hcheck. destruct Hcheck as [Hmargin Hsame].
  apply andb_prop in Hmargin. destruct Hmargin as [_ Hmargin].
  apply Z.leb_le in Hmargin.
  apply andb_prop in Hsame. destruct Hsame as [Hsame HsameD].
  apply andb_prop in Hsame. destruct Hsame as [HsameY HsameM].
  apply Z.eqb_eq in HsameY, HsameM, HsameD.
  (* the edit itself *)
  pose proof (edit_keeps_reference props c raw Hiv) as Hkeep. fold e in Hkeep.
  unfold onInput. fold e.
  destruct (Z.gtb_spec (len (edit_newValue e)) 11) as [Hlong|_]; [lia|].
  fold r. rewrite Hvalid.
  destruct (edit_initialValue e) as [iv|]; [|congruence].
  rewrite Hy, Hm, Hd. cbn [JsNum.lt JsNum.add option_map].
  destruct (Z.ltb_spec y 100) as [_|Hbig]; [|lia].
  replace (m + -1) with (m - 1) by lia.
  eexists. eexists. split; [reflexivity|]. split; [reflexivity|].
  split; [reflexivity|].
  destruct (setFullYear_reads (props_localTimezone props)
              (newDate (MD.offsetOf (props_localTimezone props))
                 (Some y) (Some (m - 1)) (Some d)
                 (MD.hours iv) (MD.minutes iv) (MD.seconds iv))
              y (m - 1) d Hz Hmargin) as (Hy' & Hm' & Hd').
  unfold MD.make. rewrite Hy', Hm', Hd', HsameY, HsameM, HsameD.
  repeat split.
Qed.

End CenturyClaim.

Lemma two_digit_year_kept_witness :
  exists c' dv,
    @onInput Demo.host (Demo.mdy true) (Demo.showing "01/01/4") "01/01/45" = Some c' /\
    text c' = "01/01/45" /\
    dateValue (state c') = Some dv /\
    @MD.year Demo.host dv = Some 45.
Proof.
  destruct (@two_digit_year_kept Demo.host (Demo.mdy true)
              (Demo.showing "01/01/4") "01/01/45" 45)
    as (c' & dv & Hrun & Htext & Hdate & Hyear & _).
  - vm_compute. reflexivity.
  - simpl. discriminate.
  - vm_compute. discriminate.
  - vm_compute. reflexivity.
  - vm_compute. reflexivity.
  - lia.
  - exists c', dv. split; [exact Hrun|]. split; [exact Htext|].
    split; [exact Hdate | exact Hyear].
Defined.

(** ** C8: deleting the last character *)

Section DeletionClaim.
Context {H : Host}.
Variable props : Props.

(** C8 (amended).  With no paste pending, deleting the last character of
    the text leaves [afterDeletion] of the rest: whenever that is at most
    11 characters, or does not free-form parse, it is the new text and it
    is shorter than the old one.  A separator removed from behind another
    character that is not a separator takes that character with it, two
    characters in all; a separator that was the only character or stood
    behind another separator goes alone. *)
Theorem end_deletion (c : Component) (raw : string) (removed : ascii) :
  truthy (paste c) = false ->
  initialValue (state c) <> None ->
  value (state c) = raw ++ String removed "" ->
  let kept := afterDeletion raw removed in
  exists c', onInput props c raw = Some c' /\
    (len kept <= 11 \/ fromString (props_localTimezone props) kept = None ->
     text c' = kept /\ len (text c') < len (text c)) /\
    (forall rest digit,
       removed = "/"%char -> raw = rest ++ String digit "" -> digit <> "/"%char ->
       len rest <= 11 ->
       text c' = rest /\ len (text c') = len (text c) - 2) /\
    (removed = "/"%char ->
     raw = "" \/ isSlash (charAt raw (len raw - 1)) = true ->
     len raw <= 11 ->
     text c' = raw /\ len (text c') = len (text c) - 1).
Proof.
  intros Hp Hiv Hv kept.
  destruct (edit_deletion props c raw removed Hp Hv) as [He Hi].
  pose proof (afterDeletion_shorter raw removed) as Hshort. fold kept in Hshort, He.
  assert (Hlen : len (text c) = len raw + 1).
  { unfold text. rewrite Hv. apply len_snoc. }
  destruct (onInput_total props c raw Hiv) as [c' Hrun]. exists c'.
  split; [exact Hrun|].
  assert (Hkey : len kept <= 11 \/ fromString (props_localTimezone props) kept = None ->
                 text c' = kept).
  { intros Hcase. unfold onInput in Hrun. rewrite He, Hi in Hrun.
    destruct (Z.gtb_spec (len kept) 11) as [Hlong|_].
    - destruct Hcase as [Hle | Hnone]; [lia|]. rewrite Hnone in Hrun.
      inversion Hrun. reflexivity.
    - destruct (valid _); [destruct (initialValue (state c)); [|discriminate]|];
        inversion Hrun; reflexivity. }
  split; [|split].
  - intros Hcase. rewrite (Hkey Hcase). split; [reflexivity | lia].
  - intros rest digit -> -> Hd Hfit.
    assert (Hk : kept = rest).
    { unfold kept, afterDeletion. rewrite len_snoc, charAt_last. simpl.
      destruct (Ascii.eqb_spec digit "/"%char) as [Heq|_]; [contradiction|].
      simpl. apply substr_drop_last. }
    rewrite Hkey by (left; rewrite Hk; exact Hfit).
    rewrite Hk, Hlen, len_snoc. split; [reflexivity | lia].
  - intros -> Hends Hfit.
    assert (Hk : kept = raw).
    { unfold kept, afterDeletion. destruct Hends as [-> | Hs];
        [reflexivity | rewrite Hs; reflexivity]. }
    rewrite Hkey by (left; rewrite Hk; exact Hfit).
    rewrite Hk, Hlen. split; [reflexivity | lia].
Qed.

End DeletionClaim.

(** C8 as stated fails: deleting the second of two separators removes one
    character. *)
Lemma end_deletion_counterexample :
  exists c',
    @onInput Demo.host (Demo.mdy true) (Demo.showing "1//") "1/" = Some c' /\
    text c' = "1/" /\
    len (text c') <> len (text (Demo.showing "1//")) - 2.
Proof. eexists. vm_compute. repeat split. discriminate. Qed.

Lemma end_deletion_witness :
  exists c',
    @onInput Demo.host (Demo.mdy true) (Demo.showing "12/") "12" = Some c' /\
    text c' = "1" /\ len (text c') = len (text (Demo.showing "12/")) - 2.
Proof.
  destruct (@end_deletion Demo.host (Demo.mdy true) (Demo.showing "12/") "12" "/"%char)
    as (c' & Hrun & _ & Htwo & _).
  - reflexivity.
  - simpl. discriminate.
  - reflexivity.
  - exists c'. split; [exact Hrun|].
    apply (Htwo "1" "2"%char eq_refl eq_refl); [discriminate | vm_compute; discriminate].
Defined.

(** ** C9: the empty text *)

Section EmptyClaim.
Context {H : Host}.
Variable props : Props.

(** C9.  A component built with no seed shows the empty text with no
    invalid or error flag and no parsed date; clearing the input with no
    paste pending completes and shows the empty text; and whenever an
    input event ends with the empty text shown (formatted dates never
    being empty), the invalid and error flags are off and no parsed date
    is held. *)
Theorem empty_buffer_is_no_error :
  (forall local f onPaste,
     let c := construct (mkProps NoSeed local f onPaste) in
     text c = "" /\ invalid (state c) = false /\ error (state c) = false
     /\ dateValue (state c) = None) /\
  (forall c, truthy (paste c) = false ->
     exists c', onInput props c "" = Some c' /\ text c' = "") /\
  (forall c raw c',
     (forall d f l, formatDate d f l <> "") ->
     onInput props c raw = Some c' -> text c' = "" ->
     invalid (state c') = false /\ error (state c') = false
     /\ dateValue (state c') = None).
Proof.
  split; [|split].
  - intros local f onPaste. cbv zeta. repeat split.
  - intros c Hp. unfold onInput. rewrite (edit_cleared props c Hp).
    change (len "" >? 11) with false. cbv iota. rewrite parse_empty.
    eexists. split; reflexivity.
  - intros c raw c' Hfmt Hrun Hempty. unfold onInput in Hrun.
    set (e := onInput_edit props c raw) in *.
    destruct (Z.gtb_spec (len (edit_newValue e)) 11) as [Hlong|Hshort].
    + destruct (fromString _ _) as [d|]; inversion Hrun; subst c'; unfold text in Hempty; simpl in Hempty.
      * exfalso. exact (Hfmt _ _ _ Hempty).
      * rewrite Hempty in Hlong. change (len "") with 0 in Hlong. lia.
    + destruct (valid (parse props (state c) (edit_newValue e))) eqn:Hv.
      * destruct (edit_initialValue e); [|discriminate].
        inversion Hrun; subst c'. unfold text in Hempty; simpl in Hempty.
        rewrite Hempty, parse_empty in Hv. discriminate.
      * inversion Hrun; subst c'. unfold text in Hempty; simpl in Hempty.
        rewrite Hempty. simpl. repeat split.
  Qed.

End EmptyClaim.

Lemma empty_buffer_is_no_error_witness :
  exists c',
    @onInput Demo.host (Demo.mdy true) (Demo.showing "1") "" = Some c' /\
    text c' = "" /\
    invalid (state c') = false /\ error (state c') = false /\
    dateValue (state c') = None.
Proof.
  destruct (@empty_buffer_is_no_error Demo.host (Demo.mdy true)) as (_ & Hclear & Hflags).
  destruct (Hclear (Demo.showing "1") eq_refl) as (c' & Hrun & Htext).
  exists c'. split; [exact Hrun|]. split; [exact Htext|].
  apply (Hflags (Demo.showing "1") "" c'); [|exact Hrun | exact Htext].
  exact demo_formatDate_nonempty.
Defined.

(** ** C10: what a calendar selection leaves alone *)

(** C10.  [onSelect] sets the text, the error flag, the dropdown
    visibility and the parsed date, and leaves the invalid flag, the
    reference date and the paste marker as they were; so with the invalid
    flag set before the selection, a later addition is still taken as
    typed, with no assist and no rejection. *)
Theorem select_frame {H : Host} (props : Props) (c : Component) (d : JsDate.Date) :
  let c' := onSelect props c d in
  let local := props_localTimezone props in
  invalid (state c') = invalid (state c) /\
  initialValue (state c') = initialValue (state c) /\
  paste c' = paste c /\
  value (state c') = formatDate d (props_format props) local /\
  error (state c') = false /\
  visible (state c') = false /\
  dateValue (state c') = Some (MD.fromDate local d) /\
  (forall raw,
     invalid (state c) = true -> truthy (paste c) = false ->
     len (value (state c')) < len raw ->
     onInput_edit props c' raw =
       mkEdit raw true (initialValue (state c)) (dateValue (state c')) (paste c)).
Proof.
  cbv zeta. repeat split; try reflexivity.
  intros raw Hinv Hp Hlen. unfold onInput_edit. simpl in *. rewrite Hp, Hinv. simpl.
  destruct (Z.geb_spec (len (formatDate d (props_format props) (props_localTimezone props))) (len raw)) as [Hge|_]; [lia|].
  destruct (Z.leb_spec (len raw) 10) as [_|Hgt]; [|reflexivity].
  destruct (_ && _); reflexivity.
Qed.

Lemma select_frame_witness :
  let c := mkComponent
             (mkState "0x/" None (Some (@MD.today Demo.host true)) true true true)
             (PasteBool false) in
  let c' := @onSelect Demo.host (Demo.mdy true) c (Some 1709420400000) in
  text c' = "03/03/2024" /\
  invalid (state c') = true /\
  initialValue (state c') = initialValue (state c) /\
  edit_newValue (@onInput_edit Demo.host (Demo.mdy true) c' "03/03/2024/")
  = "03/03/2024/".
Proof.
  intros c c'.
  destruct (@select_frame Demo.host (Demo.mdy true) c (Some 1709420400000))
    as (Hinv & Hiv & _ & Hval & _ & _ & _ & Htyped).
  subst c'.
  split; [unfold text; rewrite Hval; vm_compute; reflexivity|].
  split; [rewrite Hinv; reflexivity|]. split; [exact Hiv|].
  rewrite (Htyped "03/03/2024/" eq_refl eq_refl).
  - reflexivity.
  - vm_compute. reflexivity.
Defined.

(** * Further properties *)

(** ** The civil calendar and the parser *)

Section CivilCalendar.
Import JsDate CalendarFacts.

(** The year of a 400-year era is recovered from the day of the era. *)
Lemma year_of_era (yoe doy : Z) :
  0 <= yoe < 400 -> 0 <= doy ->
  (doy < 365 \/
   doy = 365 /\ (yoe + 1) mod 4 = 0 /\ ((yoe + 1) mod 100 <> 0 \/ (yoe + 1) mod 400 = 0)) ->
  let doe := yoe * 365 + yoe / 4 - yoe / 100 + doy in
  0 <= doe < 146097 /\
  (doe - doe / 1460 + doe / 36524 - doe / 146096) / 365 = yoe.
Proof.
  intros Hy Hd0 Hd. cbv zeta.
  assert (Hc : yoe / 100 = 0 \/ yoe / 100 = 1 \/ yoe / 100 = 2 \/ yoe / 100 = 3)
    by (Z.div_mod_to_equations; lia).
  destruct Hc as [Hc|[Hc|[Hc|Hc]]]; Z.div_mod_to_equations; lia.
Qed.

Lemma isLeap_true (y : Z) :
  isLeap y = true <-> y mod 4 = 0 /\ (y mod 100 <> 0 \/ y mod 400 = 0).
Proof.
  unfold isLeap. rewrite andb_true_iff, orb_true_iff, negb_true_iff.
  rewrite !Z.eqb_eq, Z.eqb_neq. tauto.
Qed.

Lemma civilFromDays_parts (era yoe mp d : Z) :
  0 <= yoe < 400 -> 0 <= mp <= 11 -> 1 <= d ->
  (5 * ((153 * mp + 2) / 5 + d - 1) + 2) / 153 = mp ->
  ((153 * mp + 2) / 5 + d - 1 < 365 \/
   (153 * mp + 2) / 5 + d - 1 = 365 /\
   (yoe + 1) mod 4 = 0 /\ ((yoe + 1) mod 100 <> 0 \/ (yoe + 1) mod 400 = 0)) ->
  civilFromDays (era * 146097 + (yoe * 365 + yoe / 4 - yoe / 100 +
                                 ((153 * mp + 2) / 5 + d - 1)) - 719468) =
    ((if (if mp <? 10 then mp + 3 else mp - 9) <=? 2
      then yoe + era * 400 + 1 else yoe + era * 400),
     (if mp <? 10 then mp + 3 else mp - 9), d).
Proof.
  intros Hy Hmp Hd Hm Hdoy.
  set (doy := (153 * mp + 2) / 5 + d - 1) in *.
  assert (Hdoy0 : 0 <= doy) by (unfold doy; Z.div_mod_to_equations; lia).
  destruct (year_of_era yoe doy Hy Hdoy0 Hdoy) as [Hdoe Hyoe].
  set (doe := yoe * 365 + yoe / 4 - yoe / 100 + doy) in *.
  unfold civilFromDays.
  replace (era * 146097 + doe - 719468 + 719468) with (doe + era * 146097) by lia.
  rewrite Z.div_add by lia. rewrite (Z.div_small doe 146097) by lia.
  replace (doe + era * 146097 - (0 + era) * 146097) with doe by lia.
  cbv zeta. rewrite Hyoe.
  replace (doe - (365 * yoe + yoe / 4 - yoe / 100)) with doy by (unfold doe; lia).
  rewrite Hm. replace (doy - (153 * mp + 2) / 5 + 1) with d by (unfold doy; lia).
  replace (0 + era) with era by lia. reflexivity.
Qed.

Ltac month_cases m H :=
  assert (m = 1 \/ m = 2 \/ m = 3 \/ m = 4 \/ m = 5 \/ m = 6 \/ m = 7 \/ m = 8 \/
          m = 9 \/ m = 10 \/ m = 11 \/ m = 12) as H by lia;
  repeat (destruct H as [H|H]; [subst m|]); [..|subst m].

Ltac norm_if :=
  repeat match goal with
  | |- context [if ?b then _ else _] =>
      let v := eval vm_compute in b in
      first [constr_eq v true | constr_eq v false]; change b with v; cbv iota
  | H : context [if ?b then _ else _] |- _ =>
      let v := eval vm_compute in b in
      first [constr_eq v true | constr_eq v false]; change b with v in H; cbv iota in H
  end.

Lemma civil_of_days (y m d : Z) :
  1 <= m <= 12 -> 1 <= d <= daysInMonth y m ->
  civilFromDays (daysFromCivil y m d) = (y, m, d).
Proof.
  intros Hm Hd. unfold daysFromCivil. cbv zeta.
  set (y' := if m <=? 2 then y - 1 else y).
  set (mp := if m >? 2 then m - 3 else m + 9).
  assert (Hyoe : 0 <= y' - y' / 400 * 400 < 400) by (Z.div_mod_to_equations; lia).
  assert (Hy' : y' = y' - y' / 400 * 400 + y' / 400 * 400) by lia.
  remember (y' - y' / 400 * 400) as yoe eqn:Eyoe. remember (y' / 400) as era eqn:Eera.
  clear Eyoe Eera.
  assert (Hleap : m = 2 -> d = 29 ->
            (yoe + 1) mod 4 = 0 /\ ((yoe + 1) mod 100 <> 0 \/ (yoe + 1) mod 400 = 0)).
  { intros -> ->. unfold daysInMonth in Hd. cbn [Z.eqb Pos.eqb] in Hd.
    destruct (isLeap y) eqn:El; [|lia]. apply isLeap_true in El.
    unfold y' in Hy'. norm_if. Z.div_mod_to_equations; lia. }
  assert (Hdim : 1 <= d <= 31 /\ (m = 2 -> d <= 29) /\
                 (m = 4 \/ m = 6 \/ m = 9 \/ m = 11 -> d <= 30)).
  { unfold daysInMonth in Hd.
    assert (H31 : d <= 31)
      by (destruct (m =? 2); [destruct (isLeap y)|destruct (_ || _)]; lia).
    split; [lia|]. split.
    - intros ->. cbn in Hd. destruct (isLeap y); lia.
    - intros Hc. destruct (Z.eqb_spec m 2); [lia|].
      replace ((m =? 4) || (m =? 6) || (m =? 9) || (m =? 11)) with true in Hd; [lia|].
      symmetry. rewrite !orb_true_iff, !Z.eqb_eq. tauto. }
  clear Hd.
  rewrite (civilFromDays_parts era yoe mp d Hyoe).
  - month_cases m Hc; unfold mp, y' in *; norm_if; f_equal; f_equal; lia.
  - unfold mp. destruct (Z.gtb_spec m 2); lia.
  - lia.
  - month_cases m Hc; unfold mp; norm_if; Z.div_mod_to_equations; lia.
  - month_cases m Hc; unfold mp; norm_if.
    all: try (left; Z.div_mod_to_equations; lia).
    destruct (Z.eq_dec d 29) as [->|Hne].
    + right. split; [reflexivity|]. apply Hleap; reflexivity.
    + left. Z.div_mod_to_equations; lia.
Qed.

Lemma daysInMonth_bounds (y m : Z) : 28 <= daysInMonth y m <= 31.
Proof.
  unfold daysInMonth.
  destruct (m =? 2); [destruct (isLeap y)|destruct (_ || _)]; lia.
Qed.

(** A day past the end of a month is a day of the next month. *)
Lemma daysFromCivil_overflow (y m d : Z) :
  1 <= m <= 12 ->
  daysFromCivil y m d =
    daysFromCivil (if m =? 12 then y + 1 else y) (if m =? 12 then 1 else m + 1)
                  (d - daysInMonth y m).
Proof.
  intros Hm. unfold daysFromCivil, daysInMonth. cbv zeta.
  month_cases m Hc; norm_if.
  2: { destruct (isLeap y) eqn:El.
       - apply isLeap_true in El. Z.div_mod_to_equations; lia.
       - assert (Hn : ~ (y mod 4 = 0 /\ (y mod 100 <> 0 \/ y mod 400 = 0))).
         { intros Hl. apply isLeap_true in Hl. congruence. }
         Z.div_mod_to_equations; lia. }
  all: replace (y + 1 - 1) with y by lia; Z.div_mod_to_equations; lia.
Qed.

Lemma civilCheck_holds (y m d : Z) :
  1 <= m <= 12 -> 1 <= d <= 31 -> civilCheck y m d = true.
Proof.
  intros Hm Hd. unfold civilCheck.
  destruct (Z.leb_spec d (daysInMonth y m)) as [Hle|Hgt].
  - rewrite civil_of_days by lia. rewrite !Z.eqb_refl. reflexivity.
  - rewrite daysFromCivil_overflow by lia.
    pose proof (daysInMonth_bounds y m) as Hb.
    pose proof (daysInMonth_bounds (if m =? 12 then y + 1 else y)
                                   (if m =? 12 then 1 else m + 1)) as Hb'.
    rewrite civil_of_days by (destruct (Z.eqb_spec m 12); lia).
    destruct (Z.eqb_spec m 12) as [->|Hne].
    + reflexivity.
    + replace (m + 1 =? m) with false by (symmetry; apply Z.eqb_neq; lia).
      reflexivity.
Qed.

(** A day of a month exists exactly when the calendar gives it back. *)
Lemma civil_round_trip (y m d : Z) :
  1 <= m <= 12 -> 1 <= d <= 31 ->
  (d <= daysInMonth y m ->
   yearOfDay (daysFromCivil y m d) = y /\ monthOfDay (daysFromCivil y m d) = m - 1
   /\ dateOfDay (daysFromCivil y m d) = d) /\
  (daysInMonth y m < d ->
   ~ (monthOfDay (daysFromCivil y m d) = m - 1 /\ dateOfDay (daysFromCivil y m d) = d)).
Proof.
  intros Hm Hd. pose proof (civilCheck_holds y m d Hm Hd) as Hc.
  unfold civilCheck in Hc. unfold yearOfDay, monthOfDay, dateOfDay.
  destruct (civilFromDays (daysFromCivil y m d)) as [[y' m'] d']. cbn [fst snd].
  destruct (Z.leb_spec d (daysInMonth y m)) as [Hle|Hgt].
  - apply andb_prop in Hc. destruct Hc as [Hc Hd'].
    apply andb_prop in Hc. destruct Hc as [Hy' Hm'].
    apply Z.eqb_eq in Hy', Hm', Hd'. split; [intros _; lia | lia].
  - split; [lia|]. intros _ [Hm' Hd'].
    assert (m' = m) by lia. subst m' d'. rewrite !Z.eqb_refl in Hc. discriminate.
Qed.

Lemma daysFromCivil_day (y m d : Z) :
  daysFromCivil y m d = daysFromCivil y m 1 + d - 1.
Proof. unfold daysFromCivil. cbv zeta. ring. Qed.

Lemma MakeDay_civil (y m0 d : Z) :
  0 <= m0 <= 11 -> MakeDay y m0 d = daysFromCivil y (m0 + 1) d.
Proof.
  intros Hm. rewrite (MakeDay_plain y m0 d Hm), (daysFromCivil_day y (m0 + 1) d).
  reflexivity.
Qed.

Lemma daysFromCivil_margin (y m d : Z) :
  1 <= y <= 275000 -> 1 <= m <= 12 -> 1 <= d <= 31 ->
  Z.abs (daysFromCivil y m d) <= 99999998.
Proof.
  intros Hy Hm Hd. unfold daysFromCivil. cbv zeta.
  destruct (Z.leb_spec m 2); destruct (Z.gtb_spec m 2); try lia;
    Z.div_mod_to_equations; lia.
Qed.

Lemma isLeap_two_digits :
  forallb (fun y => Bool.eqb (isLeap (1900 + y)) (isLeap y)) (zrange 1 99) = true.
Proof. vm_compute. reflexivity. Qed.

Lemma daysInMonth_fullYear (y m : Z) :
  1 <= y -> daysInMonth (fullYear y) m = daysInMonth y m.
Proof.
  intros Hy. unfold fullYear.
  destruct (Z.leb_spec 0 y); [|lia]. destruct (Z.leb_spec y 99) as [Hle|]; [|reflexivity].
  cbn [andb]. unfold daysInMonth.
  pose proof isLeap_two_digits as Hall. rewrite forallb_forall in Hall.
  specialize (Hall y (in_zrange 1 99 y ltac:(lia))).
  apply Bool.eqb_prop in Hall. rewrite Hall. reflexivity.
Qed.

Lemma fullYear_range (y : Z) : 1 <= y <= 275000 -> 1 <= fullYear y <= 275000.
Proof.
  intros Hy. unfold fullYear.
  destruct (Z.leb_spec 0 y); destruct (Z.leb_spec y 99); cbn [andb]; lia.
Qed.

Section ParseCalendar.
Context {H : Host}.
Variable props : Props.

(** [parse] unfolded on a text whose three fields are numbers. *)
Lemma parse_valid_iff (st : State) (buffer : string) (y m d : Z) :
  year (parse props st buffer) = Some y ->
  month (parse props st buffer) = Some m ->
  date (parse props st buffer) = Some d ->
  let rebuilt := MD.make (props_localTimezone props) (Some y) (Some (m - 1)) (Some d)
                   (carried st MD.hours) (carried st MD.minutes)
                   (carried st MD.seconds) in
  valid (parse props st buffer) = true <->
  (List.length (split buffer) = 3%nat /\ 1 <= y /\ 1 <= m <= 12 /\ 1 <= d <= 31 /\
   MD.month rebuilt = Some (m - 1) /\ MD.date rebuilt = Some d).
Proof.
  unfold parse.
  match goal with
  | |- context [let '(_, _) := ?X in _] => destruct X as [[y0 m0] d0]
  end.
  cbn [valid year month date]. intros -> -> ->. cbv zeta.
  cbn [JsNum.isNaN JsNum.lt JsNum.gt JsNum.add option_map orb negb].
  rewrite !Z.gtb_ltb. replace (m + -1) with (m - 1) by lia.
  destruct (Nat.eqb_spec (List.length (split buffer)) 3) as [H3|H3];
    [|cbn [andb]; split; [discriminate | tauto]].
  destruct (Z.ltb_spec y 1); [cbn [andb negb]; split; [discriminate | lia]|].
  destruct (Z.ltb_spec m 1); [cbn [andb negb orb]; split; [discriminate | lia]|].
  destruct (Z.ltb_spec 12 m); [cbn [andb negb orb]; split; [discriminate | lia]|].
  destruct (Z.ltb_spec d 1);
    [cbn [andb negb orb]; split; [discriminate | lia]|].
  destruct (Z.ltb_spec 31 d);
    [cbn [andb negb orb]; split; [discriminate | lia]|].
  cbn [andb negb orb].
  destruct (MD.month _) as [m'|]; [|cbn; split; [discriminate | intros (_ & _ & _ & _ & Hx & _); discriminate]].
  destruct (MD.date _) as [d'|];
    [|cbn; rewrite orb_true_r; split; [discriminate | intros (_ & _ & _ & _ & _ & Hx); discriminate]].
  cbn [JsNum.neq JsNum.add option_map].
  destruct (Z.eqb_spec m (m' + 1)); destruct (Z.eqb_spec d d'); cbn [negb orb]; split;
    try discriminate; try (intros (_ & _ & _ & _ & Hx & Hy); inversion Hx; inversion Hy; lia).
  - intros _. repeat split; try lia; try assumption; f_equal; lia.
Qed.

Lemma parse_calendar_iff (st : State) (buffer : string) (y m d : Z) :
  Z.abs tzOffset < JsDate.msPerDay ->
  usable (initialValue st) ->
  List.length (split buffer) = 3%nat ->
  year (parse props st buffer) = Some y ->
  month (parse props st buffer) = Some m ->
  date (parse props st buffer) = Some d ->
  y <= 275000 ->
  (valid (parse props st buffer) = true <->
   1 <= y /\ 1 <= m <= 12 /\ 1 <= d <= daysInMonth y m).
Proof.
  intros Hz Hu H3 Hy Hm Hd Hbig.
  rewrite (parse_valid_iff st buffer y m d Hy Hm Hd).
  assert (Hdim : daysInMonth y m <= 31).
  { unfold daysInMonth. repeat match goal with |- context [if ?b then _ else _] => destruct b end; lia. }
  split.
  - intros (_ & Hy1 & Hm1 & Hd1 & Hmonth & Hdate).
    repeat split; try lia.
    destruct (carried_numbers st Hu) as (h & mi & s & Hh & Hmi & Hs & Rh & Rmi & Rs).
    rewrite Hh, Hmi, Hs in Hmonth, Hdate.
    destruct (make_reads_day (props_localTimezone props) y (m - 1) d h mi s Hz Rh Rmi Rs)
      as (_ & Hm' & Hd').
    { rewrite MakeDay_civil by lia. replace (m - 1 + 1) with m by lia.
      apply daysFromCivil_margin; [apply fullYear_range|..]; lia. }
    rewrite MakeDay_civil in Hm', Hd' by lia.
    replace (m - 1 + 1) with m in Hm', Hd' by lia.
    destruct (Z.le_gt_cases d (daysInMonth (fullYear y) m)) as [Hle|Hgt].
    + rewrite daysInMonth_fullYear in Hle by lia. exact Hle.
    + exfalso.
      apply (proj2 (civil_round_trip (fullYear y) m d ltac:(lia) ltac:(lia)) Hgt).
      split; congruence.
  - intros (Hy1 & Hm1 & Hd1). split; [exact H3|]. repeat split; try lia.
    + destruct (carried_numbers st Hu) as (h & mi & s & -> & -> & -> & Rh & Rmi & Rs).
      destruct (make_reads_day (props_localTimezone props) y (m - 1) d h mi s Hz Rh Rmi Rs)
        as (_ & Hm' & _).
      { rewrite MakeDay_civil by lia. replace (m - 1 + 1) with m by lia.
        apply daysFromCivil_margin; [apply fullYear_range|..]; lia. }
      rewrite Hm', MakeDay_civil by lia. replace (m - 1 + 1) with m by lia.
      f_equal.
      apply (proj1 (civil_round_trip (fullYear y) m d ltac:(lia) ltac:(lia))).
      rewrite daysInMonth_fullYear by lia. lia.
    + destruct (carried_numbers st Hu) as (h & mi & s & -> & -> & -> & Rh & Rmi & Rs).
      destruct (make_reads_day (props_localTimezone props) y (m - 1) d h mi s Hz Rh Rmi Rs)
        as (_ & _ & Hd').
      { rewrite MakeDay_civil by lia. replace (m - 1 + 1) with m by lia.
        apply daysFromCivil_margin; [apply fullYear_range|..]; lia. }
      rewrite Hd', MakeDay_civil by lia. replace (m - 1 + 1) with m by lia.
      f_equal.
      apply (proj1 (civil_round_trip (fullYear y) m d ltac:(lia) ltac:(lia))).
      rewrite daysInMonth_fullYear by lia. lia.
Qed.

End ParseCalendar.

Lemma clock_of_MakeDate (D h mi s : Z) :
  0 <= h < 24 -> 0 <= mi < 60 -> 0 <= s < 60 ->
  HourFromTime (MakeDate D (MakeTime h mi s)) = h /\
  MinFromTime (MakeDate D (MakeTime h mi s)) = mi /\
  SecFromTime (MakeDate D (MakeTime h mi s)) = s.
Proof.
  intros Hh Hmi Hs.
  unfold HourFromTime, MinFromTime, SecFromTime, MakeDate, MakeTime,
    msPerDay, msPerHour, msPerMinute, msPerSecond.
  repeat split; Z.div_mod_to_equations; lia.
Qed.

Section WallFacts.
Context {H : Host}.

Lemma wall_make_day (local : bool) (y m d h mi s : Z) :
  Z.abs tzOffset < msPerDay ->
  0 <= h < 24 -> 0 <= mi < 60 -> 0 <= s < 60 ->
  Z.abs (MakeDay (fullYear y) m d) <= 99999998 ->
  dateObject (MD.make local (Some y) (Some m) (Some d) (Some h) (Some mi) (Some s))
  = Some (MakeDate (MakeDay (fullYear y) m d) (MakeTime h mi s) - MD.offsetOf local).
Proof.
  intros Hz Hh Hmi Hs HD. unfold MD.make, newDate. cbn [dateObject].
  apply TimeClip_in. apply clip_margin; auto using offsetOf_small, MakeTime_range.
Qed.

Lemma wall_setFullYear (local : bool) (t : Date) (y m d : Z) :
  Z.abs tzOffset < msPerDay ->
  Z.abs (MakeDay y m d) <= 99999998 ->
  MD.wall (MD.setFullYear local (mkMethodDate local t) (Some y) (Some m) (Some d))
  = Some (MakeDate (MakeDay y m d)
            (TimeWithinDay (match t with Some v => v + MD.offsetOf local | None => 0 end))).
Proof.
  intros Hz HD. unfold MD.setFullYear, setFullYear, MD.wall. cbn [dateObject localTimezone].
  rewrite TimeClip_in
    by (apply clip_margin; auto using offsetOf_small, TimeWithinDay_range).
  cbn [option_map]. f_equal. lia.
Qed.

Lemma clock_of_wall (d : MethodDate) (D h mi s : Z) :
  0 <= h < 24 -> 0 <= mi < 60 -> 0 <= s < 60 ->
  MD.wall d = Some (MakeDate D (MakeTime h mi s)) ->
  MD.hours d = Some h /\ MD.minutes d = Some mi /\ MD.seconds d = Some s.
Proof.
  intros Hh Hmi Hs Hw. unfold MD.hours, MD.minutes, MD.seconds. rewrite Hw.
  cbn [option_map]. destruct (clock_of_MakeDate D h mi s Hh Hmi Hs) as (-> & -> & ->).
  repeat split.
Qed.

End WallFacts.

Section StoredDate.
Context {H : Host}.
Variable props : Props.

Lemma edit_without_paste (c : Component) (raw : string) :
  truthy (paste c) = false ->
  edit_initialValue (onInput_edit props c raw) = initialValue (state c) /\
  edit_paste (onInput_edit props c raw) = paste c.
Proof.
  intros Hp. unfold onInput_edit. rewrite Hp.
  repeat match goal with |- context [if ?b then _ else _] => destruct b end;
    split; reflexivity.
Qed.

Lemma stored_date_fields (c : Component) (raw : string) (iv : MethodDate) (y : Z) :
  let e := onInput_edit props c raw in
  let r := parse props (state c) (edit_newValue e) in
  Z.abs tzOffset < JsDate.msPerDay ->
  truthy (paste c) = false ->
  initialValue (state c) = Some iv -> dateObject iv <> None ->
  len (edit_newValue e) <= 11 ->
  valid r = true -> year r = Some y -> y <= 275000 ->
  exists c' dv,
    onInput props c raw = Some c' /\
    text c' = edit_newValue e /\
    dateValue (state c') = Some dv /\
    MD.year dv = year r /\
    MD.month dv = JsNum.add (month r) (-1) /\
    MD.date dv = date r /\
    MD.hours dv = MD.hours iv /\
    MD.minutes dv = MD.minutes iv /\
    MD.seconds dv = MD.seconds iv.
Proof.
  intros e r Hz Hp Hiv Hok Hfit Hvalid Hyear Hbig.
  destruct (parse_valid_inv props (state c) (edit_newValue e) Hvalid)
    as (y' & m & d & Hy & Hm & Hd & Hyr & Hmr & Hdr & _).
  fold r in Hy, Hm, Hd. assert (y' = y) by congruence. subst y'.
  assert (Hu : usable (initialValue (state c))) by (rewrite Hiv; exact Hok).
  assert (Hsplit : List.length (split (edit_newValue e)) = 3%nat).
  { apply (parse_valid_iff props (state c) (edit_newValue e) y m d Hy Hm Hd). exact Hvalid. }
  destruct (proj1 (parse_calendar_iff props (state c) (edit_newValue e) y m d
                     Hz Hu Hsplit Hy Hm Hd Hbig) Hvalid) as (_ & _ & _ & Hdim).
  (* the clock fields of the reference date *)
  assert (Hclock : exists h mi s,
             MD.hours iv = Some h /\ MD.minutes iv = Some mi /\ MD.seconds iv = Some s
             /\ 0 <= h < 24 /\ 0 <= mi < 60 /\ 0 <= s < 60).
  { destruct (carried_numbers (state c) Hu) as (h & mi & s & Hh & Hmi & Hs & R).
    unfold carried in Hh, Hmi, Hs. rewrite Hiv in Hh, Hmi, Hs.
    exists h, mi, s. auto. }
  destruct Hclock as (h & mi & s & Hh & Hmi & Hs & Rh & Rmi & Rs).
  pose proof (MakeTime_range h mi s Rh Rmi Rs) as Htod.
  (* the day the stored date is made of *)
  assert (HD : MakeDay y (m - 1) d = daysFromCivil y m d).
  { rewrite MakeDay_civil by lia. f_equal. lia. }
  assert (HD19 : MakeDay (fullYear y) (m - 1) d = daysFromCivil (fullYear y) m d).
  { rewrite MakeDay_civil by lia. f_equal. lia. }
  pose proof (daysFromCivil_margin y m d ltac:(lia) Hmr Hdr) as Hmargin.
  pose proof (daysFromCivil_margin (fullYear y) m d
                (fullYear_range y ltac:(lia)) Hmr Hdr) as Hmargin19.
  destruct (proj1 (civil_round_trip y m d Hmr Hdr) Hdim) as (Ry & Rm & Rd).
  (* the edit itself *)
  destruct (edit_without_paste c raw Hp) as [Hei _]. fold e in Hei.
  unfold onInput. fold e.
  destruct (Z.gtb_spec (len (edit_newValue e)) 11) as [Hlong|_]; [lia|].
  fold r. rewrite Hvalid, Hei, Hiv, Hy, Hm, Hd, Hh, Hmi, Hs.
  cbn [JsNum.lt JsNum.add option_map]. replace (m + -1) with (m - 1) by lia.
  assert (Hbuilt : dateObject (MD.make (props_localTimezone props) (Some y) (Some (m - 1))
                                 (Some d) (Some h) (Some mi) (Some s))
                   = Some (MakeDate (daysFromCivil (fullYear y) m d) (MakeTime h mi s)
                           - MD.offsetOf (props_localTimezone props))).
  { rewrite <- HD19. apply wall_make_day; auto. rewrite HD19. exact Hmargin19. }
  eexists. eexists. split; [reflexivity|]. split; [reflexivity|].
  split; [reflexivity|].
  assert (Hwall : MD.wall
            (if y <? 100
             then MD.setFullYear (props_localTimezone props)
                    (MD.make (props_localTimezone props) (Some y) (Some (m - 1)) (Some d)
                       (Some h) (Some mi) (Some s)) (Some y) (Some (m - 1)) (Some d)
             else MD.make (props_localTimezone props) (Some y) (Some (m - 1)) (Some d)
                    (Some h) (Some mi) (Some s))
          = Some (MakeDate (daysFromCivil y m d) (MakeTime h mi s))).
  { destruct (Z.ltb_spec y 100) as [Hsmall|Hlarge].
    - unfold MD.make at 1.
      rewrite wall_setFullYear by (rewrite ?HD; auto).
      fold (MD.make (props_localTimezone props) (Some y) (Some (m - 1)) (Some d)
              (Some h) (Some mi) (Some s)) in Hbuilt.
      unfold MD.make in Hbuilt. cbn [dateObject] in Hbuilt. rewrite Hbuilt, HD.
      replace (MakeDate (daysFromCivil (fullYear y) m d) (MakeTime h mi s)
               - MD.offsetOf (props_localTimezone props)
               + MD.offsetOf (props_localTimezone props))
        with (MakeDate (daysFromCivil (fullYear y) m d) (MakeTime h mi s)) by lia.
      rewrite (proj2 (day_of_MakeDate _ _ Htod)). reflexivity.
    - unfold MD.wall. rewrite Hbuilt. cbn [option_map localTimezone MD.make].
      replace (fullYear y) with y
        by (unfold fullYear; destruct (Z.leb_spec 0 y); destruct (Z.leb_spec y 99);
            cbn [andb]; lia).
      f_equal. lia. }
  destruct (fields_of_wall _ _ _ Htod Hwall) as (Fy & Fm & Fd).
  destruct (clock_of_wall _ _ _ _ _ Rh Rmi Rs Hwall) as (Fh & Fmi & Fs).
  cbn [state dateValue].
  rewrite Fy, Fm, Fd, Fh, Fmi, Fs, Ry, Rm, Rd. repeat split.
Qed.

End StoredDate.

End CivilCalendar.

(** ** The dropdown, the key filter and the events *)

Section DropdownFacts.
Variable dom : Dom.

Lemma climb_finds (rounds : nat) (i : Z) (target : Element) :
  (1 <= rounds)%nat -> i + Z.of_nat rounds = 6 ->
  (climb dom rounds i target <> None <->
   exists k, (k < rounds)%nat /\ ancestor dom k target = Some (containerElement dom)).
Proof.
  revert i target. induction rounds as [|rest IH]; intros i target Hpos Hsum; [lia|].
  cbn [climb]. destruct (Nat.eqb_spec target (containerElement dom)) as [->|Hne].
  - split; [intros _ | discriminate]. exists 0%nat. split; [lia | reflexivity].
  - assert (Hzero : forall k, (k < S rest)%nat ->
              ancestor dom k target = Some (containerElement dom) ->
              exists k', k = S k').
    { intros [|k'] _ Hk; [cbn in Hk; congruence | eauto]. }
    destruct (parentElement dom target) as [parent|] eqn:Hparent.
    + destruct (Z.ltb_spec i 5) as [Hi|Hi].
      * rewrite (IH (i + 1) parent) by lia. split.
        -- intros (k & Hk & Ha). exists (S k). split; [lia|]. cbn. rewrite Hparent. exact Ha.
        -- intros (k & Hk & Ha). destruct (Hzero k Hk Ha) as [k' ->].
           exists k'. split; [lia|]. cbn in Ha. rewrite Hparent in Ha. exact Ha.
      * split; [congruence|]. intros (k & Hk & Ha).
        destruct (Hzero k Hk Ha) as [k' ->]. lia.
    + split; [congruence|]. intros (k & Hk & Ha).
      destruct (Hzero k Hk Ha) as [k' ->]. cbn in Ha. rewrite Hparent in Ha. discriminate.
Qed.

(** X3.  [handleDropdown] hides the dropdown exactly when it is visible, the
    target is not the input, and the container is neither the target nor
    one of its first five ancestors; it changes nothing else, and
    otherwise sets no state. *)
Theorem dropdown_hides_outside (c : Component) (target : Element) :
  let hidden :=
    mkComponent
      (mkState (value (state c)) (dateValue (state c)) (initialValue (state c)) false
               (invalid (state c)) (error (state c)))
      (paste c) in
  (handleDropdown dom c target = Some hidden <->
   target <> inputElement dom /\ visible (state c) = true /\
   forall k, (k <= 5)%nat -> ancestor dom k target <> Some (containerElement dom)) /\
  (handleDropdown dom c target = None \/ handleDropdown dom c target = Some hidden).
Proof.
  cbv zeta. unfold handleDropdown.
  pose proof (climb_finds 6 0 target ltac:(lia) ltac:(lia)) as Hclimb.
  destruct (Nat.eqb_spec target (inputElement dom)) as [Hin|Hin].
  { split; [split; [discriminate | tauto] | left; reflexivity]. }
  destruct (visible (state c)); cbn [negb].
  2:{ split; [split; [discriminate | intros (_ & Hv & _); discriminate] | left; reflexivity]. }
  destruct (climb dom 6 0 target) as [found|].
  - split; [|left; reflexivity]. split; [discriminate|].
    intros (_ & _ & Hnone). exfalso.
    destruct (proj1 Hclimb ltac:(discriminate)) as (k & Hk & Ha).
    apply (Hnone k); [lia | exact Ha].
  - split; [|right; reflexivity]. split; [|reflexivity].
    intros _. split; [exact Hin|]. split; [reflexivity|].
    intros k Hk Ha. apply (proj2 Hclimb); [|reflexivity].
    exists k. split; [lia | exact Ha].
Qed.

End DropdownFacts.

Lemma splitAcc_length (cur s : string) :
  List.length (JsString.splitAcc cur s) = S (countSlashes s).
Proof.
  revert cur. induction s as [|ch s IH]; intros cur; cbn; [reflexivity|].
  destruct (Ascii.eqb ch "/"%char); cbn; rewrite IH; reflexivity.
Qed.

Lemma split_length (s : string) : List.length (split s) = S (countSlashes s).
Proof. apply splitAcc_length. Qed.

(** X4.  [onKeyPress] blocks a key exactly when the text is shorter than 10
    characters, the key is not a digit, and, if it is the separator, the
    text already holds two separators. *)
Theorem key_filter (keys : KeyCodes) (c : Component) (charCode : Z) :
  onKeyPress keys c charCode = true <->
  len (text c) < 10 /\
  ~ (key_0 keys <= charCode <= key_9 keys) /\
  (charCode = key_slash keys -> (2 <= countSlashes (text c))%nat).
Proof.
  unfold onKeyPress, text. rewrite split_length. rewrite Z.geb_leb.
  destruct (Z.ltb_spec (len (value (state c))) 10);
    [|split; [discriminate | lia]].
  destruct (Z.leb_spec (key_0 keys) charCode); destruct (Z.leb_spec charCode (key_9 keys));
    cbn [andb]; try (split; [discriminate | lia]);
    destruct (Z.eqb_spec charCode (key_slash keys)); cbn [andb];
    try (split; [intros _; repeat split; try lia; intros; contradiction | reflexivity]);
    destruct (Nat.ltb_spec (S (countSlashes (value (state c)))) 3);
    split; try discriminate; try reflexivity; try lia;
    try (intros _; repeat split; try lia).
Qed.

Section EventFacts.
Context {H : Host}.
Variable props : Props.
Variable dom : Dom.

Lemma construct_reference (p : Props) : initialValue (state (construct p)) <> None.
Proof.
  unfold construct, getInitialState. cbn [state initialValue].
  match goal with |- context [if ?b then _ else _] => destruct b eqn:Hb end;
    cbn [init_initialValue]; [discriminate|].
  match type of Hb with
  | (match ?x with _ => _ end) = false => destruct x; [discriminate | discriminate Hb]
  end.
Qed.

Lemma onInput_reference (c c' : Component) (raw : string) :
  initialValue (state c) <> None -> onInput props c raw = Some c' ->
  initialValue (state c') <> None.
Proof.
  intros Hiv Hrun. pose proof (edit_keeps_reference props c raw Hiv) as He.
  unfold onInput in Hrun.
  repeat match type of Hrun with
    | context [if ?b then _ else _] => destruct b
    | context [match fromString ?l ?t with _ => _ end] => destruct (fromString l t)
    | context [match edit_initialValue ?e with _ => _ end] =>
        destruct (edit_initialValue e) eqn:?
    end; inversion Hrun; cbn; congruence.
Qed.

Lemma didUpdate_state (old : State) (c : Component) :
  state (after (componentDidUpdate props old c)) = state c.
Proof.
  unfold componentDidUpdate.
  destruct (_ || _); [destruct (dateValue (state c))|]; reflexivity.
Qed.

Lemma step_reference (c : Component) (e : Event) :
  initialValue (state c) <> None ->
  exists c' calls, step props dom c e = Some (c', calls)
                   /\ initialValue (state c') <> None.
Proof.
  intros Hiv. destruct e as [raw| |d| |target]; cbn [step].
  - destruct (onInput_total props c raw Hiv) as [c' Hrun].
    unfold inputEvent. rewrite Hrun. cbn [option_map].
    eexists. eexists. split; [reflexivity|].
    rewrite didUpdate_state. exact (onInput_reference c c' raw Hiv Hrun).
  - eexists. eexists. split; [reflexivity | exact Hiv].
  - eexists. eexists. split; [reflexivity|].
    unfold selectEvent. rewrite didUpdate_state. exact Hiv.
  - eexists. eexists. split; [reflexivity|]. rewrite didUpdate_state. exact Hiv.
  - unfold handleDropdown.
    destruct (Nat.eqb target (inputElement dom));
      [eexists; eexists; split; [reflexivity | exact Hiv]|].
    destruct (negb (visible (state c)));
      [eexists; eexists; split; [reflexivity | exact Hiv]|].
    destruct (climb dom 6 0 target);
      [eexists; eexists; split; [reflexivity | exact Hiv]|].
    eexists. eexists. split; [reflexivity|]. rewrite didUpdate_state. exact Hiv.
Qed.

Lemma runEvents_reference (events : list Event) (c : Component) :
  initialValue (state c) <> None ->
  exists c' calls, runEvents props dom c events = Some (c', calls)
                   /\ initialValue (state c') <> None.
Proof.
  revert c. induction events as [|e rest IH]; intros c Hiv; cbn [runEvents].
  - eexists. eexists. split; [reflexivity | exact Hiv].
  - destruct (step_reference c e Hiv) as (c1 & calls & -> & Hiv1).
    destruct (IH c1 Hiv1) as (c2 & more & -> & Hiv2).
    eexists. eexists. split; [reflexivity | exact Hiv2].
Qed.

End EventFacts.

(** X5.  From the constructor on, no sequence of input, paste, selection,
    focus and pointer events raises the TypeError of a missing reference
    date: the reference date is always present. *)
Theorem events_never_fail {H : Host} (p : Props) (dom : Dom) (events : list Event) :
  exists c calls,
    runEvents p dom (construct p) events = Some (c, calls) /\
    initialValue (state c) <> None.
Proof. apply runEvents_reference. apply construct_reference. Qed.

(** ** Lengths under the typing assist *)

Lemma parseInt_char (ch : ascii) :
  JsNum.parseInt (String ch "") = None \/
  exists k, 0 <= k <= 9 /\ JsNum.parseInt (String ch "") = Some k.
Proof.
  destruct ch as [[] [] [] [] [] [] [] []];
    match goal with
    | |- ?l = None \/ _ =>
        let v := eval vm_compute in l in
        match v with
        | None => left; reflexivity
        | Some ?k => right; exists k; split; [lia | reflexivity]
        end
    end.
Qed.

Lemma indexed_number (c : option ascii) (k : Z) :
  JsNum.parseInt (ofIndexed c) = Some k -> len (JsNum.toString (Some k)) = 1.
Proof.
  destruct c as [ch|]; [|discriminate]. cbn [ofIndexed]. intros Hk.
  destruct (parseInt_char ch) as [Hn | (k' & Hr & Hs)]; [congruence|].
  assert (k' = k) by congruence. subst k'.
  rewrite toString_digit by exact Hr. reflexivity.
Qed.

Lemma replaceAt_length (s : string) (t : string) :
  1 <= len s -> len (replaceAt s (len s - 1) t) = len s + len t.
Proof.
  intros Hs. destruct (snoc_cases s) as [-> | (r & ch & ->)]; [cbn in Hs; lia|].
  rewrite len_snoc, replaceAt_last, !len_app. cbn. lia.
Qed.

Lemma suffix_length (position : Z) :
  len (if position <? 3 then "/" else "") = (if position <? 3 then 1 else 0).
Proof. destruct (position <? 3); reflexivity. Qed.

Lemma handleMonth_length (st : State) (newValue : string) (position : Z) :
  1 <= len newValue ->
  len (handleMonth st newValue position)
  <= Z.max (len newValue + 1 + (if position <? 3 then 1 else 0)) (len (value st)).
Proof.
  intros Hn. unfold handleMonth.
  pose proof (suffix_length position) as Hsuf.
  destruct (JsNum.parseInt (ofIndexed (charAt newValue (len newValue - 1)))) as [k|] eqn:Hlast;
    cbn [JsNum.gt JsNum.lt];
    repeat match goal with
      | |- context [if ?b then _ else _] =>
          lazymatch b with
          | (position <? 3) => fail
          | _ => destruct b
          end
      end;
    rewrite ?len_app, ?replaceAt_length, ?Hsuf by exact Hn;
    try rewrite (indexed_number _ _ Hlast);
    change (len "0") with 1; destruct (position <? 3); lia.
Qed.

Lemma handleDay_length (st : State) (newValue : string) (position : Z) :
  1 <= len newValue ->
  len (handleDay st newValue position)
  <= Z.max (len newValue + 1 + (if position <? 3 then 1 else 0)) (len (value st)).
Proof.
  intros Hn. unfold handleDay.
  pose proof (suffix_length position) as Hsuf.
  destruct (JsNum.parseInt (ofIndexed (charAt newValue (len newValue - 1)))) as [k|] eqn:Hlast;
    cbn [JsNum.gt JsNum.lt];
    repeat match goal with
      | |- context [if ?b then _ else _] =>
          lazymatch b with
          | (position <? 3) => fail
          | _ => destruct b
          end
      end;
    rewrite ?len_app, ?replaceAt_length, ?Hsuf by exact Hn;
    try rewrite (indexed_number _ _ Hlast);
    change (len "0") with 1; destruct (position <? 3); lia.
Qed.

Lemma slice0_length (s : string) (n : Z) : 0 <= n -> len (slice0 s n) <= n.
Proof.
  intros Hn. unfold slice0, len.
  assert (Hk : forall k t, (String.length (String.substring 0 k t) <= k)%nat).
  { induction k as [|k IH]; intros [|a t]; cbn; try lia. specialize (IH t). lia. }
  specialize (Hk (Z.to_nat n) s). lia.
Qed.

Lemma handleTyping_length (props : Props) (st : State) (newValue : string) :
  len (value st) <= 10 -> len (handleTyping props st newValue) <= 10.
Proof.
  intros Hv. unfold handleTyping.
  pose proof (len_nonneg newValue) as Hn0.
  destruct (props_format props);
    repeat match goal with
      | |- context [Z.eqb ?a ?b] => destruct (Z.eqb_spec a b)
      | |- context [Z.gtb ?a ?b] => destruct (Z.gtb_spec a b)
      end;
    try (apply slice0_length; lia); try lia;
    try (rewrite len_app; change (len "/") with 1; lia);
    match goal with
    | |- len (handleMonth ?s ?v ?p) <= _ =>
        pose proof (handleMonth_length s v p ltac:(lia)) as Hb
    | |- len (handleDay ?s ?v ?p) <= _ =>
        pose proof (handleDay_length s v p ltac:(lia)) as Hb
    end; cbn in Hb; lia.
Qed.

Section WidthFacts.
Context {H : Host}.
Variable props : Props.

Lemma handleDeletion_length (st : State) (newValue : string) :
  len (handleDeletion st newValue) <= len newValue.
Proof.
  unfold handleDeletion. destruct (isSlash _); [apply substr_shorter | lia].
Qed.

Lemma edit_width (c : Component) (raw : string) :
  invalid (state c) = false -> truthy (paste c) = false ->
  len (value (state c)) <= 10 ->
  len (edit_newValue (onInput_edit props c raw)) <= 10.
Proof.
  intros Hinv Hp Hw. unfold onInput_edit. rewrite Hp, Hinv. cbn [negb].
  pose proof (handleDeletion_length (state c) raw) as Hdel.
  pose proof (handleTyping_length props (state c) raw Hw) as Htyp.
  destruct (Z.geb_spec (len (value (state c))) (len raw));
    [|destruct (Z.leb_spec (len raw) 10)];
    repeat match goal with
      | |- context [if ?b then _ else _] => destruct b
      end; cbn [edit_newValue]; lia.
Qed.

(** Whatever the edit, a text of at most 11 characters is shown as the
    edit left it. *)
Lemma onInput_shows_edit (c c' : Component) (raw : string) :
  len (edit_newValue (onInput_edit props c raw)) <= 11 ->
  onInput props c raw = Some c' ->
  text c' = edit_newValue (onInput_edit props c raw) /\
  paste c' = edit_paste (onInput_edit props c raw).
Proof.
  intros Hfit Hrun. unfold onInput in Hrun.
  destruct (Z.gtb_spec (len (edit_newValue (onInput_edit props c raw))) 11); [lia|].
  destruct (valid _); [destruct (edit_initialValue _); [|discriminate]|];
    inversion Hrun; split; reflexivity.
Qed.

(** X6.  While the component is not flagged invalid and no paste is pending,
    an input event never leaves more than 10 characters in the text. *)
Theorem input_keeps_width (c : Component) (raw : string) :
  invalid (state c) = false -> truthy (paste c) = false ->
  initialValue (state c) <> None ->
  len (text c) <= 10 ->
  exists c', onInput props c raw = Some c' /\ len (text c') <= 10.
Proof.
  intros Hinv Hp Hiv Hw.
  destruct (onInput_total props c raw Hiv) as [c' Hrun]. exists c'.
  split; [exact Hrun|].
  pose proof (edit_width c raw Hinv Hp Hw) as He.
  destruct (onInput_shows_edit c c' raw ltac:(lia) Hrun) as [-> _]. exact He.
Qed.

(** X7.  While the component is not flagged invalid and no paste is pending,
    a raw value of more than 10 characters is dropped: the text stays as it
    was and the host is not called. *)
Theorem overlong_input_rejected (c : Component) (raw : string) :
  invalid (state c) = false -> truthy (paste c) = false ->
  initialValue (state c) <> None ->
  len (text c) <= 10 -> 10 < len raw ->
  exists s, inputEvent props c raw = Some s /\
            text (after s) = text c /\ emitted s = [] /\ paste (after s) = paste c.
Proof.
  intros Hinv Hp Hiv Hw Hlong.
  destruct (onInput_total props c raw Hiv) as [c' Hrun].
  assert (He : edit_newValue (onInput_edit props c raw) = value (state c)
               /\ edit_paste (onInput_edit props c raw) = paste c).
  { unfold onInput_edit, text in *. rewrite Hp, Hinv. cbn [negb].
    destruct (Z.geb_spec (len (value (state c))) (len raw)); [lia|].
    destruct (Z.leb_spec (len raw) 10); [lia|]. split; reflexivity. }
  destruct He as [He Hep].
  destruct (onInput_shows_edit c c' raw ltac:(rewrite He; unfold text in Hw; lia) Hrun)
    as [Htext Hpaste].
  rewrite He in Htext. rewrite Hep in Hpaste.
  unfold inputEvent. rewrite Hrun. cbn [option_map].
  eexists. split; [reflexivity|].
  unfold componentDidUpdate. unfold text in Htext. rewrite Htext, Hpaste, Hp.
  rewrite String.eqb_refl. cbn. unfold text. rewrite Htext, Hpaste. repeat split.
Qed.


End WidthFacts.

Section MoreFacts.
Context {H : Host}.
Variable props : Props.

(** X9.  A calendar selection closes the dropdown (stopping the calendar's
    accessibility mode exactly when it was open) and shows the formatted
    date; the host is called once with the date's UTC text, except that
    nothing is emitted when that text is already shown and no paste is
    pending. *)
Theorem select_notifies (c : Component) (d : JsDate.Date) :
  let s := selectEvent props c d in
  let picked := formatDate d (props_format props) (props_localTimezone props) in
  stoppedAccessibility s = visible (state c) /\
  text (after s) = picked /\
  (picked = text c -> truthy (paste c) = false ->
   emitted s = [] /\ paste (after s) = paste c) /\
  (picked <> text c \/ truthy (paste c) = true ->
   paste (after s) = PasteBool false /\
   emitted s =
     [match paste c with
      | PasteString utc =>
          if props_onPaste props then OnPaste utc else OnChange (JsDate.toUTCString d)
      | _ => OnChange (JsDate.toUTCString d)
      end]).
Proof.
  cbv zeta. unfold selectEvent, componentDidUpdate, onSelect, text.
  cbn [state value visible dateValue paste MD.fromDate dateObject].
  split; [destruct (visible (state c)); destruct (_ || _); reflexivity|].
  split; [destruct (_ || _); reflexivity|].
  destruct (String.eqb_spec (value (state c))
              (formatDate d (props_format props) (props_localTimezone props))) as [Heq|Hne];
    cbn [negb orb].
  - split.
    + intros _ Hp. rewrite Hp. split; reflexivity.
    + intros [Hdiff | Hp]; [congruence|]. rewrite Hp.
      split; [reflexivity|]. destruct (paste c); try destruct (props_onPaste props); reflexivity.
  - split.
    + intros Hsame. congruence.
    + intros _. split; [reflexivity|]. destruct (paste c); try destruct (props_onPaste props); reflexivity.
Qed.

(** X10.  A paste that does not free-form parse shows the pasted text, clears
    the paste marker and never calls [onPaste]; [onChange] is called once,
    unless the text did not change. *)
Theorem failed_paste_clears_marker (c : Component) (raw : string) :
  truthy (paste c) = true ->
  fromString (props_localTimezone props) raw = None ->
  initialValue (state c) <> None ->
  exists s,
    inputEvent props c raw = Some s /\
    text (after s) = raw /\
    truthy (paste (after s)) = false /\
    emitted s =
      (if String.eqb (text c) raw then []
       else [OnChange match dateValue (state (after s)) with
                      | Some dv => JsDate.toUTCString (dateObject dv)
                      | None => "invalid"
                      end]).
Proof.
  intros Hp Hnone Hiv.
  destruct (onInput_total props c raw Hiv) as [c' Hrun].
  assert (He : onInput_edit props c raw
               = mkEdit raw true (initialValue (state c)) None PasteNull).
  { unfold onInput_edit. rewrite Hp, Hnone. reflexivity. }
  assert (Hc : text c' = raw /\ paste c' = PasteNull).
  { unfold onInput in Hrun. rewrite He in Hrun.
    cbn [edit_newValue edit_invalid edit_initialValue edit_paste] in Hrun.
    rewrite Hnone in Hrun.
    destruct (len raw >? 11);
      [|destruct (valid _); [destruct (initialValue (state c)); [|discriminate]|]];
      inversion Hrun; split; reflexivity. }
  destruct Hc as [Htext Hpaste].
  unfold inputEvent. rewrite Hrun. cbn [option_map]. eexists. split; [reflexivity|].
  unfold componentDidUpdate, text in *. rewrite Hpaste, Htext. cbn [truthy].
  rewrite orb_false_r.
  destruct (String.eqb (value (state c)) raw); cbn [negb].
  - cbn. rewrite Htext, Hpaste. repeat split.
  - destruct (dateValue (state c')) as [dv|] eqn:Hdv; cbn; rewrite Htext, ?Hpaste, ?Hdv;
      repeat split.
Qed.

(** X11.  [getInitialState] always yields a reference date; a parsed date is
    only yielded unflagged, equal to the reference date and valid; a string
    seed that does not parse is shown verbatim, flagged, with no parsed
    date. *)
Theorem initial_state_consistent (p : Props) :
  let s := getInitialState p in
  init_initialValue s <> None /\
  (init_dateValue s <> None ->
   init_invalid s = false /\ init_dateValue s = init_initialValue s
   /\ usable (init_dateValue s)) /\
  (forall seed,
     props_initialValue p = SeedString seed -> seed <> "" ->
     fromString (props_localTimezone p) seed = None ->
     init_value s = seed /\ init_invalid s = true /\ init_dateValue s = None).
Proof.
  cbv zeta. unfold getInitialState.
  split; [|split].
  - match goal with |- context [if ?b then _ else _] => destruct b eqn:Hb end;
      cbn [init_initialValue]; [discriminate|].
    match type of Hb with
    | (match ?x with _ => _ end) = false => destruct x; [discriminate | discriminate Hb]
    end.
  - match goal with
    | |- context [if (match init_initialValue ?r with _ => _ end) then _ else _] =>
        set (resolved := r)
    end.
    destruct (init_initialValue resolved) as [iv|] eqn:Hiv; [|cbn; congruence].
    destruct (String.eqb_spec (JsDate.toUTCString (dateObject iv)) "Invalid Date")
      as [Hbad|Hgood]; [cbn; congruence|].
    intros Hdv.
    assert (Hvalid : dateObject iv <> None).
    { intros Hno. apply Hgood. rewrite Hno. reflexivity. }
    revert Hiv Hdv. unfold resolved.
    destruct (seedTruthy (props_initialValue p)); [|cbn; congruence].
    destruct (props_initialValue p) as [|seed|d]; [cbn; congruence| |].
    + destruct (fromString _ seed) as [md|]; [|cbn; congruence].
      destruct (dateIsValid _ _); cbn; [|congruence].
      intros Hiv _. inversion Hiv. subst md. repeat split. exact Hvalid.
    + destruct (dateIsValid _ _); cbn; [|congruence].
      intros Hiv _. inversion Hiv. subst iv. repeat split. exact Hvalid.
  - intros seed Hseed Hne Hnone. rewrite Hseed. cbn [seedTruthy].
    destruct (String.eqb_spec seed ""); [contradiction|]. cbn [negb].
    rewrite Hnone. cbn. repeat split.
Qed.

(** X12.  For a valid text [render] hands the Calendar the year of the text,
    and the month of the text counted from 0, except for January, for which
    it hands over no month ([0 || null]). *)
Theorem calendar_hints (st : State) :
  valid (parse props st (value st)) = true ->
  exists y m,
    year (parse props st (value st)) = Some y /\
    month (parse props st (value st)) = Some m /\
    calendarYear props st = Some y /\
    calendarMonth props st = (if m =? 1 then None else Some (m - 1)).
Proof.
  intros Hvalid.
  destruct (parse_valid_inv props st (value st) Hvalid)
    as (y & m & d & Hy & Hm & _ & Hy1 & Hm1 & _).
  exists y, m. split; [exact Hy|]. split; [exact Hm|].
  unfold calendarYear, calendarMonth. rewrite Hy, Hm. cbn [orNull JsNum.add option_map].
  destruct (Z.eqb_spec y 0); [lia|]. split; [reflexivity|].
  destruct (Z.eqb_spec (m + -1) 0); destruct (Z.eqb_spec m 1); try lia;
    [reflexivity | f_equal; lia].
Qed.

(** X13.  A text that does not hold exactly two separators is never valid. *)
Theorem parse_needs_two_separators (st : State) (buffer : string) :
  countSlashes buffer <> 2%nat -> valid (parse props st buffer) = false.
Proof.
  intros Hcount. unfold parse.
  match goal with
  | |- context [let '(_, _) := ?X in _] => destruct X as [[y m] d]
  end.
  cbn [valid]. rewrite split_length.
  destruct (Nat.eqb_spec (S (countSlashes buffer)) 3) as [Heq|_]; [lia | reflexivity].
Qed.

End MoreFacts.

Lemma digit_not_slash (a : Z) : 0 <= a <= 9 -> isSlash (Some (digitChar a)) = false.
Proof.
  intros Ha. destruct (digit_cases a Ha) as [-> | [-> | [-> | [-> | [-> | [-> | [-> | [-> | [-> | ->]]]]]]]]];
    reflexivity.
Qed.

(** X14.  On the second digit of a month the separator is appended when the
    first digit is 0 or the second is 0..2, and the previous text is put
    back otherwise; for a day, when the first digit is 0..2 or the second
    is 0..1. *)
Theorem second_digit_rule (st : State) (pre : string) (a k position : Z) :
  0 <= a <= 9 -> 0 <= k <= 9 ->
  let typed := pre ++ String (digitChar a) (String (digitChar k) "") in
  let separator := if position <? 3 then "/" else "" in
  handleMonth st typed position =
    (if (a <? 1) || (k <? 3) then typed ++ separator else value st) /\
  handleDay st typed position =
    (if (a <? 3) || (k <? 2) then typed ++ separator else value st).
Proof.
  intros Ha Hk typed separator.
  assert (Htyped : typed = (pre ++ String (digitChar a) "") ++ String (digitChar k) "").
  { unfold typed. rewrite append_assoc. reflexivity. }
  assert (Hlen : len (pre ++ String (digitChar a) "") = len pre + 1) by apply len_snoc.
  pose proof (len_nonneg pre) as Hpre.
  assert (Hlast : charAt typed (len typed - 1) = Some (digitChar k)).
  { rewrite Htyped, len_snoc. apply charAt_last. }
  assert (Hprev : charAt typed (len typed - 2) = Some (digitChar a)).
  { rewrite Htyped, len_snoc, charAt_before_last, Hlen. apply charAt_last. }
  assert (Hmany : (len typed =? 1) = false).
  { rewrite Htyped, len_snoc, Hlen. apply Z.eqb_neq. lia. }
  unfold handleMonth, handleDay.
  rewrite Hlast, Hprev, Hmany, digit_not_slash, !parseInt_digit by assumption.
  cbn [orb JsNum.lt]. fold separator.
  split.
  - destruct (a <? 1); cbn [orb]; [reflexivity|]. destruct (k <? 3); reflexivity.
  - destruct (a <? 3); cbn [orb]; [reflexivity|]. destruct (k <? 2); reflexivity.
Qed.

(** ** Typing at the end of the text *)

Lemma substring_app_left (a b : string) (n : nat) :
  (n <= String.length a)%nat -> String.substring 0 n (a ++ b) = String.substring 0 n a.
Proof.
  revert n. induction a as [|x a IH]; intros n Hn; cbn in *.
  - assert (n = 0%nat) by lia. subst n. destruct b; reflexivity.
  - destruct n as [|n]; [reflexivity|]. cbn. rewrite IH by lia. reflexivity.
Qed.

Lemma substr_app_left (a b : string) (n : Z) :
  n <= len a -> substr (a ++ b) 0 n = substr a 0 n.
Proof.
  intros Hn. unfold substr. cbn. apply substring_app_left. unfold len in Hn. lia.
Qed.

Section TypingFacts.
Context {H : Host}.
Variable props : Props.

Lemma append_outside_assist (c : Component) (key : ascii) :
  props_format props <> YYYYMMDD ->
  invalid (state c) = false -> truthy (paste c) = false ->
  initialValue (state c) <> None ->
  6 <= len (value (state c)) <= 9 ->
  exists s,
    inputEvent props c (value (state c) ++ String key "") = Some s /\
    value (state (after s)) = value (state c) ++ String key "" /\
    invalid (state (after s)) = false /\
    truthy (paste (after s)) = false /\
    initialValue (state (after s)) = initialValue (state c) /\
    (forall c', onInput props c (value (state c) ++ String key "") = Some c' ->
                state (after s) = state c') /\
    (exists call, emitted s = [call]).
Proof.
  intros Hf Hinv Hp Hiv Hlen.
  set (raw := value (state c) ++ String key "").
  assert (Hraw : len raw = len (value (state c)) + 1) by apply len_snoc.
  destruct (onInput_total props c raw Hiv) as [c' Hrun].
  assert (He : onInput_edit props c raw
               = mkEdit raw false (initialValue (state c)) (dateValue (state c)) (paste c)).
  { unfold onInput_edit. rewrite Hp, Hinv. cbn [negb].
    destruct (Z.geb_spec (len (value (state c))) (len raw)); [lia|].
    destruct (Z.leb_spec (len raw) 10); [|lia].
    assert (Hs : substr raw 0 (len raw - 2)
                 = substr (value (state c)) 0 (len (value (state c)) - 1)).
    { unfold raw at 1. rewrite Hraw.
      replace (len (value (state c)) + 1 - 2) with (len (value (state c)) - 1) by lia.
      apply substr_app_left. lia. }
    rewrite Hs, String.eqb_refl, andb_false_r.
    unfold handleTyping.
    destruct (props_format props); [| |contradiction];
      repeat match goal with
        | |- context [Z.eqb ?a ?b] => destruct (Z.eqb_spec a b); [lia|]
        | |- context [Z.gtb ?a ?b] => destruct (Z.gtb_spec a b); [lia|]
        end; reflexivity. }
  assert (Hc : value (state c') = raw /\ invalid (state c') = false
               /\ paste c' = paste c
               /\ initialValue (state c') = initialValue (state c)).
  { unfold onInput in Hrun. rewrite He in Hrun.
    cbn [edit_newValue edit_invalid edit_initialValue edit_paste] in Hrun.
    destruct (Z.gtb_spec (len raw) 11); [lia|].
    destruct (Z.eqb_spec (len raw) 0); [lia|].
    destruct (valid _); [destruct (initialValue (state c)) eqn:Hv; [|discriminate]|];
      inversion Hrun; cbn; repeat split; congruence. }
  destruct Hc as (Hv & Hi & Hpc & Hr).
  unfold inputEvent. rewrite Hrun. cbn [option_map]. eexists. split; [reflexivity|].
  assert (Hchanged : String.eqb (value (state c)) (value (state c')) = false).
  { apply String.eqb_neq. intros Heq. rewrite Hv in Heq.
    assert (Hl : len (value (state c)) = len raw) by (rewrite <- Heq; reflexivity).
    lia. }
  unfold componentDidUpdate. rewrite Hpc, Hp, Hchanged. cbn [negb orb].
  destruct (dateValue (state c')) as [dv|]; cbn [after emitted state paste truthy].
  - repeat split; auto.
    + intros c2 Hc2. congruence.
    + destruct (paste c); try destruct (props_onPaste props); eexists; reflexivity.
  - rewrite Hpc, Hp. repeat split; auto.
    + intros c2 Hc2. congruence.
    + eexists. reflexivity.
Qed.

Lemma typeKeys_app_eq (c : Component) (ks1 ks2 : list ascii) :
  typeKeys props c (ks1 ++ ks2) =
    match typeKeys props c ks1 with
    | Some (c1, calls1) =>
        match typeKeys props c1 ks2 with
        | Some (c2, calls2) => Some (c2, (calls1 ++ calls2)%list)
        | None => None
        end
    | None => None
    end.
Proof.
  revert c. induction ks1 as [|k ks1 IH]; intros c; cbn [typeKeys List.app].
  - destruct (typeKeys props c ks2) as [[c2 calls2]|]; reflexivity.
  - destruct (inputEvent props c _) as [s|]; [|reflexivity].
    rewrite IH. destruct (typeKeys props (after s) ks1) as [[c1 calls1]|]; [|reflexivity].
    destruct (typeKeys props c1 ks2) as [[c2 calls2]|]; [|reflexivity].
    rewrite List.app_assoc. reflexivity.
Qed.

Lemma typeKeys_three (c : Component) (k1 k2 k3 : ascii) :
  props_format props <> YYYYMMDD ->
  invalid (state c) = false -> truthy (paste c) = false ->
  initialValue (state c) <> None ->
  len (value (state c)) = 6 ->
  exists c' calls,
    typeKeys props c [k1; k2; k3] = Some (c', calls) /\
    value (state c') = value (state c) ++ String k1 (String k2 (String k3 "")) /\
    invalid (state c') = false /\ truthy (paste c') = false /\
    initialValue (state c') = initialValue (state c).
Proof.
  intros Hf Hinv Hp Hiv Hlen. cbn [typeKeys].
  destruct (append_outside_assist c k1 Hf Hinv Hp Hiv ltac:(lia))
    as (s1 & -> & Hv1 & Hi1 & Hp1 & Hr1 & _).
  assert (L1 : len (value (state (after s1))) = 7) by (rewrite Hv1, len_snoc; lia).
  destruct (append_outside_assist (after s1) k2 Hf Hi1 Hp1 ltac:(congruence) ltac:(lia))
    as (s2 & -> & Hv2 & Hi2 & Hp2 & Hr2 & _).
  assert (L2 : len (value (state (after s2))) = 8) by (rewrite Hv2, len_snoc; lia).
  destruct (append_outside_assist (after s2) k3 Hf Hi2 Hp2 ltac:(congruence) ltac:(lia))
    as (s3 & -> & Hv3 & Hi3 & Hp3 & Hr3 & _).
  eexists. eexists. split; [reflexivity|].
  split; [rewrite Hv3, Hv2, Hv1, !append_assoc; reflexivity|].
  split; [exact Hi3|]. split; [exact Hp3 | congruence].
Qed.

Lemma typeKeys_year (c : Component) (k1 k2 k3 k4 : ascii) :
  props_format props <> YYYYMMDD ->
  invalid (state c) = false -> truthy (paste c) = false ->
  initialValue (state c) <> None ->
  len (value (state c)) = 6 ->
  exists c' calls,
    typeKeys props c [k1; k2; k3; k4] = Some (c', calls) /\
    value (state c') = value (state c) ++ String k1 (String k2 (String k3 (String k4 ""))).
Proof.
  intros Hf Hinv Hp Hiv Hlen.
  destruct (typeKeys_three c k1 k2 k3 Hf Hinv Hp Hiv Hlen)
    as (c3 & calls & H3 & Hv3 & Hi3 & Hp3 & Hr3).
  assert (L3 : len (value (state c3)) = 9).
  { rewrite Hv3, len_app. cbn. unfold len in *. cbn. lia. }
  destruct (append_outside_assist c3 k4 Hf Hi3 Hp3 ltac:(congruence) ltac:(lia))
    as (s4 & He4 & Hv4 & _).
  change [k1; k2; k3; k4] with ([k1; k2; k3] ++ [k4])%list.
  rewrite typeKeys_app_eq, H3. cbn [typeKeys]. rewrite He4.
  eexists. eexists. split; [reflexivity|].
  rewrite Hv4, Hv3, append_assoc. reflexivity.
Qed.

End TypingFacts.

Lemma typed_prefix_mdy {H : Host} (local onPaste : bool) :
  forallb (fun m => forallb (fun d =>
      typedPrefixCheck (mkProps NoSeed local MMDDYYYY onPaste) m d
        (JsDate.pad2 m ++ "/" ++ JsDate.pad2 d ++ "/"))
    (zrange 1 31)) (zrange 1 12) = true.
Proof. vm_compute. reflexivity. Qed.

Lemma typed_prefix_dmy {H : Host} (local onPaste : bool) :
  forallb (fun d => forallb (fun m =>
      typedPrefixCheck (mkProps NoSeed local DDMMYYYY onPaste) d m
        (JsDate.pad2 d ++ "/" ++ JsDate.pad2 m ++ "/"))
    (zrange 1 12)) (zrange 1 31) = true.
Proof. vm_compute. reflexivity. Qed.

Lemma pad2_length :
  forallb (fun n => len (JsDate.pad2 n) =? 2) (zrange 1 31) = true.
Proof. vm_compute. reflexivity. Qed.

Lemma typed_prefix_then_year {H : Host} (p : Props) (a b : Z) (k1 k2 k3 k4 : ascii)
      (expected : string) :
  props_format p <> YYYYMMDD ->
  len expected = 6 ->
  typedPrefixCheck p a b expected = true ->
  shown (typeKeys p (construct p) (twoDigits a ++ twoDigits b ++ [k1; k2; k3; k4]))
  = Some (expected ++ String k1 (String k2 (String k3 (String k4 "")))).
Proof.
  intros Hf Hlen Hcheck. unfold typedPrefixCheck in Hcheck.
  rewrite List.app_assoc, typeKeys_app_eq.
  destruct (typeKeys p (construct p) (twoDigits a ++ twoDigits b)) as [[c calls]|];
    [|discriminate].
  apply andb_prop in Hcheck. destruct Hcheck as [Hcheck Hiv].
  apply andb_prop in Hcheck. destruct Hcheck as [Hcheck Hp].
  apply andb_prop in Hcheck. destruct Hcheck as [Htext Hinv].
  apply String.eqb_eq in Htext. apply negb_true_iff in Hinv, Hp.
  assert (Hiv' : initialValue (state c) <> None)
    by (destruct (initialValue (state c)); [discriminate | discriminate Hiv]).
  destruct (typeKeys_year p c k1 k2 k3 k4 Hf Hinv Hp Hiv' ltac:(rewrite Htext; exact Hlen))
    as (c' & more & -> & Hv).
  unfold shown, text. cbn [option_map fst]. rewrite Hv, Htext. reflexivity.
Qed.

(** X16.  Under MM/DD/YYYY and DD/MM/YYYY, typing the two digits of a month
    1..12 and of a day 1..31 in the order of the format and then any four
    characters shows them with the two separators inserted. *)
Theorem typed_date_text {H : Host} (local onPaste : bool) (m d : Z) (k1 k2 k3 k4 : ascii) :
  1 <= m <= 12 -> 1 <= d <= 31 ->
  let yyyy := String k1 (String k2 (String k3 (String k4 ""))) in
  let mdy := mkProps NoSeed local MMDDYYYY onPaste in
  let dmy := mkProps NoSeed local DDMMYYYY onPaste in
  shown (typeKeys mdy (construct mdy) (twoDigits m ++ twoDigits d ++ [k1; k2; k3; k4]))
  = Some ((JsDate.pad2 m ++ "/" ++ JsDate.pad2 d ++ "/") ++ yyyy) /\
  shown (typeKeys dmy (construct dmy) (twoDigits d ++ twoDigits m ++ [k1; k2; k3; k4]))
  = Some ((JsDate.pad2 d ++ "/" ++ JsDate.pad2 m ++ "/") ++ yyyy).
Proof.
  intros Hm Hd. cbv zeta.
  assert (Hl : forall n, 1 <= n <= 31 -> len (JsDate.pad2 n) = 2).
  { intros n Hn. pose proof pad2_length as Hall. rewrite forallb_forall in Hall.
    apply Z.eqb_eq. apply Hall. apply CalendarFacts.in_zrange. lia. }
  assert (Hlen : forall a b, 1 <= a <= 31 -> 1 <= b <= 31 ->
                 len (JsDate.pad2 a ++ "/" ++ JsDate.pad2 b ++ "/") = 6).
  { intros a b Ha Hb. rewrite !len_app, (Hl a Ha), (Hl b Hb). reflexivity. }
  split.
  - apply typed_prefix_then_year; [discriminate | apply Hlen; lia|].
    pose proof (typed_prefix_mdy local onPaste) as Hall.
    rewrite forallb_forall in Hall.
    specialize (Hall m (CalendarFacts.in_zrange 1 12 m ltac:(lia))).
    rewrite forallb_forall in Hall.
    exact (Hall d (CalendarFacts.in_zrange 1 31 d ltac:(lia))).
  - apply typed_prefix_then_year; [discriminate | apply Hlen; lia|].
    pose proof (typed_prefix_dmy local onPaste) as Hall.
    rewrite forallb_forall in Hall.
    specialize (Hall d (CalendarFacts.in_zrange 1 31 d ltac:(lia))).
    rewrite forallb_forall in Hall.
    exact (Hall m (CalendarFacts.in_zrange 1 12 m ltac:(lia))).
Qed.

(** ** Keys typed at the end of the text *)

Section KeyFacts.
Context {H : Host}.
Variable props : Props.

(** The edit made by a key appended to the text of an unflagged
    component with no paste pending. *)
Lemma edit_appended (c : Component) (key : ascii) :
  invalid (state c) = false -> paste c = PasteBool false ->
  len (value (state c)) <= 10 ->
  let raw := value (state c) ++ String key "" in
  exists shownNext,
    onInput_edit props c raw
    = mkEdit shownNext false (initialValue (state c)) (dateValue (state c)) (paste c)
    /\ len shownNext <= 10
    /\ (len raw <= 10 -> shownNext = handleTyping props (state c) raw)
    /\ (10 < len raw -> shownNext = value (state c)).
Proof.
  intros Hinv Hp Hw raw.
  assert (Hraw : len raw = len (value (state c)) + 1) by apply len_snoc.
  pose proof (len_nonneg (value (state c))) as Hn.
  unfold onInput_edit. rewrite Hp, Hinv. cbn [truthy negb].
  destruct (Z.geb_spec (len (value (state c))) (len raw)); [lia|].
  destruct (Z.leb_spec (len raw) 10).
  - assert (Hs : substr raw 0 (len raw - 2)
                 = substr (value (state c)) 0 (len (value (state c)) - 1)).
    { unfold raw at 1. rewrite Hraw.
      replace (len (value (state c)) + 1 - 2) with (len (value (state c)) - 1) by lia.
      apply substr_app_left. lia. }
    rewrite Hs, String.eqb_refl, andb_false_r.
    eexists. split; [reflexivity|].
    split; [apply handleTyping_length; exact Hw|]. split; [reflexivity | lia].
  - eexists. split; [reflexivity|]. split; [exact Hw|]. split; [lia | reflexivity].
Qed.

Lemma typed_key_invariant (c : Component) (key : ascii) :
  invalid (state c) = false -> paste c = PasteBool false ->
  initialValue (state c) <> None ->
  len (value (state c)) <= 10 ->
  exists s,
    inputEvent props c (value (state c) ++ String key "") = Some s /\
    invalid (state (after s)) = false /\
    error (state (after s)) = false /\
    paste (after s) = PasteBool false /\
    initialValue (state (after s)) = initialValue (state c) /\
    len (value (state (after s))) <= 10.
Proof.
  intros Hinv Hp Hiv Hw.
  destruct (edit_appended c key Hinv Hp Hw) as (next & He & Hnext & _).
  destruct (onInput_total props c (value (state c) ++ String key "") Hiv) as [c' Hrun].
  assert (Hc : invalid (state c') = false /\ error (state c') = false
               /\ paste c' = PasteBool false
               /\ initialValue (state c') = initialValue (state c)
               /\ value (state c') = next).
  { unfold onInput in Hrun. rewrite He in Hrun.
    cbn [edit_newValue edit_invalid edit_initialValue edit_paste] in Hrun.
    destruct (Z.gtb_spec (len next) 11); [lia|].
    destruct (valid _); [destruct (initialValue (state c)) eqn:Hv; [|discriminate]|];
      inversion Hrun; cbn; rewrite ?Hp; repeat split; auto;
      destruct (len next =? 0); reflexivity. }
  destruct Hc as (Hi & Herr & Hpc & Hr & Hv).
  unfold inputEvent. rewrite Hrun. cbn [option_map]. eexists. split; [reflexivity|].
  unfold componentDidUpdate. rewrite Hpc. cbn [truthy]. rewrite orb_false_r.
  destruct (negb _); [destruct (dateValue (state c'))|]; cbn;
    rewrite ?Hpc, ?Hv; repeat split; auto.
Qed.

Lemma typeKeys_invariant (c : Component) (keys : list ascii) :
  invalid (state c) = false -> paste c = PasteBool false ->
  initialValue (state c) <> None ->
  len (text c) <= 10 ->
  exists c' calls,
    typeKeys props c keys = Some (c', calls) /\
    invalid (state c') = false /\
    paste c' = PasteBool false /\
    initialValue (state c') = initialValue (state c) /\
    len (text c') <= 10.
Proof.
  unfold text. revert c. induction keys as [|key rest IH]; intros c Hinv Hp Hiv Hw.
  - cbn [typeKeys]. eexists. eexists. repeat split; auto.
  - cbn [typeKeys].
    destruct (typed_key_invariant c key Hinv Hp Hiv Hw)
      as (s & -> & Hi & _ & Hps & Hr & Hl).
    destruct (IH (after s) Hi Hps ltac:(congruence) Hl)
      as (c' & calls & -> & Hi' & Hp' & Hr' & Hl').
    eexists. eexists. split; [reflexivity|].
    repeat split; auto. congruence.
Qed.

End KeyFacts.

Lemma splitAcc_plain (cur s : string) :
  countSlashes s = 0%nat -> splitAcc cur s = [cur ++ s].
Proof.
  revert cur. induction s as [|ch s IH]; intros cur Hs; cbn in *.
  - rewrite append_empty_r. reflexivity.
  - destruct (Ascii.eqb ch "/"%char); [discriminate|].
    rewrite IH by exact Hs. rewrite append_assoc. reflexivity.
Qed.

Lemma splitAcc_piece (cur a rest : string) :
  countSlashes a = 0%nat ->
  splitAcc cur (a ++ String "/"%char rest) = (cur ++ a) :: splitAcc "" rest.
Proof.
  revert cur. induction a as [|ch a IH]; intros cur Ha; cbn in *.
  - rewrite append_empty_r. reflexivity.
  - destruct (Ascii.eqb ch "/"%char); [discriminate|].
    rewrite IH by exact Ha. rewrite append_assoc. reflexivity.
Qed.

Lemma split_three (a b c : string) :
  countSlashes a = 0%nat -> countSlashes b = 0%nat -> countSlashes c = 0%nat ->
  split ((a ++ "/" ++ b ++ "/") ++ c) = [a; b; c].
Proof.
  intros Ha Hb Hc. unfold split.
  rewrite append_assoc. cbn [String.append].
  rewrite (splitAcc_piece "" a _ Ha). cbn [String.append].
  rewrite append_assoc. cbn [String.append].
  rewrite (splitAcc_piece "" b _ Hb). cbn [String.append].
  rewrite (splitAcc_plain "" c Hc). reflexivity.
Qed.

Lemma twoDigitCheck_all : forallb twoDigitCheck (zrange 1 31) = true.
Proof. vm_compute. reflexivity. Qed.

Lemma yearCheck_all :
  forallb (fun y1 => forallb (fun y2 => forallb (fun y3 =>
    forallb (yearCheck y1 y2 y3) (zrange 0 10)) (zrange 0 10)) (zrange 0 10))
    (zrange 0 10) = true.
Proof. vm_compute. reflexivity. Qed.

Lemma twoDigit_facts (n : Z) :
  1 <= n <= 31 ->
  JsNum.parseInt (JsDate.pad2 n) = Some n /\ countSlashes (JsDate.pad2 n) = 0%nat.
Proof.
  intros Hn. pose proof twoDigitCheck_all as Hall. rewrite forallb_forall in Hall.
  specialize (Hall n (CalendarFacts.in_zrange 1 31 n ltac:(lia))).
  unfold twoDigitCheck in Hall. destruct (JsNum.parseInt (JsDate.pad2 n)); [|discriminate].
  apply andb_prop in Hall. destruct Hall as [Hv Hc].
  apply Z.eqb_eq in Hv. apply Nat.eqb_eq in Hc. split; congruence.
Qed.

Lemma year_facts (y1 y2 y3 y4 : Z) :
  0 <= y1 <= 9 -> 0 <= y2 <= 9 -> 0 <= y3 <= 9 -> 0 <= y4 <= 9 ->
  JsNum.parseInt (yearText y1 y2 y3 y4) = Some (1000 * y1 + 100 * y2 + 10 * y3 + y4)
  /\ countSlashes (yearText y1 y2 y3 y4) = 0%nat.
Proof.
  intros H1 H2 H3 H4. pose proof yearCheck_all as Hall.
  rewrite forallb_forall in Hall.
  specialize (Hall y1 (CalendarFacts.in_zrange 0 10 y1 ltac:(lia))).
  rewrite forallb_forall in Hall.
  specialize (Hall y2 (CalendarFacts.in_zrange 0 10 y2 ltac:(lia))).
  rewrite forallb_forall in Hall.
  specialize (Hall y3 (CalendarFacts.in_zrange 0 10 y3 ltac:(lia))).
  rewrite forallb_forall in Hall.
  specialize (Hall y4 (CalendarFacts.in_zrange 0 10 y4 ltac:(lia))).
  unfold yearCheck in Hall.
  destruct (JsNum.parseInt (yearText y1 y2 y3 y4)); [|discriminate].
  apply andb_prop in Hall. destruct Hall as [Hv Hc].
  apply Z.eqb_eq in Hv. apply Nat.eqb_eq in Hc. split; congruence.
Qed.

Section ParseFields.
Context {H : Host}.
Variable props : Props.

Lemma parse_fields (st : State) (buffer a b c : string) :
  split buffer = [a; b; c] ->
  let r := parse props st buffer in
  match props_format props with
  | MMDDYYYY => year r = JsNum.parseInt c /\ month r = JsNum.parseInt a
                /\ date r = JsNum.parseInt b
  | DDMMYYYY => year r = JsNum.parseInt c /\ month r = JsNum.parseInt b
                /\ date r = JsNum.parseInt a
  | YYYYMMDD => year r = JsNum.parseInt a /\ month r = JsNum.parseInt b
                /\ date r = JsNum.parseInt c
  end.
Proof.
  intros Hs. cbv zeta. unfold parse. rewrite Hs.
  destruct (props_format props); cbn; repeat split.
Qed.

End ParseFields.

Lemma handleTyping_year_plain (props : Props) (st : State) (raw : string) :
  props_format props <> YYYYMMDD -> 7 <= len raw <= 10 ->
  handleTyping props st raw = raw.
Proof.
  intros Hf Hlen. unfold handleTyping.
  destruct (props_format props); [| |contradiction];
    repeat match goal with
      | |- context [Z.eqb ?a ?b] => destruct (Z.eqb_spec a b); [lia|]
      | |- context [Z.gtb ?a ?b] => destruct (Z.gtb_spec a b); [lia|]
      end; reflexivity.
Qed.

Lemma yearText_length (y1 y2 y3 y4 : Z) : len (yearText y1 y2 y3 y4) = 4.
Proof. reflexivity. Qed.

Section TypedDate.
Context {H : Host}.

Lemma construct_unseeded (local onPaste : bool) (f : DateFormat) :
  construct (mkProps NoSeed local f onPaste)
  = mkComponent (mkState "" None (Some (MD.today local)) false false false)
                (PasteBool false).
Proof. reflexivity. Qed.

Lemma typed_date_stored_gen (local onPaste : bool) (f : DateFormat)
      (a b m d y1 y2 y3 y4 : Z) :
  let p := mkProps NoSeed local f onPaste in
  let y := 1000 * y1 + 100 * y2 + 10 * y3 + y4 in
  let shownDate := (JsDate.pad2 a ++ "/" ++ JsDate.pad2 b ++ "/") ++ yearText y1 y2 y3 y4 in
  match f with
  | MMDDYYYY => m = a /\ d = b
  | DDMMYYYY => d = a /\ m = b
  | YYYYMMDD => False
  end ->
  typedPrefixCheck p a b (JsDate.pad2 a ++ "/" ++ JsDate.pad2 b ++ "/") = true ->
  Z.abs tzOffset < JsDate.msPerDay ->
  1 <= a <= 31 -> 1 <= b <= 31 ->
  0 <= y1 <= 9 -> 0 <= y2 <= 9 -> 0 <= y3 <= 9 -> 0 <= y4 <= 9 ->
  1 <= y -> 1 <= m <= 12 -> 1 <= d <= daysInMonth y m ->
  exists c dv earlier,
    typeKeys p (construct p)
      (twoDigits a ++ twoDigits b ++ List.map digitChar [y1; y2; y3; y4])
    = Some (c, (earlier ++ [OnChange (JsDate.toUTCString (dateObject dv))])%list) /\
    text c = shownDate /\
    invalid (state c) = false /\
    dateValue (state c) = Some dv /\
    MD.year dv = Some y /\ MD.month dv = Some (m - 1) /\ MD.date dv = Some d.
Proof.
  intros p y shownDate Hfields Hcheck Hz Ha Hb H1 H2 H3 H4 Hy Hm Hd.
  assert (Hf : props_format p <> YYYYMMDD) by (destruct f; [discriminate..|contradiction]).
  set (prefix := JsDate.pad2 a ++ "/" ++ JsDate.pad2 b ++ "/") in *.
  destruct (twoDigit_facts a Ha) as [Pa Sa]. destruct (twoDigit_facts b Hb) as [Pb Sb].
  destruct (year_facts y1 y2 y3 y4 H1 H2 H3 H4) as [Py Sy]. fold y in Py.
  assert (Hl2 : forall n, 1 <= n <= 31 -> len (JsDate.pad2 n) = 2).
  { intros n Hn. pose proof pad2_length as Hall. rewrite forallb_forall in Hall.
    apply Z.eqb_eq. apply Hall. apply CalendarFacts.in_zrange. lia. }
  assert (Hprefix : len prefix = 6).
  { unfold prefix. rewrite !len_app, (Hl2 a Ha), (Hl2 b Hb). reflexivity. }
  (* the month and the day *)
  unfold typedPrefixCheck in Hcheck.
  destruct (typeKeys p (construct p) (twoDigits a ++ twoDigits b)) as [[c4 calls4]|] eqn:H4keys;
    [|discriminate].
  apply andb_prop in Hcheck. destruct Hcheck as [Hcheck _].
  apply andb_prop in Hcheck. destruct Hcheck as [Hcheck _].
  apply andb_prop in Hcheck. destruct Hcheck as [Htext4 Hinv4].
  apply String.eqb_eq in Htext4. apply negb_true_iff in Hinv4.
  destruct (typeKeys_invariant p (construct p) (twoDigits a ++ twoDigits b)
              eq_refl eq_refl ltac:(discriminate) ltac:(cbn; lia))
    as (c4' & calls4' & H4keys' & _ & Hp4 & Hr4 & _).
  rewrite H4keys in H4keys'. inversion H4keys'. subst c4' calls4'. clear H4keys'.
  (* three digits of the year *)
  set (k1 := digitChar y1). set (k2 := digitChar y2).
  set (k3 := digitChar y3). set (k4 := digitChar y4).
  assert (Hiv4 : initialValue (state c4) <> None) by (rewrite Hr4; discriminate).
  destruct (typeKeys_three p c4 k1 k2 k3 Hf Hinv4 ltac:(rewrite Hp4; reflexivity) Hiv4
              ltac:(rewrite Htext4; exact Hprefix))
    as (c7 & calls7 & H7keys & Htext7 & Hinv7 & _ & Hr7).
  destruct (typeKeys_invariant p c4 [k1; k2; k3] Hinv4 Hp4 Hiv4
              ltac:(unfold text; rewrite Htext4; lia))
    as (c7' & calls7' & H7keys' & _ & Hp7 & _).
  rewrite H7keys in H7keys'. inversion H7keys'. subst c7' calls7'. clear H7keys'.
  assert (Hlen7 : len (value (state c7)) = 9).
  { rewrite Htext7, len_app, Htext4, Hprefix. reflexivity. }
  (* the last digit *)
  set (raw := value (state c7) ++ String k4 "").
  assert (Hraw : raw = shownDate).
  { unfold raw, shownDate. rewrite Htext7, Htext4, append_assoc. reflexivity. }
  assert (Hlenraw : len raw = 10) by (unfold raw; rewrite len_snoc; lia).
  destruct (edit_appended p c7 k4 Hinv7 Hp7 ltac:(lia)) as (next & He & _ & Hnext & _).
  fold raw in He, Hnext. specialize (Hnext ltac:(lia)).
  rewrite handleTyping_year_plain in Hnext by (auto; lia). subst next.
  assert (Hsplit : split raw = [JsDate.pad2 a; JsDate.pad2 b; yearText y1 y2 y3 y4]).
  { rewrite Hraw. apply split_three; assumption. }
  pose proof (parse_fields p (state c7) raw _ _ _ Hsplit) as Hparsed.
  cbv zeta in Hparsed. cbn [props_format p] in Hparsed.
  assert (Hr : year (parse p (state c7) raw) = Some y
               /\ month (parse p (state c7) raw) = Some m
               /\ date (parse p (state c7) raw) = Some d).
  { destruct f; [| |contradiction]; destruct Hfields as [-> ->];
      destruct Hparsed as (-> & -> & ->); auto. }
  destruct Hr as (Ry & Rm & Rd).
  assert (Hiv7 : initialValue (state c7) = Some (MD.today local)).
  { rewrite Hr7, Hr4. reflexivity. }
  assert (Hvalid : valid (parse p (state c7) raw) = true).
  { apply (parse_calendar_iff p (state c7) raw y m d); auto.
    - rewrite Hiv7. cbn. discriminate.
    - rewrite Hsplit. reflexivity.
    - unfold y. lia. }
  destruct (stored_date_fields p c7 raw (MD.today local) y) as
    (c8 & dv & Hrun & Htext8 & Hdv & Fy & Fm & Fd & _);
    try (rewrite He; cbn [edit_newValue]); auto.
  { rewrite Hp7. reflexivity. } { cbn. discriminate. } { lia. } { unfold y. lia. }
  rewrite He in Htext8, Fy, Fm, Fd. cbn [edit_newValue] in Htext8, Fy, Fm, Fd.
  rewrite Ry in Fy. rewrite Rm in Fm. rewrite Rd in Fd.
  cbn [JsNum.add option_map] in Fm. replace (m + -1) with (m - 1) in Fm by lia.
  destruct (typed_key_invariant p c7 k4 Hinv7 Hp7 ltac:(rewrite Hiv7; discriminate)
              ltac:(lia)) as (s & Hevent & Hinv8 & _).
  fold raw in Hevent.
  assert (Hs : s = componentDidUpdate p (state c7) c8).
  { unfold inputEvent in Hevent. rewrite Hrun in Hevent. cbn in Hevent. congruence. }
  assert (Hp8 : paste c8 = PasteBool false).
  { destruct (onInput_shows_edit p c7 c8 raw ltac:(rewrite He; cbn; lia) Hrun) as [_ Hpp].
    rewrite Hpp, He. cbn. exact Hp7. }
  assert (Hemit : emitted s = [OnChange (JsDate.toUTCString (dateObject dv))]
                  /\ state (after s) = state c8).
  { subst s. unfold componentDidUpdate. rewrite Hp8, Hdv.
    assert (Hchanged : String.eqb (value (state c7)) (value (state c8)) = false).
    { apply String.eqb_neq. intros Heq. unfold text in Htext8. rewrite Htext8 in Heq.
      assert (Hl : len (value (state c7)) = len raw) by (rewrite <- Heq; reflexivity).
      lia. }
    rewrite Hchanged. cbn. split; reflexivity. }
  destruct Hemit as [Hemit Hstate].
  exists (after s), dv, (calls4 ++ calls7)%list.
  split.
  - assert (Hkeys : (twoDigits a ++ twoDigits b ++ List.map digitChar [y1; y2; y3; y4])%list
                    = (((twoDigits a ++ twoDigits b) ++ [k1; k2; k3]) ++ [k4])%list)
      by reflexivity.
    rewrite Hkeys, typeKeys_app_eq, typeKeys_app_eq, H4keys, H7keys.
    cbn [typeKeys]. fold raw. rewrite Hevent, Hemit.
    rewrite List.app_nil_r. reflexivity.
  - unfold text in *. rewrite Hstate, Htext8, Hdv. rewrite Hstate in Hinv8.
    repeat split; auto.
Qed.

End TypedDate.

Lemma daysInMonth_max (y m : Z) : daysInMonth y m <= 31.
Proof.
  unfold daysInMonth.
  repeat match goal with |- context [if ?b then _ else _] => destruct b end; lia.
Qed.

(** X17.  Under MM/DD/YYYY and DD/MM/YYYY, typing the eight digits of a date
    that exists in the calendar shows it with its separators, stores a
    parsed date reading back that year, month and day, leaves the
    component unflagged, and ends by calling [onChange] with the date's
    UTC text. *)
Theorem typed_date_stored {H : Host} (local onPaste : bool) (m d y1 y2 y3 y4 : Z) :
  let y := 1000 * y1 + 100 * y2 + 10 * y3 + y4 in
  let yyyy := yearText y1 y2 y3 y4 in
  let mdy := mkProps NoSeed local MMDDYYYY onPaste in
  let dmy := mkProps NoSeed local DDMMYYYY onPaste in
  let stored (c : Component) (dv : MethodDate) :=
    invalid (state c) = false /\ dateValue (state c) = Some dv /\
    MD.year dv = Some y /\ MD.month dv = Some (m - 1) /\ MD.date dv = Some d in
  Z.abs tzOffset < JsDate.msPerDay ->
  0 <= y1 <= 9 -> 0 <= y2 <= 9 -> 0 <= y3 <= 9 -> 0 <= y4 <= 9 ->
  1 <= y -> 1 <= m <= 12 -> 1 <= d <= daysInMonth y m ->
  (exists c dv earlier,
     typeKeys mdy (construct mdy)
       (twoDigits m ++ twoDigits d ++ List.map digitChar [y1; y2; y3; y4])
     = Some (c, (earlier ++ [OnChange (JsDate.toUTCString (dateObject dv))])%list) /\
     text c = (JsDate.pad2 m ++ "/" ++ JsDate.pad2 d ++ "/") ++ yyyy /\ stored c dv) /\
  (exists c dv earlier,
     typeKeys dmy (construct dmy)
       (twoDigits d ++ twoDigits m ++ List.map digitChar [y1; y2; y3; y4])
     = Some (c, (earlier ++ [OnChange (JsDate.toUTCString (dateObject dv))])%list) /\
     text c = (JsDate.pad2 d ++ "/" ++ JsDate.pad2 m ++ "/") ++ yyyy /\ stored c dv).
Proof.
  intros y yyyy mdy dmy stored Hz H1 H2 H3 H4 Hy Hm Hd.
  pose proof (daysInMonth_max y m) as Hmax.
  split.
  - apply (typed_date_stored_gen local onPaste MMDDYYYY m d m d y1 y2 y3 y4);
      auto; try lia.
    pose proof (typed_prefix_mdy local onPaste) as Hall.
    rewrite forallb_forall in Hall.
    specialize (Hall m (CalendarFacts.in_zrange 1 12 m ltac:(lia))).
    rewrite forallb_forall in Hall.
    exact (Hall d (CalendarFacts.in_zrange 1 31 d ltac:(lia))).
  - apply (typed_date_stored_gen local onPaste DDMMYYYY d m m d y1 y2 y3 y4);
      auto; try lia.
    pose proof (typed_prefix_dmy local onPaste) as Hall.
    rewrite forallb_forall in Hall.
    specialize (Hall d (CalendarFacts.in_zrange 1 31 d ltac:(lia))).
    rewrite forallb_forall in Hall.
    exact (Hall m (CalendarFacts.in_zrange 1 12 m ltac:(lia))).
Qed.

(** ** Statements and their instances *)

(** X1.  For a text of three fields that are numbers, the year at most 275000,
    [parse] answers valid exactly when year >= 1, the month is 1..12 and the
    day exists in that month of that year (February 29 in leap years only). *)
Theorem parse_accepts_calendar_dates {H : Host} (props : Props) (st : State)
        (buffer : string) (y m d : Z) :
  Z.abs tzOffset < JsDate.msPerDay ->
  usable (initialValue st) ->
  List.length (split buffer) = 3%nat ->
  year (parse props st buffer) = Some y ->
  month (parse props st buffer) = Some m ->
  date (parse props st buffer) = Some d ->
  y <= 275000 ->
  (valid (parse props st buffer) = true <->
   1 <= y /\ 1 <= m <= 12 /\ 1 <= d <= daysInMonth y m).
Proof. apply parse_calendar_iff. Qed.

Lemma parse_accepts_calendar_dates_witness :
  valid (@parse Demo.host (Demo.mdy true) (state (Demo.showing "")) "02/29/2024") = true /\
  valid (@parse Demo.host (Demo.mdy true) (state (Demo.showing "")) "02/29/2023") <> true.
Proof.
  split.
  - apply (proj2 (@parse_accepts_calendar_dates Demo.host (Demo.mdy true)
             (state (Demo.showing "")) "02/29/2024" 2024 2 29
             ltac:(vm_compute; reflexivity) ltac:(cbn; discriminate)
             ltac:(reflexivity) ltac:(reflexivity) ltac:(reflexivity) ltac:(reflexivity)
             ltac:(lia))).
    vm_compute. repeat split; discriminate.
  - intros Hv.
    apply (proj1 (@parse_accepts_calendar_dates Demo.host (Demo.mdy true)
             (state (Demo.showing "")) "02/29/2023" 2023 2 29
             ltac:(vm_compute; reflexivity) ltac:(cbn; discriminate)
             ltac:(reflexivity) ltac:(reflexivity) ltac:(reflexivity) ltac:(reflexivity)
             ltac:(lia))) in Hv.
    destruct Hv as (_ & _ & _ & Hbad). vm_compute in Hbad. apply Hbad. reflexivity.
Defined.

(** X2.  With no paste pending and a valid reference date, a text [parse]
    finds valid is stored as a date that reads back the year, month and
    day of the text and the hours, minutes and seconds of the reference
    date. *)
Theorem stored_date_reads_back {H : Host} (props : Props) (c : Component)
        (raw : string) (iv : MethodDate) (y : Z) :
  let e := onInput_edit props c raw in
  let r := parse props (state c) (edit_newValue e) in
  Z.abs tzOffset < JsDate.msPerDay ->
  truthy (paste c) = false ->
  initialValue (state c) = Some iv -> dateObject iv <> None ->
  len (edit_newValue e) <= 11 ->
  valid r = true -> year r = Some y -> y <= 275000 ->
  exists c' dv,
    onInput props c raw = Some c' /\
    text c' = edit_newValue e /\
    dateValue (state c') = Some dv /\
    MD.year dv = year r /\
    MD.month dv = JsNum.add (month r) (-1) /\
    MD.date dv = date r /\
    MD.hours dv = MD.hours iv /\
    MD.minutes dv = MD.minutes iv /\
    MD.seconds dv = MD.seconds iv.
Proof. apply stored_date_fields. Qed.

Lemma stored_date_reads_back_witness :
  exists c' dv,
    @onInput Demo.host (Demo.mdy true) (Demo.showing "04/30/202") "04/30/2024" = Some c' /\
    dateValue (state c') = Some dv /\
    @MD.year Demo.host dv = Some 2024 /\ @MD.month Demo.host dv = Some 3 /\
    @MD.date Demo.host dv = Some 30 /\ @MD.hours Demo.host dv = Some 23.
Proof.
  destruct (@stored_date_reads_back Demo.host (Demo.mdy true)
              (Demo.showing "04/30/202") "04/30/2024" (@MD.today Demo.host true) 2024)
    as (c' & dv & Hrun & _ & Hdv & Hy & Hm & Hd & Hh & _).
  - vm_compute. reflexivity.
  - reflexivity.
  - reflexivity.
  - cbn. discriminate.
  - vm_compute. discriminate.
  - vm_compute. reflexivity.
  - vm_compute. reflexivity.
  - lia.
  - exists c', dv. split; [exact Hrun|]. split; [exact Hdv|].
    split; [rewrite Hy; vm_compute; reflexivity|].
    split; [rewrite Hm; vm_compute; reflexivity|].
    split; [rewrite Hd; vm_compute; reflexivity|].
    rewrite Hh. vm_compute. reflexivity.
Defined.

(** X15.  Keys typed at the end of the text of an unflagged component with no
    paste pending never raise the invalid flag, never change the reference
    date, and never leave more than 10 characters. *)
Theorem typed_keys_stay_unflagged {H : Host} (props : Props) (c : Component)
        (keys : list ascii) :
  invalid (state c) = false -> paste c = PasteBool false ->
  initialValue (state c) <> None ->
  len (text c) <= 10 ->
  exists c' calls,
    typeKeys props c keys = Some (c', calls) /\
    invalid (state c') = false /\
    paste c' = PasteBool false /\
    initialValue (state c') = initialValue (state c) /\
    len (text c') <= 10.
Proof. apply typeKeys_invariant. Qed.

Lemma typed_keys_stay_unflagged_witness :
  exists c' calls,
    @typeKeys Demo.host Demo.ymd (Demo.showing "2024/1")
      ["9"%char; "/"%char; "x"%char] = Some (c', calls) /\
    invalid (state c') = false /\ len (text c') <= 10.
Proof.
  destruct (@typed_keys_stay_unflagged Demo.host Demo.ymd (Demo.showing "2024/1")
              ["9"%char; "/"%char; "x"%char])
    as (c' & calls & Hrun & Hinv & _ & _ & Hlen).
  - reflexivity.
  - reflexivity.
  - cbn. discriminate.
  - vm_compute. discriminate.
  - exists c', calls. split; [exact Hrun|]. split; [exact Hinv | exact Hlen].
Defined.

(** X18.  The select-all box of the management list is checked exactly when
    every row is selected, so also when there are no rows. *)
Theorem all_selected_iff {T : Type} (isSelected : T -> bool) (rows : list T) :
  allSelected isSelected rows = true <-> forall row, In row rows -> isSelected row = true.
Proof.
  unfold allSelected. induction rows as [|r rows IH]; cbn.
  - split; [intros _ row [] | reflexivity].
  - assert (Hle : forall l : list bool,
              (List.length (List.filter (fun row => row) l) <= List.length l)%nat).
    { induction l as [|x l IHl]; cbn; [lia|]. destruct x; cbn; lia. }
    destruct (isSelected r) eqn:Hr; cbn.
    + rewrite IH. split.
      * intros Hall row [<- | Hin]; [exact Hr | exact (Hall row Hin)].
      * intros Hall row Hin. apply Hall. right. exact Hin.
    + split.
      * intros Heq. apply Nat.eqb_eq in Heq.
        specialize (Hle (List.map isSelected rows)). lia.
      * intros Hall. specialize (Hall r (or_introl eq_refl)). congruence.
Qed.

Lemma all_selected_iff_witness :
  allSelected (fun n => Nat.leb 1 n) [1%nat; 2%nat; 3%nat] = true /\
  allSelected (fun n => Nat.leb 1 n) (@nil nat) = true.
Proof.
  split.
  - apply (proj2 (all_selected_iff (fun n => Nat.leb 1 n) [1%nat; 2%nat; 3%nat])).
    intros row [<- | [<- | [<- | []]]]; reflexivity.
  - apply (proj2 (all_selected_iff (fun n => Nat.leb 1 n) (@nil nat))).
    intros row [].
Defined.


Lemma dropdown_hides_outside_witness :
  exists c',
    handleDropdown demoDom (onFocus (Demo.showing "")) 9%nat = Some c' /\
    visible (state c') = false /\
    handleDropdown demoDom (onFocus (Demo.showing "")) 7%nat = None.
Proof.
  destruct (dropdown_hides_outside demoDom (onFocus (Demo.showing "")) 9%nat) as [Hiff _].
  destruct (dropdown_hides_outside demoDom (onFocus (Demo.showing "")) 7%nat) as [Hiff7 Hor7].
  eexists. split; [|split].
  - apply (proj2 Hiff). split; [discriminate|]. split; [reflexivity|].
    intros k Hk.
    assert (Hcase : (k = 0 \/ k = 1 \/ k = 2 \/ k = 3 \/ k = 4 \/ k = 5)%nat) by lia.
    destruct Hcase as [-> | [-> | [-> | [-> | [-> | ->]]]]]; cbn; discriminate.
  - reflexivity.
  - destruct Hor7 as [Hnone | Hsome]; [exact Hnone|].
    exfalso. destruct (proj1 Hiff7 Hsome) as (_ & _ & Hfar).
    apply (Hfar 5%nat); [lia | reflexivity].
Defined.

Lemma key_filter_witness :
  onKeyPress demoKeys (Demo.showing "12/30/") 47 = true /\
  onKeyPress demoKeys (Demo.showing "12/") 47 <> true.
Proof.
  split.
  - apply (proj2 (key_filter demoKeys (Demo.showing "12/30/") 47)).
    split; [vm_compute; reflexivity|]. split; [cbn; lia|].
    intros _. cbn. lia.
  - intros Hblocked.
    destruct (proj1 (key_filter demoKeys (Demo.showing "12/") 47) Hblocked)
      as (_ & _ & Hcount).
    specialize (Hcount eq_refl). cbn in Hcount. lia.
Defined.

Lemma input_keeps_width_witness :
  exists c',
    @onInput Demo.host (Demo.mdy true) (Demo.showing "04/30/2024") "04/30/20245" = Some c' /\
    len (text c') <= 10.
Proof.
  apply (@input_keeps_width Demo.host (Demo.mdy true) (Demo.showing "04/30/2024")
           "04/30/20245");
    [reflexivity | reflexivity | cbn; discriminate | vm_compute; discriminate].
Defined.

Lemma overlong_input_rejected_witness :
  exists s,
    @inputEvent Demo.host (Demo.mdy true) (Demo.showing "04/30/2024") "04/30/20245" = Some s /\
    text (after s) = "04/30/2024" /\ emitted s = [].
Proof.
  destruct (@overlong_input_rejected Demo.host (Demo.mdy true) (Demo.showing "04/30/2024")
              "04/30/20245") as (s & Hev & Htext & Hcalls & _).
  - reflexivity.
  - reflexivity.
  - cbn. discriminate.
  - vm_compute. discriminate.
  - vm_compute. reflexivity.
  - exists s. split; [exact Hev|]. split; [exact Htext | exact Hcalls].
Defined.


Lemma select_notifies_witness :
  let shownAlready :=
    mkComponent (mkState "03/03/2024" None (Some (@MD.today Demo.host true))
                         true false false) (PasteBool false) in
  emitted (@selectEvent Demo.host (Demo.mdy true) shownAlready (Some 1709420400000)) = [] /\
  emitted (@selectEvent Demo.host (Demo.mdy true) (Demo.showing "03/0") (Some 1709420400000))
  = [OnChange "Sat, 02 Mar 2024 23:00:00 GMT"].
Proof.
  intros shownAlready. split.
  - destruct (@select_notifies Demo.host (Demo.mdy true) shownAlready (Some 1709420400000))
      as (_ & _ & Hsame & _).
    apply Hsame; [vm_compute; reflexivity | reflexivity].
  - destruct (@select_notifies Demo.host (Demo.mdy true) (Demo.showing "03/0")
                (Some 1709420400000)) as (_ & _ & _ & Hdiff).
    destruct Hdiff as [_ Hcalls]; [left; vm_compute; discriminate|].
    rewrite Hcalls. vm_compute. reflexivity.
Defined.

Lemma failed_paste_clears_marker_witness :
  exists s,
    @inputEvent Demo.host (Demo.mdy true) (onPaste (Demo.showing "")) "next week" = Some s /\
    text (after s) = "next week" /\
    truthy (paste (after s)) = false /\
    emitted s = [OnChange "invalid"].
Proof.
  destruct (@failed_paste_clears_marker Demo.host (Demo.mdy true)
              (onPaste (Demo.showing "")) "next week")
    as (s & Hev & Htext & Hp & Hcalls).
  - reflexivity.
  - reflexivity.
  - cbn. discriminate.
  - exists s. split; [exact Hev|]. split; [exact Htext|]. split; [exact Hp|].
    rewrite Hcalls. vm_compute in Hev. inversion Hev. reflexivity.
Defined.

Lemma initial_state_consistent_witness :
  let s := @getInitialState Demo.host (mkProps (SeedString "soon") true MMDDYYYY true) in
  init_value s = "soon" /\ init_invalid s = true /\ init_dateValue s = None.
Proof.
  intros s.
  destruct (@initial_state_consistent Demo.host
              (mkProps (SeedString "soon") true MMDDYYYY true)) as (_ & _ & Hseed).
  apply (Hseed "soon"); [reflexivity | discriminate | reflexivity].
Defined.

Lemma calendar_hints_witness :
  @calendarMonth Demo.host (Demo.mdy true) (state (Demo.showing "01/15/2024")) = None /\
  @calendarYear Demo.host (Demo.mdy true) (state (Demo.showing "01/15/2024")) = Some 2024.
Proof.
  destruct (@calendar_hints Demo.host (Demo.mdy true) (state (Demo.showing "01/15/2024"))
              ltac:(vm_compute; reflexivity)) as (y & m & Hy & Hm & Hcy & Hcm).
  vm_compute in Hy, Hm.
  assert (y = 2024) by congruence. assert (m = 1) by congruence. subst y m.
  split; [exact Hcm | exact Hcy].
Defined.

Lemma parse_needs_two_separators_witness :
  valid (@parse Demo.host (Demo.mdy true) (state (Demo.showing "")) "04/30/2024/") = false.
Proof.
  apply (@parse_needs_two_separators Demo.host (Demo.mdy true)). cbn. lia.
Defined.

Lemma second_digit_rule_witness :
  handleDay (state (Demo.showing "12/3")) "12/35" 2 = "12/3" /\
  handleMonth (state (Demo.showing "0")) "00" 1 = "00/".
Proof.
  split.
  - exact (proj2 (second_digit_rule (state (Demo.showing "12/3")) "12/" 3 5 2
                    ltac:(lia) ltac:(lia))).
  - exact (proj1 (second_digit_rule (state (Demo.showing "0")) "" 0 0 1
                    ltac:(lia) ltac:(lia))).
Defined.

Lemma typed_date_text_witness :
  shown (@typeKeys Demo.host (Demo.mdy true) (Demo.fresh (Demo.mdy true))
           (twoDigits 2 ++ twoDigits 30 ++ ["2"%char; "0"%char; "2"%char; "4"%char]))
  = Some "02/30/2024".
Proof.
  exact (proj1 (@typed_date_text Demo.host true true 2 30
                  "2"%char "0"%char "2"%char "4"%char ltac:(lia) ltac:(lia))).
Defined.

Lemma typed_date_stored_witness :
  exists c dv earlier,
    @typeKeys Demo.host (Demo.mdy true) (Demo.fresh (Demo.mdy true))
      (twoDigits 2 ++ twoDigits 29 ++ List.map digitChar [2; 0; 2; 4])
    = Some (c, (earlier ++ [OnChange (JsDate.toUTCString (dateObject dv))])%list) /\
    text c = "02/29/2024" /\ @MD.year Demo.host dv = Some 2024 /\
    @MD.month Demo.host dv = Some 1 /\ @MD.date Demo.host dv = Some 29.
Proof.
  destruct (@typed_date_stored Demo.host true true 2 29 2 0 2 4
              ltac:(vm_compute; reflexivity) ltac:(lia) ltac:(lia) ltac:(lia) ltac:(lia)
              ltac:(lia) ltac:(lia) ltac:(vm_compute; split; discriminate))
    as [(c & dv & earlier & Hrun & Htext & _ & _ & Hy & Hm & Hd) _].
  exists c, dv, earlier. split; [exact Hrun|]. split; [exact Htext|].
  split; [exact Hy|]. split; [exact Hm | exact Hd].
Defined.
